(** * Channel Manager (src/core/utils/channel_manager.cpp)

    A shallow embedding of OpenThread's [ChannelManager] and the proofs of
    the properties its specification states.

    The manager is a passive, single-threaded object: every public method
    and every callback runs to completion.  A method is embedded as a
    computation in a state monad over a [World], which holds the manager's
    own fields, a read-only snapshot of the collaborators it queries (MAC,
    MLE, channel monitor, clock, random source, dataset updater) and the log
    of the calls the manager makes into the collaborators it drives (timer,
    dataset updater, notifier). *)

From Stdlib Require Import ZArith List Bool Lia.
Import ListNotations.
Local Open Scope Z_scope.

(** ** Machine integers *)

Definition to_uint16 (x : Z) : Z := x mod 2 ^ 16.
Definition to_uint32 (x : Z) : Z := x mod 2 ^ 32.

(** ** Error codes

    The codes that channel_manager.cpp names; the codes of [otError] that it
    never distinguishes are [OT_ERROR_OTHER n]. *)

Inductive otError : Type :=
| OT_ERROR_NONE
| OT_ERROR_NO_BUFS
| OT_ERROR_BUSY
| OT_ERROR_INVALID_ARGS
| OT_ERROR_INVALID_STATE
| OT_ERROR_NOT_FOUND
| OT_ERROR_ALREADY
| OT_ERROR_OTHER (code : nat).

(** ** The manager's state *)

Inductive State : Type :=
| kStateIdle
| kStateChangeRequested
| kStateChangeInProgress.

Definition State_eqb (a b : State) : bool :=
  match a, b with
  | kStateIdle, kStateIdle => true
  | kStateChangeRequested, kStateChangeRequested => true
  | kStateChangeInProgress, kStateChangeInProgress => true
  | _, _ => false
  end.

(** Modelled from the spec: the timer class is not part of the sources at
    hand.  The spec gives its interface ([start], [start_at], [stop],
    [is_running], [fire_time]); a timer is its running flag and its 32-bit
    fire time in milliseconds. *)
Record Timer : Type := mkTimer {
  timerIsRunning : bool;
  timerFireTime : Z
}.

Record ChannelManager : Type := mkChannelManager {
  mSupportedChannelMask : Z;
  mFavoredChannelMask : Z;
  mDelay : Z;
  mChannel : Z;
  mState : State;
  mTimer : Timer;
  mAutoSelectInterval : Z;
  mAutoSelectEnabled : bool
}.

(** The constants of channel_manager.hpp and of the timer, which the
    sources at hand use but do not define. *)
Record Constants : Type := mkConstants {
  kMinimumDelay : Z;
  kRequestStartJitterInterval : Z;
  kPendingDatasetTxRetryInterval : Z;
  kChangeCheckWaitInterval : Z;
  kMinChannelMonitorSampleCount : Z;
  kThresholdToSkipFavored : Z;
  kThresholdToChangeChannel : Z;
  kCcaFailureRateThreshold : Z;
  kDefaultAutoSelectInterval : Z;
  kMaxDelay : Z
}.

(** What the manager reads from its collaborators at a given moment. *)
Record Environment : Type := mkEnvironment {
  macPanChannel : Z;
  macCcaFailureRate : Z;
  macSupportedChannelMask : Z;
  mleIsDisabled : bool;
  monSampleCount : Z;
  monChannelOccupancy : Z -> Z;
  monFindBestChannels : Z -> Z * Z;
  timeNow : Z;
  randomUint32 : nat -> Z;
  updaterResult : nat -> otError
}.

(** The calls the manager makes into the collaborators it drives. *)
Inductive Event : Type :=
| EvTimerStartAt (aStartTime aDelay : Z)
| EvTimerStop
| EvRequestUpdate (aChannel aDelayMs aCheckWaitInterval : Z)
| EvCancelUpdate
| EvSignalNewChannelChanged.

Record World : Type := mkWorld {
  cm : ChannelManager;
  env : Environment;
  randomDraws : nat;
  updateRequests : nat;
  trace : list Event
}.

(** ** The state monad of the methods *)

Definition M (A : Type) : Type := World -> A * World.

Definition ret {A : Type} (a : A) : M A := fun w => (a, w).

Definition bind {A B : Type} (m : M A) (k : A -> M B) : M B :=
  fun w => let (a, w') := m w in k a w'.

Notation "x <- c1 ;; c2" := (bind c1 (fun x => c2))
  (at level 61, c1 at next level, right associativity).
Notation "c1 ;; c2" := (bind c1 (fun _ => c2))
  (at level 61, right associativity).

Definition ask {A : Type} (f : World -> A) : M A := fun w => (f w, w).

Definition update_cm (f : ChannelManager -> ChannelManager) : M unit :=
  fun w => (tt, mkWorld (f (cm w)) (env w) (randomDraws w) (updateRequests w) (trace w)).

Definition emit (e : Event) : M unit :=
  fun w => (tt, mkWorld (cm w) (env w) (randomDraws w) (updateRequests w) (trace w ++ [e])).

Definition when (b : bool) (m : M unit) : M unit := if b then m else ret tt.

(** Field assignments. *)

Definition set_mSupportedChannelMask (v : Z) (c : ChannelManager) : ChannelManager :=
  mkChannelManager v (mFavoredChannelMask c) (mDelay c) (mChannel c) (mState c)
    (mTimer c) (mAutoSelectInterval c) (mAutoSelectEnabled c).

Definition set_mFavoredChannelMask (v : Z) (c : ChannelManager) : ChannelManager :=
  mkChannelManager (mSupportedChannelMask c) v (mDelay c) (mChannel c) (mState c)
    (mTimer c) (mAutoSelectInterval c) (mAutoSelectEnabled c).

Definition set_mDelay (v : Z) (c : ChannelManager) : ChannelManager :=
  mkChannelManager (mSupportedChannelMask c) (mFavoredChannelMask c) v (mChannel c)
    (mState c) (mTimer c) (mAutoSelectInterval c) (mAutoSelectEnabled c).

Definition set_mChannel (v : Z) (c : ChannelManager) : ChannelManager :=
  mkChannelManager (mSupportedChannelMask c) (mFavoredChannelMask c) (mDelay c) v
    (mState c) (mTimer c) (mAutoSelectInterval c) (mAutoSelectEnabled c).

Definition set_mState (v : State) (c : ChannelManager) : ChannelManager :=
  mkChannelManager (mSupportedChannelMask c) (mFavoredChannelMask c) (mDelay c)
    (mChannel c) v (mTimer c) (mAutoSelectInterval c) (mAutoSelectEnabled c).

Definition set_mTimer (v : Timer) (c : ChannelManager) : ChannelManager :=
  mkChannelManager (mSupportedChannelMask c) (mFavoredChannelMask c) (mDelay c)
    (mChannel c) (mState c) v (mAutoSelectInterval c) (mAutoSelectEnabled c).

Definition set_mAutoSelectInterval (v : Z) (c : ChannelManager) : ChannelManager :=
  mkChannelManager (mSupportedChannelMask c) (mFavoredChannelMask c) (mDelay c)
    (mChannel c) (mState c) (mTimer c) v (mAutoSelectEnabled c).

Definition set_mAutoSelectEnabled (v : bool) (c : ChannelManager) : ChannelManager :=
  mkChannelManager (mSupportedChannelMask c) (mFavoredChannelMask c) (mDelay c)
    (mChannel c) (mState c) (mTimer c) (mAutoSelectInterval c) v.

(** ** Collaborators *)

(** Modelled from the spec: [Time::SecToMsec] and [Time::MsecToSec] are not
    part of the sources at hand; they convert between seconds and
    milliseconds on 32-bit values. *)
Definition SecToMsec (aSeconds : Z) : Z := to_uint32 (aSeconds * 1000).
Definition MsecToSec (aMilliseconds : Z) : Z := aMilliseconds / 1000.

(** Modelled from the spec: the channel mask is "a 32-bit bitmap indexed by
    channel number" with membership, intersection and emptiness. *)
Module ChannelMask.
Definition IsEmpty (m : Z) : bool := m =? 0.
Definition Intersect (m other : Z) : Z := Z.land m other.
Definition ContainsChannel (m aChannel : Z) : bool := Z.testbit m aChannel.
End ChannelMask.

(** Modelled from the spec: the timer's [start_at] sets the fire time to
    start plus duration (32-bit time), [start] starts at the current time,
    [stop] disarms. *)
Definition Timer_StartAt (aStartTime aDelay : Z) : M unit :=
  update_cm (set_mTimer (mkTimer true (to_uint32 (aStartTime + aDelay)))) ;;
  emit (EvTimerStartAt aStartTime aDelay).

Definition Timer_Start (aDelay : Z) : M unit :=
  now <- ask (fun w => timeNow (env w)) ;;
  Timer_StartAt now aDelay.

Definition Timer_Stop : M unit :=
  update_cm (fun c => set_mTimer (mkTimer false (timerFireTime (mTimer c))) c) ;;
  emit EvTimerStop.

(** The next output of the non-cryptographic random source. *)
Definition Random_GetUint32 : M Z :=
  fun w => (to_uint32 (randomUint32 (env w) (randomDraws w)),
            mkWorld (cm w) (env w) (S (randomDraws w)) (updateRequests w) (trace w)).

(** Modelled from the spec: [uniform_u32_in_range(lo, hi_exclusive)]. *)
Definition Random_GetUint32InRange (aMin aMax : Z) : M Z :=
  r <- Random_GetUint32 ;;
  ret (aMin + r mod (aMax - aMin)).

(** [DatasetUpdater::RequestUpdate]: the call is logged with the channel and
    delay of the dataset; its result is the updater's. *)
Definition DatasetUpdater_RequestUpdate (aChannel aDelayMs aCheckWaitInterval : Z) : M otError :=
  fun w => (updaterResult (env w) (updateRequests w),
            mkWorld (cm w) (env w) (randomDraws w) (S (updateRequests w))
                    (trace w ++ [EvRequestUpdate aChannel aDelayMs aCheckWaitInterval])).

Definition DatasetUpdater_CancelUpdate : M unit := emit EvCancelUpdate.

Definition Notifier_Signal_NewChannelChanged : M unit := emit EvSignalNewChannelChanged.

(** ** The methods of [ChannelManager] *)

Section ChannelManager.

(** The constants of the build. *)
Variable K : Constants.

(** [Mac::ChannelMask::ChooseRandomChannel], whose code is not part of the
    sources at hand: the channel it returns for a mask and for the output
    of the random source it consumes. *)
Variable ChooseRandomChannel : Z -> Z -> Z.

(** The constructor. *)
Definition ChannelManager_new : ChannelManager :=
  mkChannelManager 0 0 (kMinimumDelay K) 0 kStateIdle (mkTimer false 0)
    (kDefaultAutoSelectInterval K) false.

Definition RequestChannelChange (aChannel : Z) : M unit :=
  pan <- ask (fun w => macPanChannel (env w)) ;;
  if aChannel =? pan then ret tt
  else
    st <- ask (fun w => mState (cm w)) ;;
    ch <- ask (fun w => mChannel (cm w)) ;;
    if State_eqb st kStateChangeInProgress && (ch =? aChannel) then ret tt
    else
      when (State_eqb st kStateChangeInProgress) DatasetUpdater_CancelUpdate ;;
      update_cm (set_mState kStateChangeRequested) ;;
      update_cm (set_mChannel aChannel) ;;
      jitter <- Random_GetUint32InRange 0 (kRequestStartJitterInterval K) ;;
      Timer_Start (to_uint32 (1 + jitter)) ;;
      Notifier_Signal_NewChannelChanged.

Definition SetDelay (aDelay : Z) : M otError :=
  if kMinimumDelay K <=? aDelay
  then update_cm (set_mDelay aDelay) ;; ret OT_ERROR_NONE
  else ret OT_ERROR_INVALID_ARGS.

Definition StartAutoSelectTimer : M unit :=
  st <- ask (fun w => mState (cm w)) ;;
  if State_eqb st kStateIdle then
    enabled <- ask (fun w => mAutoSelectEnabled (cm w)) ;;
    if enabled
    then interval <- ask (fun w => mAutoSelectInterval (cm w)) ;;
         Timer_Start (SecToMsec interval)
    else Timer_Stop
  else ret tt.

Definition StartDatasetUpdate : M unit :=
  channel <- ask (fun w => mChannel (cm w)) ;;
  delay <- ask (fun w => mDelay (cm w)) ;;
  result <- DatasetUpdater_RequestUpdate channel (SecToMsec delay)
              (kChangeCheckWaitInterval K) ;;
  match result with
  | OT_ERROR_NONE => update_cm (set_mState kStateChangeInProgress)
  | OT_ERROR_BUSY | OT_ERROR_NO_BUFS =>
      Timer_Start (kPendingDatasetTxRetryInterval K)
  | _ => update_cm (set_mState kStateIdle) ;; StartAutoSelectTimer
  end.

Definition HandleDatasetUpdateDone (aError : otError) : M unit :=
  update_cm (set_mState kStateIdle) ;;
  StartAutoSelectTimer.

(** The result of [FindBetterChannel] is its error, or the two values it
    writes through its reference arguments. *)
Definition FindBetterChannel : M (otError + Z * Z) :=
  samples <- ask (fun w => monSampleCount (env w)) ;;
  if samples <=? kMinChannelMonitorSampleCount K then ret (inl OT_ERROR_INVALID_STATE)
  else
    favored <- ask (fun w => mFavoredChannelMask (cm w)) ;;
    supported <- ask (fun w => mSupportedChannelMask (cm w)) ;;
    let favoredAndSupported := ChannelMask.Intersect favored supported in
    fb <- ask (fun w => monFindBestChannels (env w) favoredAndSupported) ;;
    sb <- ask (fun w => monFindBestChannels (env w) supported) ;;
    let '(favoredBest, favoredOccupancy) := fb in
    let '(supportedBest, supportedOccupancy) := sb in
    let '(favoredBest, favoredOccupancy) :=
      if ChannelMask.IsEmpty favoredBest
         || ((kThresholdToSkipFavored K <=? favoredOccupancy)
             && (supportedOccupancy <? favoredOccupancy - kThresholdToSkipFavored K))
      then (supportedBest, supportedOccupancy)
      else (favoredBest, favoredOccupancy) in
    if ChannelMask.IsEmpty favoredBest then ret (inl OT_ERROR_NOT_FOUND)
    else
      r <- Random_GetUint32 ;;
      ret (inr (ChooseRandomChannel favoredBest r, favoredOccupancy)).

Definition ShouldAttemptChannelChange : M bool :=
  ccaFailureRate <- ask (fun w => macCcaFailureRate (env w)) ;;
  ret (kCcaFailureRateThreshold K <=? ccaFailureRate).

Definition RequestChannelSelect (aSkipQualityCheck : bool) : M otError :=
  disabled <- ask (fun w => mleIsDisabled (env w)) ;;
  if disabled then ret OT_ERROR_INVALID_STATE
  else
    attempt <- (if aSkipQualityCheck then ret true else ShouldAttemptChannelChange) ;;
    if negb attempt then ret OT_ERROR_NONE
    else
      found <- FindBetterChannel ;;
      match found with
      | inl error => ret error
      | inr (newChannel, newOccupancy) =>
          curChannel <- ask (fun w => macPanChannel (env w)) ;;
          curOccupancy <- ask (fun w => monChannelOccupancy (env w) curChannel) ;;
          if newChannel =? curChannel then ret OT_ERROR_NONE
          else if (curOccupancy <=? newOccupancy)
                  || (to_uint16 (curOccupancy - newOccupancy)
                      <? kThresholdToChangeChannel K)
          then ret OT_ERROR_NONE
          else RequestChannelChange newChannel ;; ret OT_ERROR_NONE
      end.

Definition HandleTimer : M unit :=
  st <- ask (fun w => mState (cm w)) ;;
  match st with
  | kStateIdle => _ <- RequestChannelSelect false ;; StartAutoSelectTimer
  | kStateChangeRequested => StartDatasetUpdate
  | kStateChangeInProgress => ret tt
  end.

Definition SetAutoChannelSelectionEnabled (aEnabled : bool) : M unit :=
  enabled <- ask (fun w => mAutoSelectEnabled (cm w)) ;;
  if Bool.eqb aEnabled enabled then ret tt
  else
    update_cm (set_mAutoSelectEnabled aEnabled) ;;
    _ <- RequestChannelSelect false ;;
    StartAutoSelectTimer.

Definition SetAutoChannelSelectionInterval (aInterval : Z) : M otError :=
  prevInterval <- ask (fun w => mAutoSelectInterval (cm w)) ;;
  if negb (aInterval =? 0) && (aInterval <=? MsecToSec (kMaxDelay K)) then
    update_cm (set_mAutoSelectInterval aInterval) ;;
    enabled <- ask (fun w => mAutoSelectEnabled (cm w)) ;;
    st <- ask (fun w => mState (cm w)) ;;
    running <- ask (fun w => timerIsRunning (mTimer (cm w))) ;;
    if enabled && State_eqb st kStateIdle && running && negb (prevInterval =? aInterval)
    then
      fireTime <- ask (fun w => timerFireTime (mTimer (cm w))) ;;
      Timer_StartAt (to_uint32 (fireTime - SecToMsec prevInterval)) (SecToMsec aInterval) ;;
      ret OT_ERROR_NONE
    else ret OT_ERROR_NONE
  else ret OT_ERROR_INVALID_ARGS.

Definition SetSupportedChannels (aChannelMask : Z) : M unit :=
  macMask <- ask (fun w => macSupportedChannelMask (env w)) ;;
  update_cm (set_mSupportedChannelMask (Z.land aChannelMask macMask)).

Definition SetFavoredChannels (aChannelMask : Z) : M unit :=
  macMask <- ask (fun w => macSupportedChannelMask (env w)) ;;
  update_cm (set_mFavoredChannelMask (Z.land aChannelMask macMask)).

(** ** The manager in its stack

    What can happen to a manager: a call of one of its methods, the expiry
    of its timer, the updater's completion callback, and a change of what
    its collaborators report (time passing included). *)

Inductive Input : Type :=
| InRequestChannelChange (aChannel : Z)
| InSetDelay (aDelay : Z)
| InRequestChannelSelect (aSkipQualityCheck : bool)
| InSetAutoChannelSelectionEnabled (aEnabled : bool)
| InSetAutoChannelSelectionInterval (aInterval : Z)
| InSetSupportedChannels (aChannelMask : Z)
| InSetFavoredChannels (aChannelMask : Z)
| InTimerFired
| InDatasetUpdateDone (aError : otError)
| InEnvironment (e : Environment).

(** The expiry of the timer: the scheduler takes a running timer off its
    list and calls the handler. *)
Definition TimerFired : M unit :=
  running <- ask (fun w => timerIsRunning (mTimer (cm w))) ;;
  if running then
    update_cm (fun c => set_mTimer (mkTimer false (timerFireTime (mTimer c))) c) ;;
    HandleTimer
  else ret tt.

Definition set_env (e : Environment) : M unit :=
  fun w => (tt, mkWorld (cm w) e (randomDraws w) (updateRequests w) (trace w)).

Definition step (i : Input) (w : World) : World :=
  match i with
  | InRequestChannelChange c => snd (RequestChannelChange c w)
  | InSetDelay d => snd (SetDelay d w)
  | InRequestChannelSelect s => snd (RequestChannelSelect s w)
  | InSetAutoChannelSelectionEnabled b => snd (SetAutoChannelSelectionEnabled b w)
  | InSetAutoChannelSelectionInterval s => snd (SetAutoChannelSelectionInterval s w)
  | InSetSupportedChannels m => snd (SetSupportedChannels m w)
  | InSetFavoredChannels m => snd (SetFavoredChannels m w)
  | InTimerFired => snd (TimerFired w)
  | InDatasetUpdateDone e => snd (HandleDatasetUpdateDone e w)
  | InEnvironment e => snd (set_env e w)
  end.

Definition run (inputs : list Input) (w : World) : World :=
  fold_left (fun w i => step i w) inputs w.

(** The events a later world has logged since an earlier one. *)
Definition events_since (w w' : World) : list Event :=
  skipn (length (trace w)) (trace w').

End ChannelManager.

(** ** A concrete stack, for running the methods

    Modelled from the spec: the channel monitor and the random pick of a
    channel mask are not part of the sources at hand.  [find_best] "returns
    the subset of channels tied for minimum occupancy and the occupancy
    value" (for a mask without channels the spec names no occupancy; the
    largest 16-bit value stands for it), and the pick is taken "uniformly at
    random from members": the member whose index the random source gives. *)

Module Concrete.

Definition channels_of (m : Z) : list Z :=
  filter (Z.testbit m) (map Z.of_nat (seq 0 32)).

Definition mask_of (l : list Z) : Z :=
  fold_right (fun c m => Z.lor (Z.shiftl 1 c) m) 0 l.

Definition min_occupancy (occupancy : Z -> Z) (l : list Z) : Z :=
  fold_right (fun c o => Z.min (occupancy c) o) 65535 l.

Definition find_best (occupancy : Z -> Z) (m : Z) : Z * Z :=
  let l := channels_of m in
  let o := min_occupancy occupancy l in
  (mask_of (filter (fun c => occupancy c =? o) l), o).

Definition choose (m r : Z) : Z :=
  let l := channels_of m in
  nth (Z.to_nat (r mod Z.of_nat (length l))) l 0.

(** Constants for the scenarios of the spec: a minimum delay of 120 s, an
    auto-select interval of 3600 s, the threshold 0x0100 of scenario 4; the
    timer's largest delay is half the range of the 32-bit clock. *)
Definition constants : Constants :=
  {| kMinimumDelay := 120;
     kRequestStartJitterInterval := 10000;
     kPendingDatasetTxRetryInterval := 20000;
     kChangeCheckWaitInterval := 30000;
     kMinChannelMonitorSampleCount := 500;
     kThresholdToSkipFavored := 1280;
     kThresholdToChangeChannel := 256;
     kCcaFailureRateThreshold := 14080;
     kDefaultAutoSelectInterval := 3600;
     kMaxDelay := 2147483647 |}.

(** The occupancy table of scenario 4 of the spec: channel 20 at 0x0100,
    channel 15 at 0x0400, the other channels busier. *)
Definition occupancy (c : Z) : Z :=
  if c =? 20 then 256 else if c =? 15 then 1024 else 8192.

(** A stack on channel 15 with a noisy link and a monitor that has seen
    enough samples. *)
Definition environment : Environment :=
  {| macPanChannel := 15;
     macCcaFailureRate := 20000;
     macSupportedChannelMask := 134215680;
     mleIsDisabled := false;
     monSampleCount := 1000;
     monChannelOccupancy := occupancy;
     monFindBestChannels := find_best occupancy;
     timeNow := 0;
     randomUint32 := fun n => Z.of_nat n * 7919 + 4242;
     updaterResult := fun _ => OT_ERROR_NONE |}.

Definition with_time (t : Z) (e : Environment) : Environment :=
  mkEnvironment (macPanChannel e) (macCcaFailureRate e) (macSupportedChannelMask e)
    (mleIsDisabled e) (monSampleCount e) (monChannelOccupancy e)
    (monFindBestChannels e) t (randomUint32 e) (updaterResult e).

Definition with_updater (u : nat -> otError) (e : Environment) : Environment :=
  mkEnvironment (macPanChannel e) (macCcaFailureRate e) (macSupportedChannelMask e)
    (mleIsDisabled e) (monSampleCount e) (monChannelOccupancy e)
    (monFindBestChannels e) (timeNow e) (randomUint32 e) u.

Definition with_cca (rate : Z) (e : Environment) : Environment :=
  mkEnvironment (macPanChannel e) rate (macSupportedChannelMask e)
    (mleIsDisabled e) (monSampleCount e) (monChannelOccupancy e)
    (monFindBestChannels e) (timeNow e) (randomUint32 e) (updaterResult e).

Definition with_pan (c : Z) (e : Environment) : Environment :=
  mkEnvironment c (macCcaFailureRate e) (macSupportedChannelMask e)
    (mleIsDisabled e) (monSampleCount e) (monChannelOccupancy e)
    (monFindBestChannels e) (timeNow e) (randomUint32 e) (updaterResult e).

Definition with_mle (disabled : bool) (e : Environment) : Environment :=
  mkEnvironment (macPanChannel e) (macCcaFailureRate e) (macSupportedChannelMask e)
    disabled (monSampleCount e) (monChannelOccupancy e)
    (monFindBestChannels e) (timeNow e) (randomUint32 e) (updaterResult e).

Definition with_samples (n : Z) (e : Environment) : Environment :=
  mkEnvironment (macPanChannel e) (macCcaFailureRate e) (macSupportedChannelMask e)
    (mleIsDisabled e) n (monChannelOccupancy e)
    (monFindBestChannels e) (timeNow e) (randomUint32 e) (updaterResult e).

(** A freshly constructed manager in that stack. *)
Definition world0 : World :=
  mkWorld (ChannelManager_new constants) environment 0 0 [].

(** The same after the host has set the supported channels to 11..26 and
    the favored ones to 15, 20 and 25. *)
Definition world1 : World :=
  run constants choose
    [InSetSupportedChannels 134215680; InSetFavoredChannels (mask_of [15; 20; 25])]
    world0.

(** [world1] seen through another state of the collaborators. *)
Definition world1_in (e : Environment) : World :=
  snd (set_env e world1).

End Concrete.

(** ** The selection policy in the words of the specification

    Section 4.2, steps 2 to 4: the best favored-and-supported tie set, the
    best supported tie set, and the choice between the two. *)

Module Policy.

Definition favored_best (w : World) : Z * Z :=
  monFindBestChannels (env w)
    (Z.land (mFavoredChannelMask (cm w)) (mSupportedChannelMask (cm w))).

Definition overall_best (w : World) : Z * Z :=
  monFindBestChannels (env w) (mSupportedChannelMask (cm w)).

(** "unless [favored_best] is empty, or [favored_occ >=
    THRESHOLD_TO_SKIP_FAVORED] and [overall_occ < favored_occ -
    THRESHOLD_TO_SKIP_FAVORED]". *)
Definition skip_favored (K : Constants) (w : World) : Prop :=
  fst (favored_best w) = 0
  \/ (kThresholdToSkipFavored K <= snd (favored_best w)
      /\ snd (overall_best w) < snd (favored_best w) - kThresholdToSkipFavored K).

Definition skip_favoredb (K : Constants) (w : World) : bool :=
  (fst (favored_best w) =? 0)
  || ((kThresholdToSkipFavored K <=? snd (favored_best w))
      && (snd (overall_best w) <? snd (favored_best w) - kThresholdToSkipFavored K)).

(** The chosen tie set and its occupancy. *)
Definition chosen (K : Constants) (w : World) : Z * Z :=
  if skip_favoredb K w then overall_best w else favored_best w.

End Policy.

(** The output of the random source that the next draw returns, and the
    world after that draw. *)
Definition next_random (w : World) : Z := fst (Random_GetUint32 w).
Definition after_draw (w : World) : World := snd (Random_GetUint32 w).

(** The world with other channel masks in the manager. *)
Definition with_masks (supported favored : Z) (w : World) : World :=
  mkWorld (set_mFavoredChannelMask favored (set_mSupportedChannelMask supported (cm w)))
    (env w) (randomDraws w) (updateRequests w) (trace w).

(** ** Notions the properties are stated with *)

(** The gate of [RequestChannelSelect]: the policy runs when the mesh layer
    is enabled and either the caller skips the quality check or the CCA
    failure rate has reached the threshold. *)
Definition policy_invoked (K : Constants) (aSkipQualityCheck : bool) (w : World) : Prop :=
  mleIsDisabled (env w) = false
  /\ (aSkipQualityCheck = true
      \/ kCcaFailureRateThreshold K <= macCcaFailureRate (env w)).

(** The log entries that are requests of a dataset update. *)
Definition is_update (e : Event) : bool :=
  match e with
  | EvRequestUpdate _ _ _ => true
  | _ => false
  end.

(** The configuration the host sets. *)
Definition config (c : ChannelManager) : Z * Z * Z * Z * bool :=
  (mSupportedChannelMask c, mFavoredChannelMask c, mDelay c,
   mAutoSelectInterval c, mAutoSelectEnabled c).

(** [frame w w']: from [w] to [w'] the configuration and the collaborators'
    state are kept and no dataset update is requested. *)
Definition frame (w w' : World) : Prop :=
  config (cm w') = config (cm w)
  /\ env w' = env w
  /\ updateRequests w' = updateRequests w
  /\ exists events, trace w' = trace w ++ events
                    /\ Forall (fun e => is_update e = false) events.

(** The claim about [SetAutoChannelSelectionEnabled] as the specification
    words it: a selection and the arming of the timer on the transition to
    enabled; on the transition to disabled no selection, and the timer
    stopped if the state is idle. *)
Definition set_auto_selection_enabled_as_claimed
           (K : Constants) (pick : Z -> Z -> Z) (aEnabled : bool) : M unit :=
  enabled <- ask (fun w => mAutoSelectEnabled (cm w)) ;;
  if Bool.eqb aEnabled enabled then ret tt
  else
    update_cm (set_mAutoSelectEnabled aEnabled) ;;
    if aEnabled
    then _ <- RequestChannelSelect K pick false ;; StartAutoSelectTimer
    else st <- ask (fun w => mState (cm w)) ;;
         if State_eqb st kStateIdle then Timer_Stop else ret tt.

(** A manager with auto-selection enabled, idle, its timer running, on a
    link that has become noisy while channel 20 is much cleaner than the
    current channel 15. *)
Definition auto_enabled_world : World :=
  run Concrete.constants Concrete.choose
    [InSetAutoChannelSelectionEnabled true; InEnvironment Concrete.environment]
    (Concrete.world1_in (Concrete.with_cca 0 Concrete.environment)).

(** The inputs that change the stored delay: the calls of [SetDelay] that
    are accepted. *)
Definition accepts_delay (K : Constants) (i : Input) : bool :=
  match i with
  | InSetDelay aDelay => kMinimumDelay K <=? aDelay
  | _ => false
  end.

(** [quiet w w']: the stored delay is kept and no dataset update is
    requested. *)
Definition quiet (w w' : World) : Prop :=
  mDelay (cm w') = mDelay (cm w)
  /\ exists events, trace w' = trace w ++ events
                    /\ Forall (fun e => is_update e = false) events.

(** [carries w w']: the dataset updates requested from [w] to [w'] have the
    channel and the delay stored in [w]. *)
Definition carries (w w' : World) : Prop :=
  exists events,
    trace w' = trace w ++ events
    /\ forall aChannel aDelayMs aWait,
         In (EvRequestUpdate aChannel aDelayMs aWait) events ->
         aChannel = mChannel (cm w) /\ aDelayMs = SecToMsec (mDelay (cm w)).

(** The world in which the handler of an expired timer runs. *)
Definition expired (w : World) : World :=
  snd (update_cm (fun c => set_mTimer (mkTimer false (timerFireTime (mTimer c))) c) w).

(** The calls into the timer among the log entries, and the latest of
    them. *)
Definition is_timer_call (e : Event) : bool :=
  match e with
  | EvTimerStartAt _ _ | EvTimerStop => true
  | _ => false
  end.

Definition last_timer_call (events : list Event) : option Event :=
  hd_error (rev (filter is_timer_call events)).

(** In the idle state a running timer is the auto-select timer: the flag is
    set, and the latest call into the timer started it, at some start time,
    for the stored interval. *)
Definition auto_timer_armed (w : World) : Prop :=
  mState (cm w) = kStateIdle ->
  timerIsRunning (mTimer (cm w)) = true ->
  mAutoSelectEnabled (cm w) = true
  /\ exists start,
       last_timer_call (trace w)
       = Some (EvTimerStartAt start (SecToMsec (mAutoSelectInterval (cm w))))
       /\ timerFireTime (mTimer (cm w))
          = to_uint32 (start + SecToMsec (mAutoSelectInterval (cm w))).

(** [same_timer w w']: the state, the timer, the auto-select settings and
    the latest call into the timer are the same in both worlds. *)
Definition same_timer (w w' : World) : Prop :=
  mState (cm w') = mState (cm w)
  /\ mTimer (cm w') = mTimer (cm w)
  /\ mAutoSelectInterval (cm w') = mAutoSelectInterval (cm w)
  /\ mAutoSelectEnabled (cm w') = mAutoSelectEnabled (cm w)
  /\ last_timer_call (trace w') = last_timer_call (trace w).

(** A freshly constructed manager in a stack. *)
Definition initial (K : Constants) (e : Environment) : World :=
  mkWorld (ChannelManager_new K) e 0 0 [].

(** Whether the timer runs, by the state of the manager: in the idle state
    it is the auto-select timer, with a requested change the jitter or retry
    timer, and with a change in progress it is not used. *)
Definition timer_expected (c : ChannelManager) : bool :=
  match mState c with
  | kStateIdle => mAutoSelectEnabled c
  | kStateChangeRequested => true
  | kStateChangeInProgress => false
  end.

Definition timer_matches_state (w : World) : Prop :=
  timerIsRunning (mTimer (cm w)) = timer_expected (cm w).

(** The same, or an idle manager whose timer is yet to be managed. *)
Definition idle_or_matches (w : World) : Prop :=
  mState (cm w) = kStateIdle \/ timer_matches_state w.

(** The calls into the dataset updater among the log entries, and the
    latest of them. *)
Definition is_updater_call (e : Event) : bool :=
  match e with
  | EvRequestUpdate _ _ _ | EvCancelUpdate => true
  | _ => false
  end.

Definition last_updater_call (events : list Event) : option Event :=
  hd_error (rev (filter is_updater_call events)).

(** While a change is in progress, the latest call into the updater is the
    request of an update to the stored target channel. *)
Definition update_in_flight (w : World) : Prop :=
  mState (cm w) = kStateChangeInProgress ->
  exists aDelayMs aWait,
    last_updater_call (trace w) = Some (EvRequestUpdate (mChannel (cm w)) aDelayMs aWait).

(** [neutral w w']: the state and the target channel are kept and the
    updater is not called. *)
Definition neutral (w w' : World) : Prop :=
  mState (cm w') = mState (cm w)
  /\ mChannel (cm w') = mChannel (cm w)
  /\ exists events, trace w' = trace w ++ events
                    /\ Forall (fun e => is_updater_call e = false) events.

(** [cancel_ok w w']: an update is cancelled from [w] to [w'] only out of a
    change in progress, for a requested change to another channel. *)
Definition cancel_ok (w w' : World) : Prop :=
  exists events,
    trace w' = trace w ++ events
    /\ (In EvCancelUpdate events ->
        mState (cm w) = kStateChangeInProgress
        /\ mState (cm w') = kStateChangeRequested
        /\ mChannel (cm w') <> mChannel (cm w)).

(** [silent w w']: no dataset update is requested from [w] to [w']. *)
Definition silent (w w' : World) : Prop :=
  exists events, trace w' = trace w ++ events
                 /\ Forall (fun e => is_update e = false) events.

(** The configuration after an input, by the input alone: a setter writes
    its field (if it accepts its argument), nothing else writes any. *)
Definition config_after (K : Constants) (i : Input) (w : World) : Z * Z * Z * Z * bool :=
  let c := cm w in
  match i with
  | InSetSupportedChannels m =>
      (Z.land m (macSupportedChannelMask (env w)), mFavoredChannelMask c, mDelay c,
       mAutoSelectInterval c, mAutoSelectEnabled c)
  | InSetFavoredChannels m =>
      (mSupportedChannelMask c, Z.land m (macSupportedChannelMask (env w)), mDelay c,
       mAutoSelectInterval c, mAutoSelectEnabled c)
  | InSetDelay d =>
      (mSupportedChannelMask c, mFavoredChannelMask c,
       (if kMinimumDelay K <=? d then d else mDelay c),
       mAutoSelectInterval c, mAutoSelectEnabled c)
  | InSetAutoChannelSelectionInterval s =>
      (mSupportedChannelMask c, mFavoredChannelMask c, mDelay c,
       (if negb (s =? 0) && (s <=? MsecToSec (kMaxDelay K)) then s
        else mAutoSelectInterval c),
       mAutoSelectEnabled c)
  | InSetAutoChannelSelectionEnabled b =>
      (mSupportedChannelMask c, mFavoredChannelMask c, mDelay c,
       mAutoSelectInterval c, b)
  | _ => config c
  end.

(** The arguments of an input are of their C++ types where the model needs
    it: the interval is unsigned. *)
Definition input_typed (i : Input) : Prop :=
  match i with
  | InSetAutoChannelSelectionInterval s => 0 <= s
  | _ => True
  end.

(** The stored delay and interval are within their bounds. *)
Definition settings_valid (K : Constants) (w : World) : Prop :=
  kMinimumDelay K <= mDelay (cm w)
  /\ 1 <= mAutoSelectInterval (cm w) <= MsecToSec (kMaxDelay K).

(** * Properties *)

Arguments to_uint16 : simpl never.
Arguments to_uint32 : simpl never.
Arguments SecToMsec : simpl never.
Arguments MsecToSec : simpl never.

Ltac unfold_monad :=
  unfold bind, ret, ask, update_cm, emit, when, set_env,
    Timer_Start, Timer_StartAt, Timer_Stop,
    Random_GetUint32InRange, Random_GetUint32,
    DatasetUpdater_RequestUpdate, DatasetUpdater_CancelUpdate,
    Notifier_Signal_NewChannelChanged in *.

Lemma skip_favoredb_spec (K : Constants) (w : World) :
  Policy.skip_favoredb K w = true <-> Policy.skip_favored K w.
Proof.
  unfold Policy.skip_favoredb, Policy.skip_favored.
  rewrite orb_true_iff, andb_true_iff, Z.eqb_eq, Z.leb_le, Z.ltb_lt.
  reflexivity.
Qed.

Lemma skip_favoredb_false (K : Constants) (w : World) :
  Policy.skip_favoredb K w = false <-> ~ Policy.skip_favored K w.
Proof.
  rewrite <- skip_favoredb_spec.
  destruct (Policy.skip_favoredb K w); split; congruence.
Qed.

(** What [FindBetterChannel] computes once the monitor has enough samples:
    the pick from the chosen tie set, or [OT_ERROR_NOT_FOUND]. *)
Lemma FindBetterChannel_chosen (K : Constants) (pick : Z -> Z -> Z) (w : World) :
  kMinChannelMonitorSampleCount K < monSampleCount (env w) ->
  FindBetterChannel K pick w =
    if ChannelMask.IsEmpty (fst (Policy.chosen K w))
    then (inl OT_ERROR_NOT_FOUND, w)
    else (inr (pick (fst (Policy.chosen K w)) (next_random w), snd (Policy.chosen K w)),
          after_draw w).
Proof.
  intros Hsamples.
  unfold FindBetterChannel, Policy.chosen, Policy.skip_favoredb,
    Policy.favored_best, Policy.overall_best, next_random, after_draw,
    ChannelMask.Intersect, ChannelMask.IsEmpty.
  unfold_monad.
  destruct (Z.leb_spec (monSampleCount (env w)) (kMinChannelMonitorSampleCount K)) as [Hle|_];
    [lia|].
  destruct (monFindBestChannels (env w)
              (Z.land (mFavoredChannelMask (cm w)) (mSupportedChannelMask (cm w))))
    as [fb fo].
  destruct (monFindBestChannels (env w) (mSupportedChannelMask (cm w))) as [sb so].
  cbn [fst snd].
  destruct ((fb =? 0) || ((kThresholdToSkipFavored K <=? fo)
                          && (so <? fo - kThresholdToSkipFavored K)));
    cbn [fst snd].
  - destruct (sb =? 0); reflexivity.
  - destruct (fb =? 0); reflexivity.
Qed.

Lemma FindBetterChannel_few_samples (K : Constants) (pick : Z -> Z -> Z) (w : World) :
  monSampleCount (env w) <= kMinChannelMonitorSampleCount K ->
  FindBetterChannel K pick w = (inl OT_ERROR_INVALID_STATE, w).
Proof.
  intros Hsamples. unfold FindBetterChannel. unfold_monad.
  destruct (Z.leb_spec (monSampleCount (env w)) (kMinChannelMonitorSampleCount K));
    [reflexivity | lia].
Qed.

(** A draw from the random source touches neither the manager nor the log. *)
Lemma after_draw_frame (w : World) :
  cm (after_draw w) = cm w /\ env (after_draw w) = env w
  /\ trace (after_draw w) = trace w
  /\ updateRequests (after_draw w) = updateRequests w.
Proof. repeat split. Qed.

(** C1: with enough samples the selection policy ([FindBetterChannel])
    prefers the best favored-and-supported tie set over the best supported
    tie set unless the favored tie set is empty, or its occupancy is at
    least [kThresholdToSkipFavored] and the overall occupancy is below it by
    more than that threshold.  In those cases it uses the overall tie set and
    its occupancy.  The channel returned is the random pick from the chosen
    tie set and comes with that set's occupancy. *)
Theorem FindBetterChannel_prefers_favored (K : Constants) (pick : Z -> Z -> Z) (w : World) :
  kMinChannelMonitorSampleCount K < monSampleCount (env w) ->
  (~ Policy.skip_favored K w ->
   FindBetterChannel K pick w =
     (inr (pick (fst (Policy.favored_best w)) (next_random w), snd (Policy.favored_best w)),
      after_draw w))
  /\ (Policy.skip_favored K w -> fst (Policy.overall_best w) <> 0 ->
      FindBetterChannel K pick w =
        (inr (pick (fst (Policy.overall_best w)) (next_random w), snd (Policy.overall_best w)),
         after_draw w))
  /\ (Policy.skip_favored K w -> fst (Policy.overall_best w) = 0 ->
      FindBetterChannel K pick w = (inl OT_ERROR_NOT_FOUND, w)).
Proof.
  intros Hsamples.
  rewrite (FindBetterChannel_chosen K pick w Hsamples).
  unfold Policy.chosen, ChannelMask.IsEmpty.
  repeat split.
  - intros Hpref. apply skip_favoredb_false in Hpref as Hb. rewrite Hb.
    destruct (Z.eqb_spec (fst (Policy.favored_best w)) 0) as [Hempty|_]; [|reflexivity].
    exfalso. apply Hpref. left. exact Hempty.
  - intros Hskip Hne. apply skip_favoredb_spec in Hskip. rewrite Hskip.
    destruct (Z.eqb_spec (fst (Policy.overall_best w)) 0); [contradiction | reflexivity].
  - intros Hskip Hempty. apply skip_favoredb_spec in Hskip. rewrite Hskip.
    rewrite Hempty. reflexivity.
Qed.

Lemma FindBetterChannel_prefers_favored_witness :
  FindBetterChannel Concrete.constants Concrete.choose Concrete.world1
  = (inr (20, 256), after_draw Concrete.world1).
Proof.
  destruct (FindBetterChannel_prefers_favored
              Concrete.constants Concrete.choose Concrete.world1) as [Hfavored _].
  - vm_compute. reflexivity.
  - rewrite Hfavored.
    + reflexivity.
    + intros Hskip. apply skip_favoredb_spec in Hskip. vm_compute in Hskip. discriminate.
Defined.

Lemma RequestChannelSelect_invoked
      (K : Constants) (pick : Z -> Z -> Z) (aSkipQualityCheck : bool) (w : World) :
  policy_invoked K aSkipQualityCheck w ->
  RequestChannelSelect K pick aSkipQualityCheck w =
    match FindBetterChannel K pick w with
    | (inl error, w1) => (error, w1)
    | (inr (newChannel, newOccupancy), w1) =>
        let curChannel := macPanChannel (env w1) in
        let curOccupancy := monChannelOccupancy (env w1) curChannel in
        if newChannel =? curChannel then (OT_ERROR_NONE, w1)
        else if (curOccupancy <=? newOccupancy)
                || (to_uint16 (curOccupancy - newOccupancy) <? kThresholdToChangeChannel K)
        then (OT_ERROR_NONE, w1)
        else (OT_ERROR_NONE, snd (RequestChannelChange K newChannel w1))
    end.
Proof.
  intros [Hmle Hgate].
  unfold RequestChannelSelect, ShouldAttemptChannelChange.
  unfold bind at 1. unfold ask at 1. rewrite Hmle.
  assert (Hattempt :
    (if aSkipQualityCheck then ret true
     else bind (ask (fun w0 => macCcaFailureRate (env w0)))
            (fun rate => ret (kCcaFailureRateThreshold K <=? rate))) w = (true, w)).
  { destruct aSkipQualityCheck; [reflexivity|].
    destruct Hgate as [Hskip|Hrate]; [discriminate|].
    unfold bind, ask, ret. apply Z.leb_le in Hrate. rewrite Hrate. reflexivity. }
  unfold bind at 1. rewrite Hattempt. cbn [negb].
  unfold bind at 1.
  destruct (FindBetterChannel K pick w) as [[error|[newChannel newOccupancy]] w1];
    [reflexivity|].
  unfold bind at 1. unfold ask at 1. unfold bind at 1. unfold ask at 1.
  cbn zeta.
  destruct (newChannel =? macPanChannel (env w1)); [reflexivity|].
  destruct ((monChannelOccupancy (env w1) (macPanChannel (env w1)) <=? newOccupancy)
            || (to_uint16 (monChannelOccupancy (env w1) (macPanChannel (env w1)) - newOccupancy)
                <? kThresholdToChangeChannel K)); [reflexivity|].
  unfold bind at 1. destruct (RequestChannelChange K newChannel w1). reflexivity.
Qed.

Lemma RequestChannelSelect_disabled
      (K : Constants) (pick : Z -> Z -> Z) (aSkipQualityCheck : bool) (w : World) :
  mleIsDisabled (env w) = true ->
  RequestChannelSelect K pick aSkipQualityCheck w = (OT_ERROR_INVALID_STATE, w).
Proof.
  intros Hmle. unfold RequestChannelSelect, bind at 1, ask at 1.
  rewrite Hmle. reflexivity.
Qed.

Lemma RequestChannelSelect_gated (K : Constants) (pick : Z -> Z -> Z) (w : World) :
  mleIsDisabled (env w) = false ->
  macCcaFailureRate (env w) < kCcaFailureRateThreshold K ->
  RequestChannelSelect K pick false w = (OT_ERROR_NONE, w).
Proof.
  intros Hmle Hrate.
  unfold RequestChannelSelect, ShouldAttemptChannelChange, bind, ask, ret.
  rewrite Hmle. apply Z.leb_gt in Hrate. rewrite Hrate. reflexivity.
Qed.

(** C4: the outcomes of [RequestChannelSelect], in the order of its checks:
    [OT_ERROR_INVALID_STATE] when the mesh layer is disabled; otherwise
    success with nothing changed and the policy not run when the caller did
    not skip the quality check and the CCA failure rate is below the
    threshold ([ShouldAttemptChannelChange] answers whether the rate has
    reached the threshold); otherwise [OT_ERROR_INVALID_STATE] when the
    monitor has at most [kMinChannelMonitorSampleCount] samples; otherwise
    [OT_ERROR_NOT_FOUND] when the chosen tie set is empty. *)
Theorem RequestChannelSelect_outcomes
        (K : Constants) (pick : Z -> Z -> Z) (aSkipQualityCheck : bool) (w : World) :
  (mleIsDisabled (env w) = true ->
   RequestChannelSelect K pick aSkipQualityCheck w = (OT_ERROR_INVALID_STATE, w))
  /\ (fst (ShouldAttemptChannelChange K w) = true
      <-> kCcaFailureRateThreshold K <= macCcaFailureRate (env w))
  /\ snd (ShouldAttemptChannelChange K w) = w
  /\ (mleIsDisabled (env w) = false -> aSkipQualityCheck = false ->
      macCcaFailureRate (env w) < kCcaFailureRateThreshold K ->
      RequestChannelSelect K pick aSkipQualityCheck w = (OT_ERROR_NONE, w))
  /\ (policy_invoked K aSkipQualityCheck w ->
      monSampleCount (env w) <= kMinChannelMonitorSampleCount K ->
      RequestChannelSelect K pick aSkipQualityCheck w = (OT_ERROR_INVALID_STATE, w))
  /\ (policy_invoked K aSkipQualityCheck w ->
      kMinChannelMonitorSampleCount K < monSampleCount (env w) ->
      ChannelMask.IsEmpty (fst (Policy.chosen K w)) = true ->
      RequestChannelSelect K pick aSkipQualityCheck w = (OT_ERROR_NOT_FOUND, w)).
Proof.
  repeat split.
  - apply RequestChannelSelect_disabled.
  - unfold ShouldAttemptChannelChange, bind, ask, ret. cbn [fst]. apply Z.leb_le.
  - unfold ShouldAttemptChannelChange, bind, ask, ret. cbn [fst]. apply Z.leb_le.
  - intros Hmle Hskip Hrate. subst aSkipQualityCheck.
    apply RequestChannelSelect_gated; assumption.
  - intros Hinv Hsamples.
    rewrite (RequestChannelSelect_invoked K pick _ w Hinv).
    rewrite (FindBetterChannel_few_samples K pick w Hsamples). reflexivity.
  - intros Hinv Hsamples Hempty.
    rewrite (RequestChannelSelect_invoked K pick _ w Hinv).
    rewrite (FindBetterChannel_chosen K pick w Hsamples), Hempty. reflexivity.
Qed.

Lemma RequestChannelSelect_outcomes_witness :
  RequestChannelSelect Concrete.constants Concrete.choose true
    (Concrete.world1_in (Concrete.with_mle true Concrete.environment))
  = (OT_ERROR_INVALID_STATE, Concrete.world1_in (Concrete.with_mle true Concrete.environment))
  /\ RequestChannelSelect Concrete.constants Concrete.choose false
       (Concrete.world1_in (Concrete.with_cca 100 Concrete.environment))
     = (OT_ERROR_NONE, Concrete.world1_in (Concrete.with_cca 100 Concrete.environment))
  /\ RequestChannelSelect Concrete.constants Concrete.choose true
       (Concrete.world1_in (Concrete.with_samples 500 Concrete.environment))
     = (OT_ERROR_INVALID_STATE,
        Concrete.world1_in (Concrete.with_samples 500 Concrete.environment))
  /\ RequestChannelSelect Concrete.constants Concrete.choose false Concrete.world0
     = (OT_ERROR_NOT_FOUND, Concrete.world0).
Proof.
  split; [|split; [|split]].
  - destruct (RequestChannelSelect_outcomes Concrete.constants Concrete.choose true
                (Concrete.world1_in (Concrete.with_mle true Concrete.environment)))
      as (Hdisabled & _).
    apply Hdisabled. reflexivity.
  - destruct (RequestChannelSelect_outcomes Concrete.constants Concrete.choose false
                (Concrete.world1_in (Concrete.with_cca 100 Concrete.environment)))
      as (_ & _ & _ & Hquiet & _).
    apply Hquiet; reflexivity.
  - destruct (RequestChannelSelect_outcomes Concrete.constants Concrete.choose true
                (Concrete.world1_in (Concrete.with_samples 500 Concrete.environment)))
      as (_ & _ & _ & _ & Hfew & _).
    apply Hfew.
    + split; [reflexivity | left; reflexivity].
    + vm_compute. discriminate.
  - destruct (RequestChannelSelect_outcomes Concrete.constants Concrete.choose false
                Concrete.world0)
      as (_ & _ & _ & _ & _ & Hnone).
    apply Hnone.
    + split; [reflexivity | right; vm_compute; discriminate].
    + vm_compute. reflexivity.
    + vm_compute. reflexivity.
Defined.

(** [FindBetterChannel] leaves the world as it is, up to the one draw from
    the random source it makes when it returns a channel. *)
Lemma FindBetterChannel_world (K : Constants) (pick : Z -> Z -> Z) (w : World) :
  forall found w1,
    FindBetterChannel K pick w = (found, w1) ->
    match found with
    | inl _ => w1 = w
    | inr _ => w1 = after_draw w
    end.
Proof.
  intros found w1 Hfind.
  destruct (Z.le_gt_cases (monSampleCount (env w)) (kMinChannelMonitorSampleCount K))
    as [Hfew|Henough].
  - rewrite (FindBetterChannel_few_samples K pick w Hfew) in Hfind.
    inversion Hfind; subst. reflexivity.
  - rewrite (FindBetterChannel_chosen K pick w Henough) in Hfind.
    destruct (ChannelMask.IsEmpty (fst (Policy.chosen K w)));
      inversion Hfind; subst; reflexivity.
Qed.

(** C2: when the policy returns a candidate in a call of
    [RequestChannelSelect], a channel change is requested only if the
    candidate differs from the MAC's current pan channel and the current
    occupancy exceeds the candidate's by at least
    [kThresholdToChangeChannel], the difference taken in unsigned 16-bit
    arithmetic; when the candidate is the current channel, its occupancy is
    not below the current one, or the difference is below the threshold, the
    call returns success and requests no change. *)
Theorem RequestChannelSelect_change_threshold
        (K : Constants) (pick : Z -> Z -> Z) (aSkipQualityCheck : bool) (w w1 : World)
        (newChannel newOccupancy : Z) :
  policy_invoked K aSkipQualityCheck w ->
  FindBetterChannel K pick w = (inr (newChannel, newOccupancy), w1) ->
  let curChannel := macPanChannel (env w) in
  let curOccupancy := monChannelOccupancy (env w) curChannel in
  let change :=
    newChannel <> curChannel /\ newOccupancy < curOccupancy
    /\ kThresholdToChangeChannel K <= to_uint16 (curOccupancy - newOccupancy) in
  (cm w1 = cm w /\ trace w1 = trace w)
  /\ (change ->
      RequestChannelSelect K pick aSkipQualityCheck w
      = (OT_ERROR_NONE, snd (RequestChannelChange K newChannel w1)))
  /\ (~ change ->
      RequestChannelSelect K pick aSkipQualityCheck w = (OT_ERROR_NONE, w1))
  /\ (snd (RequestChannelSelect K pick aSkipQualityCheck w) <> w1 -> change)
  /\ (0 <= newOccupancy < curOccupancy -> curOccupancy < 2 ^ 16 ->
      to_uint16 (curOccupancy - newOccupancy) = curOccupancy - newOccupancy).
Proof.
  intros Hinv Hfind curChannel curOccupancy change.
  pose proof (FindBetterChannel_world K pick w _ _ Hfind) as Hw1. cbn in Hw1.
  pose proof (RequestChannelSelect_invoked K pick aSkipQualityCheck w Hinv) as Hsel.
  rewrite Hfind in Hsel. cbn zeta in Hsel.
  assert (Henv : env w1 = env w) by (subst w1; reflexivity).
  rewrite Henv in Hsel. fold curChannel curOccupancy in Hsel.
  assert (Hdec : change \/ ~ change).
  { unfold change.
    destruct (Z.eq_dec newChannel curChannel); [right; tauto|].
    destruct (Z_lt_dec newOccupancy curOccupancy); [|right; tauto].
    destruct (Z_le_dec (kThresholdToChangeChannel K)
                (to_uint16 (curOccupancy - newOccupancy))); [left|right]; tauto. }
  assert (Hyes : change ->
            RequestChannelSelect K pick aSkipQualityCheck w
            = (OT_ERROR_NONE, snd (RequestChannelChange K newChannel w1))).
  { intros (Hne & Hlt & Hthr). rewrite Hsel.
    destruct (Z.eqb_spec newChannel curChannel); [contradiction|].
    destruct (Z.leb_spec curOccupancy newOccupancy); [lia|].
    destruct (Z.ltb_spec (to_uint16 (curOccupancy - newOccupancy))
                (kThresholdToChangeChannel K)); [lia|].
    reflexivity. }
  assert (Hno : ~ change ->
            RequestChannelSelect K pick aSkipQualityCheck w = (OT_ERROR_NONE, w1)).
  { intros Hn. rewrite Hsel.
    destruct (Z.eqb_spec newChannel curChannel); [reflexivity|].
    destruct (Z.leb_spec curOccupancy newOccupancy); [reflexivity|].
    destruct (Z.ltb_spec (to_uint16 (curOccupancy - newOccupancy))
                (kThresholdToChangeChannel K)); [reflexivity|].
    exfalso. apply Hn. unfold change. repeat split; assumption. }
  split; [subst w1; split; reflexivity|].
  split; [exact Hyes|]. split; [exact Hno|]. split.
  - intros Hchanged. destruct Hdec as [Hc|Hn]; [exact Hc|].
    rewrite (Hno Hn) in Hchanged. cbn in Hchanged. contradiction.
  - intros Hocc Hcur. unfold to_uint16. apply Z.mod_small. lia.
Qed.

Lemma RequestChannelSelect_change_threshold_witness :
  RequestChannelSelect Concrete.constants Concrete.choose false Concrete.world1
  = (OT_ERROR_NONE,
     snd (RequestChannelChange Concrete.constants 20 (after_draw Concrete.world1)))
  /\ RequestChannelSelect Concrete.constants Concrete.choose false
       (Concrete.world1_in (Concrete.with_pan 20 Concrete.environment))
     = (OT_ERROR_NONE,
        after_draw (Concrete.world1_in (Concrete.with_pan 20 Concrete.environment))).
Proof.
  split.
  - destruct (RequestChannelSelect_change_threshold Concrete.constants Concrete.choose
                false Concrete.world1 (after_draw Concrete.world1) 20 256)
      as (_ & Hchange & _).
    + split; [reflexivity | right; vm_compute; discriminate].
    + reflexivity.
    + apply Hchange. split; [|split]; vm_compute; congruence.
  - destruct (RequestChannelSelect_change_threshold Concrete.constants Concrete.choose
                false (Concrete.world1_in (Concrete.with_pan 20 Concrete.environment))
                (after_draw (Concrete.world1_in (Concrete.with_pan 20 Concrete.environment)))
                20 256)
      as (_ & _ & Hkeep & _).
    + split; [reflexivity | right; vm_compute; discriminate].
    + reflexivity.
    + apply Hkeep. intros (Hne & _). apply Hne. reflexivity.
Defined.

(** C8: [RequestChannelChange] with the MAC's current pan channel does
    nothing: the whole world is as before, so the state, the target channel
    and the configuration are unchanged, the timer is not armed, and nothing
    is logged (no dataset update requested or cancelled, no notifier
    event). *)
Theorem RequestChannelChange_current_channel (K : Constants) (aChannel : Z) (w : World) :
  aChannel = macPanChannel (env w) ->
  RequestChannelChange K aChannel w = (tt, w)
  /\ events_since w (snd (RequestChannelChange K aChannel w)) = [].
Proof.
  intros Hcur.
  assert (Hnoop : RequestChannelChange K aChannel w = (tt, w)).
  { unfold RequestChannelChange, bind at 1, ask at 1.
    rewrite Hcur, Z.eqb_refl. reflexivity. }
  split; [exact Hnoop|].
  rewrite Hnoop. unfold events_since. cbn [snd]. apply skipn_all.
Qed.

Lemma RequestChannelChange_current_channel_witness :
  RequestChannelChange Concrete.constants 15 Concrete.world1 = (tt, Concrete.world1).
Proof.
  apply (RequestChannelChange_current_channel Concrete.constants 15 Concrete.world1).
  reflexivity.
Defined.

(** C3: the timer fires in state [kStateChangeRequested]; the manager issues
    the dataset update for the stored channel and delay and goes by the
    updater's result.  Success: [kStateChangeInProgress].  Busy or no
    buffers: the state stays and the timer is started for
    [kPendingDatasetTxRetryInterval].  Any other result
    ([OT_ERROR_INVALID_STATE] among them): [kStateIdle], and the auto-select
    timer management runs, which starts the timer for the auto-select
    interval when auto-selection is enabled and stops it otherwise. *)
Theorem TimerFired_ChangeRequested (K : Constants) (pick : Z -> Z -> Z) (w : World) :
  timerIsRunning (mTimer (cm w)) = true ->
  mState (cm w) = kStateChangeRequested ->
  let result := updaterResult (env w) (updateRequests w) in
  let w' := snd (TimerFired K pick w) in
  let now := timeNow (env w) in
  let request :=
    EvRequestUpdate (mChannel (cm w)) (SecToMsec (mDelay (cm w)))
      (kChangeCheckWaitInterval K) in
  (result = OT_ERROR_NONE ->
   mState (cm w') = kStateChangeInProgress
   /\ timerIsRunning (mTimer (cm w')) = false
   /\ trace w' = trace w ++ [request])
  /\ (result = OT_ERROR_BUSY \/ result = OT_ERROR_NO_BUFS ->
      mState (cm w') = kStateChangeRequested
      /\ mTimer (cm w') = mkTimer true (to_uint32 (now + kPendingDatasetTxRetryInterval K))
      /\ trace w' = trace w ++ [request; EvTimerStartAt now (kPendingDatasetTxRetryInterval K)])
  /\ (result <> OT_ERROR_NONE -> result <> OT_ERROR_BUSY -> result <> OT_ERROR_NO_BUFS ->
      mState (cm w') = kStateIdle
      /\ (mAutoSelectEnabled (cm w) = true ->
          mTimer (cm w')
          = mkTimer true (to_uint32 (now + SecToMsec (mAutoSelectInterval (cm w))))
          /\ trace w'
             = trace w ++ [request;
                           EvTimerStartAt now (SecToMsec (mAutoSelectInterval (cm w)))])
      /\ (mAutoSelectEnabled (cm w) = false ->
          timerIsRunning (mTimer (cm w')) = false
          /\ trace w' = trace w ++ [request; EvTimerStop])).
Proof.
  destruct w as [c e draws requests tr].
  destruct c as [sup fav delay channel st tm interval enabled].
  cbn [cm env trace updateRequests mState mTimer mChannel mDelay
       mAutoSelectEnabled mAutoSelectInterval].
  intros Hrun Hst. subst st.
  unfold TimerFired, HandleTimer, StartDatasetUpdate, StartAutoSelectTimer.
  unfold_monad. cbn. rewrite Hrun. cbn.
  split; [|split].
  - intros Hres. rewrite Hres. cbn. repeat split.
  - intros [Hres|Hres]; rewrite Hres; cbn; rewrite <- ?app_assoc; repeat split.
  - intros Hnone Hbusy Hbufs.
    destruct (updaterResult e requests) eqn:Hres; try congruence;
      (split; [destruct enabled; reflexivity|]);
      (split; intros Hen; subst enabled; cbn;
         rewrite <- ?app_assoc; repeat split).
Qed.

Lemma TimerFired_ChangeRequested_witness :
  let requested u :=
    run Concrete.constants Concrete.choose [InRequestChannelChange 20]
      (Concrete.world1_in (Concrete.with_updater u Concrete.environment)) in
  let fired u := snd (TimerFired Concrete.constants Concrete.choose (requested u)) in
  mState (cm (fired (fun _ => OT_ERROR_NONE))) = kStateChangeInProgress
  /\ mTimer (cm (fired (fun _ => OT_ERROR_BUSY))) = mkTimer true 20000
  /\ mState (cm (fired (fun _ => OT_ERROR_INVALID_STATE))) = kStateIdle.
Proof.
  intros requested fired.
  split; [|split].
  - destruct (TimerFired_ChangeRequested Concrete.constants Concrete.choose
                (requested (fun _ => OT_ERROR_NONE)) eq_refl eq_refl)
      as (Hok & _).
    apply Hok. reflexivity.
  - destruct (TimerFired_ChangeRequested Concrete.constants Concrete.choose
                (requested (fun _ => OT_ERROR_BUSY)) eq_refl eq_refl)
      as (_ & Hbusy & _).
    apply Hbusy. left. reflexivity.
  - destruct (TimerFired_ChangeRequested Concrete.constants Concrete.choose
                (requested (fun _ => OT_ERROR_INVALID_STATE)) eq_refl eq_refl)
      as (_ & _ & Hother).
    apply Hother; discriminate.
Defined.

(** *** Channel masks as 32-bit values *)

Lemma land_uint32 (b m : Z) : 0 <= m < 2 ^ 32 -> 0 <= Z.land b m < 2 ^ 32.
Proof.
  intros Hm.
  assert (Hmask : Z.land m (Z.ones 32) = m).
  { rewrite Z.land_ones by lia. apply Z.mod_small. exact Hm. }
  rewrite <- Hmask, Z.land_assoc, Z.land_ones by lia.
  apply Z.mod_pos_bound. lia.
Qed.

Lemma land_member (b m aChannel : Z) :
  Z.land b m = b -> Z.testbit b aChannel = true -> Z.testbit m aChannel = true.
Proof.
  intros Hsub Hbit. rewrite <- Hsub, Z.land_spec in Hbit.
  apply andb_true_iff in Hbit. apply Hbit.
Qed.

(** [RequestChannelChange] neither reads nor writes the channel masks. *)
Lemma RequestChannelChange_with_masks (K : Constants) (aChannel supported favored : Z)
      (w : World) :
  RequestChannelChange K aChannel (with_masks supported favored w)
  = (tt, with_masks supported favored (snd (RequestChannelChange K aChannel w))).
Proof.
  destruct w as [c e draws requests tr].
  destruct c as [sup fav delay channel st tm interval enabled].
  unfold RequestChannelChange, with_masks. unfold_monad. cbn.
  destruct (aChannel =? macPanChannel e); [reflexivity|].
  destruct st; cbn; try reflexivity.
  destruct (channel =? aChannel); reflexivity.
Qed.

(** What a request for another channel than the current one does, unless a
    migration to that very channel is in progress. *)
Lemma RequestChannelChange_accepts (K : Constants) (aChannel : Z) (w : World) :
  aChannel <> macPanChannel (env w) ->
  mState (cm w) <> kStateChangeInProgress \/ mChannel (cm w) <> aChannel ->
  mChannel (cm (snd (RequestChannelChange K aChannel w))) = aChannel
  /\ mState (cm (snd (RequestChannelChange K aChannel w))) = kStateChangeRequested.
Proof.
  destruct w as [c e draws requests tr].
  destruct c as [sup fav delay channel st tm interval enabled].
  cbn [cm env mState mChannel]. intros Hpan Hother.
  unfold RequestChannelChange. unfold_monad. cbn.
  destruct (Z.eqb_spec aChannel (macPanChannel e)); [contradiction|].
  destruct st; cbn; try (split; reflexivity).
  destruct (Z.eqb_spec channel aChannel) as [Heq|_]; [|split; reflexivity].
  destruct Hother as [Hst|Hch]; [congruence | contradiction].
Qed.

(** C10: a channel that the selection policy returns is a member of the
    supported mask, given that the monitor's [FindBestChannels] returns a
    subset of the mask it is given and that the random pick from a
    non-empty channel mask is one of its members.  A channel passed to
    [RequestChannelChange] is not checked against the masks: the call does
    the same whatever the masks are, and takes the channel as its target. *)
Theorem FindBetterChannel_in_supported_mask
        (K : Constants) (pick : Z -> Z -> Z) (w : World) :
  (forall m r, 0 < m < 2 ^ 32 -> ChannelMask.ContainsChannel m (pick m r) = true) ->
  (forall m, ChannelMask.Intersect (fst (monFindBestChannels (env w) m)) m
             = fst (monFindBestChannels (env w) m)) ->
  0 <= mSupportedChannelMask (cm w) < 2 ^ 32 ->
  (forall newChannel newOccupancy w',
      FindBetterChannel K pick w = (inr (newChannel, newOccupancy), w') ->
      ChannelMask.ContainsChannel (mSupportedChannelMask (cm w)) newChannel = true)
  /\ (forall aChannel supported favored,
         RequestChannelChange K aChannel (with_masks supported favored w)
         = (tt, with_masks supported favored (snd (RequestChannelChange K aChannel w))))
  /\ (forall aChannel,
         aChannel <> macPanChannel (env w) ->
         mState (cm w) <> kStateChangeInProgress ->
         mChannel (cm (snd (RequestChannelChange K aChannel w))) = aChannel
         /\ mState (cm (snd (RequestChannelChange K aChannel w))) = kStateChangeRequested).
Proof.
  unfold ChannelMask.ContainsChannel, ChannelMask.Intersect.
  intros Hpick Hbest Hsup.
  split; [|split].
  - intros newChannel newOccupancy w' Hfind.
    destruct (Z.le_gt_cases (monSampleCount (env w)) (kMinChannelMonitorSampleCount K))
      as [Hfew|Henough].
    { rewrite (FindBetterChannel_few_samples K pick w Hfew) in Hfind. discriminate. }
    rewrite (FindBetterChannel_chosen K pick w Henough) in Hfind.
    unfold ChannelMask.IsEmpty in Hfind.
    destruct (Z.eqb_spec (fst (Policy.chosen K w)) 0) as [|Hne]; [discriminate|].
    inversion Hfind; subst; clear Hfind.
    (* the chosen tie set is a 32-bit mask within the supported mask *)
    assert (Hsub : Z.land (fst (Policy.chosen K w)) (mSupportedChannelMask (cm w))
                   = fst (Policy.chosen K w)).
    { unfold Policy.chosen, Policy.overall_best, Policy.favored_best.
      destruct (Policy.skip_favoredb K w); [apply Hbest|].
      rewrite <- (Hbest (Z.land (mFavoredChannelMask (cm w)) (mSupportedChannelMask (cm w)))) at 1.
      rewrite <- !Z.land_assoc, Z.land_diag. apply Hbest. }
    apply (land_member _ _ _ Hsub).
    apply Hpick.
    pose proof (land_uint32 (fst (Policy.chosen K w)) _ Hsup) as Hrange.
    rewrite Hsub in Hrange. lia.
  - intros. apply RequestChannelChange_with_masks.
  - intros aChannel Hpan Hst. apply RequestChannelChange_accepts; [exact Hpan | left; exact Hst].
Qed.

(** *** The concrete monitor and pick meet the assumptions *)

Lemma channels_of_In (m aChannel : Z) :
  In aChannel (Concrete.channels_of m)
  <-> 0 <= aChannel < 32 /\ Z.testbit m aChannel = true.
Proof.
  unfold Concrete.channels_of. rewrite filter_In, in_map_iff. split.
  - intros [[n [Hn Hin]] Hbit]. apply in_seq in Hin. split; [lia | exact Hbit].
  - intros [Hrange Hbit]. split; [|exact Hbit].
    exists (Z.to_nat aChannel). split; [lia|]. apply in_seq. lia.
Qed.
Lemma channels_of_nonempty (m : Z) :
  0 < m < 2 ^ 32 -> (0 < length (Concrete.channels_of m))%nat.
Proof.
  intros [Hpos Hlt].
  assert (Hin : In (Z.log2 m) (Concrete.channels_of m)).
  { apply channels_of_In. split.
    - split; [apply Z.log2_nonneg | apply Z.log2_lt_pow2; assumption].
    - apply Z.bit_log2. exact Hpos. }
  destruct (Concrete.channels_of m); [contradiction | cbn; lia].
Qed.
Lemma choose_member (m r : Z) :
  0 < m < 2 ^ 32 -> ChannelMask.ContainsChannel m (Concrete.choose m r) = true.
Proof.
  intros Hm. pose proof (channels_of_nonempty m Hm) as Hlen. clear Hm.
  unfold ChannelMask.ContainsChannel, Concrete.choose.
  set (l := Concrete.channels_of m) in *.
  assert (Hidx : (Z.to_nat (r mod Z.of_nat (length l)) < length l)%nat).
  { pose proof (Z.mod_pos_bound r (Z.of_nat (length l))). lia. }
  pose proof (nth_In l 0 Hidx) as Hin.
  apply channels_of_In in Hin. apply Hin.
Qed.
Lemma mask_of_testbit (l : list Z) (i : Z) :
  Forall (fun c => 0 <= c) l ->
  Z.testbit (Concrete.mask_of l) i = existsb (Z.eqb i) l.
Proof.
  induction 1 as [|c l Hc _ IH]; cbn [Concrete.mask_of fold_right existsb].
  - apply Z.bits_0.
  - fold (Concrete.mask_of l). rewrite Z.lor_spec, IH. f_equal.
    rewrite Z.shiftl_1_l, Z.pow2_bits_eqb by exact Hc. apply Z.eqb_sym.
Qed.

Lemma find_best_subset (occupancy : Z -> Z) (m : Z) :
  ChannelMask.Intersect (fst (Concrete.find_best occupancy m)) m
  = fst (Concrete.find_best occupancy m).
Proof.
  unfold ChannelMask.Intersect, Concrete.find_best. cbn [fst].
  set (best := filter _ (Concrete.channels_of m)).
  assert (Hnonneg : Forall (fun c => 0 <= c) best).
  { apply Forall_forall. intros c Hc. apply filter_In in Hc.
    destruct Hc as [Hc _]. apply channels_of_In in Hc. lia. }
  apply Z.bits_inj. intros i.
  rewrite Z.land_spec, (mask_of_testbit best i Hnonneg).
  destruct (existsb (Z.eqb i) best) eqn:Hex; [|reflexivity].
  apply existsb_exists in Hex. destruct Hex as [c [Hc Heq]].
  apply Z.eqb_eq in Heq. subst c.
  apply filter_In in Hc. destruct Hc as [Hc _].
  apply channels_of_In in Hc. destruct Hc as [_ Hbit]. rewrite Hbit. reflexivity.
Qed.

Lemma FindBetterChannel_in_supported_mask_witness :
  ChannelMask.ContainsChannel (mSupportedChannelMask (cm Concrete.world1)) 20 = true.
Proof.
  destruct (FindBetterChannel_in_supported_mask
              Concrete.constants Concrete.choose Concrete.world1) as (Hmember & _).
  - intros m r Hm. apply choose_member. exact Hm.
  - intros m. apply find_best_subset.
  - vm_compute. split; [discriminate | reflexivity].
  - apply (Hmember 20 256 (after_draw Concrete.world1)). reflexivity.
Defined.

(** *** The auto-select interval *)

Lemma to_uint32_start (start p : Z) :
  to_uint32 (to_uint32 (start + p) - p) = to_uint32 start.
Proof.
  unfold to_uint32. rewrite Zminus_mod_idemp_l. f_equal. lia.
Qed.

Lemma to_uint32_restart (start p s : Z) :
  to_uint32 (to_uint32 (to_uint32 (start + p) - p) + s) = to_uint32 (start + s).
Proof.
  rewrite to_uint32_start. unfold to_uint32. apply Zplus_mod_idemp_l.
Qed.

(** The restart of the timer by [SetAutoChannelSelectionInterval]. *)
Lemma SetAutoChannelSelectionInterval_restart
      (K : Constants) (aInterval start : Z) (w : World) :
  1 <= aInterval <= MsecToSec (kMaxDelay K) ->
  mAutoSelectEnabled (cm w) = true ->
  mState (cm w) = kStateIdle ->
  timerIsRunning (mTimer (cm w)) = true ->
  aInterval <> mAutoSelectInterval (cm w) ->
  timerFireTime (mTimer (cm w))
  = to_uint32 (start + SecToMsec (mAutoSelectInterval (cm w))) ->
  let w' := snd (SetAutoChannelSelectionInterval K aInterval w) in
  mTimer (cm w') = mkTimer true (to_uint32 (start + SecToMsec aInterval))
  /\ trace w' = trace w ++ [EvTimerStartAt (to_uint32 start) (SecToMsec aInterval)]
  /\ mState (cm w') = kStateIdle
  /\ mAutoSelectEnabled (cm w') = true
  /\ mAutoSelectInterval (cm w') = aInterval.
Proof.
  destruct w as [c e draws requests tr].
  destruct c as [sup fav delay channel st tm interval enabled].
  cbn [cm trace mState mTimer mAutoSelectEnabled mAutoSelectInterval].
  intros [Hlo Hhi] Hen Hst Hrun Hne Hfire. subst enabled st. cbn zeta.
  unfold SetAutoChannelSelectionInterval. unfold_monad. cbn.
  destruct (Z.eqb_spec aInterval 0) as [|_]; [lia|]. cbn [negb andb].
  destruct (Z.leb_spec aInterval (MsecToSec (kMaxDelay K))) as [_|]; [|lia].
  cbn. rewrite Hrun. cbn [andb].
  destruct (Z.eqb_spec interval aInterval) as [Heq|_]; [congruence|].
  cbn. rewrite Hfire, to_uint32_restart, to_uint32_start. repeat split.
Qed.

(** C6: [SetAutoChannelSelectionInterval] with a value outside 1 ..
    [MsecToSec kMaxDelay] returns [OT_ERROR_INVALID_ARGS] and changes
    nothing.  Otherwise it stores the value; and when auto-selection is
    enabled, the state is idle, the timer is running and the value differs
    from the previous interval, it restarts the timer at the start time the
    timer had (its fire time less the previous interval), so that the new
    fire time is that start time plus the new interval. *)
Theorem SetAutoChannelSelectionInterval_reschedules (K : Constants) (aInterval : Z) (w : World) :
  0 <= aInterval ->
  let maxTimerSecs := MsecToSec (kMaxDelay K) in
  let prevInterval := mAutoSelectInterval (cm w) in
  let w' := snd (SetAutoChannelSelectionInterval K aInterval w) in
  (aInterval < 1 \/ maxTimerSecs < aInterval ->
   SetAutoChannelSelectionInterval K aInterval w = (OT_ERROR_INVALID_ARGS, w))
  /\ (1 <= aInterval <= maxTimerSecs ->
      fst (SetAutoChannelSelectionInterval K aInterval w) = OT_ERROR_NONE
      /\ mAutoSelectInterval (cm w') = aInterval
      /\ (mAutoSelectEnabled (cm w) = true ->
          mState (cm w) = kStateIdle ->
          timerIsRunning (mTimer (cm w)) = true ->
          aInterval <> prevInterval ->
          forall start,
            timerFireTime (mTimer (cm w)) = to_uint32 (start + SecToMsec prevInterval) ->
            mTimer (cm w') = mkTimer true (to_uint32 (start + SecToMsec aInterval))
            /\ trace w'
               = trace w ++ [EvTimerStartAt (to_uint32 start) (SecToMsec aInterval)])).
Proof.
  intros Hnonneg. cbn zeta. split.
  - intros Hout. unfold SetAutoChannelSelectionInterval, bind at 1, ask at 1.
    destruct (Z.eqb_spec aInterval 0) as [|Hnz]; [reflexivity|]. cbn [negb andb].
    destruct (Z.leb_spec aInterval (MsecToSec (kMaxDelay K))); [lia | reflexivity].
  - intros Hvalid. split; [|split].
    + destruct w as [c e draws requests tr].
      unfold SetAutoChannelSelectionInterval. unfold_monad. cbn.
      destruct (Z.eqb_spec aInterval 0) as [|_]; [lia|]. cbn [negb andb].
      destruct (Z.leb_spec aInterval (MsecToSec (kMaxDelay K))) as [_|]; [|lia].
      cbn. destruct (_ && _); reflexivity.
    + destruct w as [c e draws requests tr].
      unfold SetAutoChannelSelectionInterval. unfold_monad. cbn.
      destruct (Z.eqb_spec aInterval 0) as [|_]; [lia|]. cbn [negb andb].
      destruct (Z.leb_spec aInterval (MsecToSec (kMaxDelay K))) as [_|]; [|lia].
      cbn. destruct (_ && _); reflexivity.
    + intros Hen Hst Hrun Hne start Hfire.
      destruct (SetAutoChannelSelectionInterval_restart
                  K aInterval start w Hvalid Hen Hst Hrun Hne Hfire)
        as (Htimer & Htrace & _).
      split; assumption.
Qed.

(** Scenario 6 of the spec: the timer is started at 0 for 3600 s; at
    1_000_000 ms the interval is set to 7200 s; the timer then fires at
    7_200_000 ms. *)
Lemma SetAutoChannelSelectionInterval_reschedules_witness :
  let w :=
    run Concrete.constants Concrete.choose
      [InSetAutoChannelSelectionEnabled true;
       InEnvironment (Concrete.with_time 1000000 (Concrete.with_cca 0 Concrete.environment))]
      (Concrete.world1_in (Concrete.with_cca 0 Concrete.environment)) in
  timeNow (env w) = 1000000
  /\ mTimer (cm w) = mkTimer true 3600000
  /\ mTimer (cm (snd (SetAutoChannelSelectionInterval Concrete.constants 7200 w)))
     = mkTimer true 7200000.
Proof.
  intros w.
  split; [reflexivity|]. split; [reflexivity|].
  assert (Hnonneg : 0 <= 7200) by (vm_compute; discriminate).
  destruct (SetAutoChannelSelectionInterval_reschedules Concrete.constants 7200 w Hnonneg)
    as (_ & Hvalid).
  destruct Hvalid as (_ & _ & Hrestart).
  - vm_compute. split; discriminate.
  - destruct (Hrestart eq_refl eq_refl eq_refl) with (start := 0) as [Htimer _].
    + vm_compute. discriminate.
    + reflexivity.
    + exact Htimer.
Defined.

(** C7: a second call of [SetAutoChannelSelectionInterval] with the same
    value leaves the world of the first call and returns the same result; and
    a call with the stored interval, or made while the timer is not running,
    neither starts nor restarts the timer. *)
Theorem SetAutoChannelSelectionInterval_idempotent (K : Constants) (aInterval : Z) (w : World) :
  let once := SetAutoChannelSelectionInterval K aInterval w in
  (1 <= aInterval <= MsecToSec (kMaxDelay K) ->
   fst once = OT_ERROR_NONE
   /\ SetAutoChannelSelectionInterval K aInterval (snd once) = (OT_ERROR_NONE, snd once))
  /\ (aInterval = mAutoSelectInterval (cm w) \/ timerIsRunning (mTimer (cm w)) = false ->
      mTimer (cm (snd once)) = mTimer (cm w) /\ trace (snd once) = trace w).
Proof.
  destruct w as [c e draws requests tr].
  destruct c as [sup fav delay channel st tm interval enabled].
  cbn [cm trace mTimer mAutoSelectInterval]. cbn zeta.
  unfold SetAutoChannelSelectionInterval. unfold_monad. cbn.
  split.
  - intros [Hlo Hhi].
    destruct (Z.eqb_spec aInterval 0) as [|_]; [lia|]. cbn [negb andb].
    destruct (Z.leb_spec aInterval (MsecToSec (kMaxDelay K))) as [_|]; [|lia].
    cbn.
    destruct (enabled && State_eqb st kStateIdle && timerIsRunning tm
              && negb (interval =? aInterval));
      cbn; rewrite Z.eqb_refl; cbn [negb andb];
      rewrite ?andb_false_r; split; reflexivity.
  - intros Hsame.
    destruct (negb (aInterval =? 0) && (aInterval <=? MsecToSec (kMaxDelay K)));
      [|split; reflexivity].
    cbn.
    assert (Hcond : enabled && State_eqb st kStateIdle && timerIsRunning tm
                    && negb (interval =? aInterval) = false).
    { destruct Hsame as [Heq|Hrun].
      - subst aInterval. rewrite Z.eqb_refl. cbn [negb]. apply andb_false_r.
      - rewrite Hrun. rewrite andb_false_r. reflexivity. }
    rewrite Hcond. split; reflexivity.
Qed.

Lemma SetAutoChannelSelectionInterval_idempotent_witness :
  let w :=
    run Concrete.constants Concrete.choose [InSetAutoChannelSelectionEnabled true]
      (Concrete.world1_in (Concrete.with_cca 0 Concrete.environment)) in
  let once := SetAutoChannelSelectionInterval Concrete.constants 7200 w in
  SetAutoChannelSelectionInterval Concrete.constants 7200 (snd once) = (OT_ERROR_NONE, snd once)
  /\ trace (snd (SetAutoChannelSelectionInterval Concrete.constants 3600 w)) = trace w.
Proof.
  intros w once. split.
  - destruct (SetAutoChannelSelectionInterval_idempotent Concrete.constants 7200 w)
      as (Htwice & _).
    apply Htwice. vm_compute. split; discriminate.
  - destruct (SetAutoChannelSelectionInterval_idempotent Concrete.constants 3600 w)
      as (_ & Hsame).
    apply Hsame. left. reflexivity.
Defined.

(** *** What a method leaves alone *)

Lemma frame_refl (w : World) : frame w w.
Proof.
  repeat split. exists []. split; [symmetry; apply app_nil_r | constructor].
Qed.

Lemma frame_trans (w1 w2 w3 : World) : frame w1 w2 -> frame w2 w3 -> frame w1 w3.
Proof.
  intros (Hc1 & He1 & Hu1 & ev1 & Ht1 & Hf1) (Hc2 & He2 & Hu2 & ev2 & Ht2 & Hf2).
  repeat split; try congruence.
  exists (ev1 ++ ev2). split.
  - rewrite Ht2, Ht1. symmetry. apply app_assoc.
  - apply Forall_app. split; assumption.
Qed.

Ltac solve_frame :=
  unfold frame; cbn; repeat split;
  rewrite <- ?app_assoc;
  first [ exists []; split; [symmetry; apply app_nil_r | constructor]
        | eexists; split; [reflexivity | repeat constructor] ].

Lemma after_draw_is_frame (w : World) : frame w (after_draw w).
Proof. destruct w. unfold after_draw. unfold_monad. solve_frame. Qed.

Lemma RequestChannelChange_frame (K : Constants) (aChannel : Z) (w : World) :
  frame w (snd (RequestChannelChange K aChannel w)).
Proof.
  destruct w as [c e draws requests tr].
  destruct c as [sup fav delay channel st tm interval enabled].
  unfold RequestChannelChange. unfold_monad. cbn.
  destruct (aChannel =? macPanChannel e); [apply frame_refl|].
  destruct st; cbn; try solve_frame.
  destruct (channel =? aChannel); cbn; solve_frame.
Qed.

Lemma StartAutoSelectTimer_frame (w : World) :
  frame w (snd (StartAutoSelectTimer w)).
Proof.
  destruct w as [c e draws requests tr].
  destruct c as [sup fav delay channel st tm interval enabled].
  unfold StartAutoSelectTimer. unfold_monad. cbn.
  destruct st; cbn; try apply frame_refl.
  destruct enabled; cbn; solve_frame.
Qed.

(** The worlds [RequestChannelSelect] can end in. *)
Lemma RequestChannelSelect_world
      (K : Constants) (pick : Z -> Z -> Z) (aSkipQualityCheck : bool) (w : World) :
  let w' := snd (RequestChannelSelect K pick aSkipQualityCheck w) in
  w' = w \/ w' = after_draw w
  \/ exists newChannel, w' = snd (RequestChannelChange K newChannel (after_draw w)).
Proof.
  cbn zeta.
  destruct (mleIsDisabled (env w)) eqn:Hmle.
  { left. rewrite (RequestChannelSelect_disabled K pick _ w Hmle). reflexivity. }
  destruct aSkipQualityCheck eqn:Hskip;
    [|destruct (Z.leb_spec (kCcaFailureRateThreshold K) (macCcaFailureRate (env w)))
        as [Hrate|Hrate]].
  3: { left. rewrite (RequestChannelSelect_gated K pick w Hmle Hrate). reflexivity. }
  all: (assert (Hinv : policy_invoked K aSkipQualityCheck w)
         by (subst aSkipQualityCheck; split; [exact Hmle | (left; reflexivity) || (right; exact Hrate)]));
       subst aSkipQualityCheck;
       rewrite (RequestChannelSelect_invoked K pick _ w Hinv);
       destruct (FindBetterChannel K pick w) as [[error|[newChannel newOccupancy]] w1] eqn:Hfind;
       pose proof (FindBetterChannel_world K pick w _ _ Hfind) as Hw1; cbn in Hw1; subst w1;
       [left; reflexivity|];
       cbn zeta;
       destruct (newChannel =? _); [right; left; reflexivity|];
       destruct (_ || _); [right; left; reflexivity|];
       right; right; exists newChannel; reflexivity.
Qed.

Lemma RequestChannelSelect_frame
      (K : Constants) (pick : Z -> Z -> Z) (aSkipQualityCheck : bool) (w : World) :
  frame w (snd (RequestChannelSelect K pick aSkipQualityCheck w)).
Proof.
  destruct (RequestChannelSelect_world K pick aSkipQualityCheck w)
    as [Hw|[Hw|[newChannel Hw]]]; rewrite Hw.
  - apply frame_refl.
  - apply after_draw_is_frame.
  - eapply frame_trans; [apply after_draw_is_frame | apply RequestChannelChange_frame].
Qed.

(** *** Enabling and disabling auto-selection *)

(** What the auto-select timer management does. *)
Lemma StartAutoSelectTimer_spec (w : World) :
  let w' := snd (StartAutoSelectTimer w) in
  let now := timeNow (env w) in
  mState (cm w') = mState (cm w)
  /\ (mState (cm w) <> kStateIdle -> w' = w)
  /\ (mState (cm w) = kStateIdle -> mAutoSelectEnabled (cm w) = true ->
      mTimer (cm w') = mkTimer true (to_uint32 (now + SecToMsec (mAutoSelectInterval (cm w))))
      /\ trace w' = trace w ++ [EvTimerStartAt now (SecToMsec (mAutoSelectInterval (cm w)))])
  /\ (mState (cm w) = kStateIdle -> mAutoSelectEnabled (cm w) = false ->
      timerIsRunning (mTimer (cm w')) = false
      /\ trace w' = trace w ++ [EvTimerStop]).
Proof.
  destruct w as [c e draws requests tr].
  destruct c as [sup fav delay channel st tm interval enabled].
  unfold StartAutoSelectTimer. unfold_monad. cbn.
  destruct st; cbn; try (repeat split; congruence).
  destruct enabled; cbn; repeat split; congruence.
Qed.

(** [SetAutoChannelSelectionEnabled], unfolded. *)
Lemma SetAutoChannelSelectionEnabled_eq
      (K : Constants) (pick : Z -> Z -> Z) (aEnabled : bool) (w : World) :
  SetAutoChannelSelectionEnabled K pick aEnabled w =
    if Bool.eqb aEnabled (mAutoSelectEnabled (cm w)) then (tt, w)
    else StartAutoSelectTimer
           (snd (RequestChannelSelect K pick false
                   (snd (update_cm (set_mAutoSelectEnabled aEnabled) w)))).
Proof.
  unfold SetAutoChannelSelectionEnabled, bind at 1, ask at 1.
  destruct (Bool.eqb aEnabled (mAutoSelectEnabled (cm w))); [reflexivity|].
  unfold bind at 1.
  destruct (update_cm (set_mAutoSelectEnabled aEnabled) w) as [u w0].
  unfold bind at 1. cbn [snd].
  destruct (RequestChannelSelect K pick false w0). reflexivity.
Qed.

(** C5, as stated, fails: disabling auto-selection in the idle state runs a
    selection too; here the selection requests a change to channel 20, so
    the state becomes [kStateChangeRequested] and the timer, far from being
    stopped, is started for the jitter delay. *)
Lemma SetAutoChannelSelectionEnabled_disable_selects :
  let w := auto_enabled_world in
  let w' := snd (SetAutoChannelSelectionEnabled Concrete.constants Concrete.choose false w) in
  mAutoSelectEnabled (cm w) = true
  /\ mState (cm w) = kStateIdle
  /\ timerIsRunning (mTimer (cm w)) = true
  /\ mState (cm w') = kStateChangeRequested
  /\ mChannel (cm w') = 20
  /\ timerIsRunning (mTimer (cm w')) = true
  /\ events_since w w' = [EvTimerStartAt 0 2162; EvSignalNewChannelChanged]
  /\ w' <> snd (set_auto_selection_enabled_as_claimed
                  Concrete.constants Concrete.choose false w).
Proof.
  cbn zeta. repeat (split; [vm_compute; reflexivity|]).
  intros Heq. apply (f_equal (fun w => mState (cm w))) in Heq.
  vm_compute in Heq. discriminate.
Qed.

(** C5, amended: [SetAutoChannelSelectionEnabled] acts only when the flag
    changes.  On either change, to enabled or to disabled, it stores the
    flag, attempts a selection ([RequestChannelSelect] without skipping the
    quality check, as a timer expiry in the idle state does) and then runs
    the auto-select timer management.  If the state is idle after the
    selection, the timer is started for the auto-select interval when the
    flag is now set, and stopped when it is now clear; if the state is not
    idle (a channel change is requested or in progress), the timer is left
    as it is.  A call that does not change the flag does nothing. *)
Theorem SetAutoChannelSelectionEnabled_transition
        (K : Constants) (pick : Z -> Z -> Z) (aEnabled : bool) (w : World) :
  (aEnabled = mAutoSelectEnabled (cm w) ->
   SetAutoChannelSelectionEnabled K pick aEnabled w = (tt, w))
  /\ (aEnabled <> mAutoSelectEnabled (cm w) ->
      let w0 := snd (update_cm (set_mAutoSelectEnabled aEnabled) w) in
      let w1 := snd (RequestChannelSelect K pick false w0) in
      let w' := snd (SetAutoChannelSelectionEnabled K pick aEnabled w) in
      let now := timeNow (env w) in
      SetAutoChannelSelectionEnabled K pick aEnabled w = StartAutoSelectTimer w1
      /\ (mState (cm w) = kStateIdle ->
          SetAutoChannelSelectionEnabled K pick aEnabled w = HandleTimer K pick w0)
      /\ mAutoSelectEnabled (cm w') = aEnabled
      /\ mState (cm w') = mState (cm w1)
      /\ (mState (cm w1) = kStateIdle -> aEnabled = true ->
          mTimer (cm w')
          = mkTimer true (to_uint32 (now + SecToMsec (mAutoSelectInterval (cm w))))
          /\ trace w'
             = trace w1 ++ [EvTimerStartAt now (SecToMsec (mAutoSelectInterval (cm w)))])
      /\ (mState (cm w1) = kStateIdle -> aEnabled = false ->
          timerIsRunning (mTimer (cm w')) = false
          /\ trace w' = trace w1 ++ [EvTimerStop])
      /\ (mState (cm w1) <> kStateIdle -> w' = w1)).
Proof.
  split.
  - intros Hsame. rewrite SetAutoChannelSelectionEnabled_eq.
    rewrite <- Hsame, eqb_reflx. reflexivity.
  - intros Hchange. cbn zeta.
    set (w0 := snd (update_cm (set_mAutoSelectEnabled aEnabled) w)).
    set (w1 := snd (RequestChannelSelect K pick false w0)).
    assert (Hrun : SetAutoChannelSelectionEnabled K pick aEnabled w
                   = StartAutoSelectTimer w1).
    { rewrite SetAutoChannelSelectionEnabled_eq.
      destruct (eqb_spec aEnabled (mAutoSelectEnabled (cm w))); [contradiction|].
      reflexivity. }
    (* the selection keeps the flag, the interval and the clock *)
    destruct (RequestChannelSelect_frame K pick false w0) as (Hconfig & Henv & _).
    fold w1 in Hconfig, Henv. unfold config in Hconfig.
    assert (Hflag : mAutoSelectEnabled (cm w1) = aEnabled) by (inversion Hconfig; reflexivity).
    assert (Hinterval : mAutoSelectInterval (cm w1) = mAutoSelectInterval (cm w))
      by (inversion Hconfig; reflexivity).
    assert (Hnow : timeNow (env w1) = timeNow (env w)) by (rewrite Henv; reflexivity).
    destruct (StartAutoSelectTimer_spec w1) as (Hstate & Hbusy & Hstart & Hstop).
    destruct (StartAutoSelectTimer_frame w1) as (Hconfig' & _).
    rewrite Hrun. rewrite Hinterval, Hnow in Hstart.
    split; [reflexivity|]. split; [|split; [|split; [|split; [|split]]]].
    + intros Hidle. unfold HandleTimer, bind at 1, ask at 1.
      change (mState (cm w0)) with (mState (cm w)). rewrite Hidle.
      unfold bind at 1. unfold w1.
      destruct (RequestChannelSelect K pick false w0). reflexivity.
    + unfold config in Hconfig'. inversion Hconfig'. congruence.
    + exact Hstate.
    + intros Hidle Hen. apply Hstart; congruence.
    + intros Hidle Hen. apply Hstop; congruence.
    + exact Hbusy.
Qed.

Lemma SetAutoChannelSelectionEnabled_transition_witness :
  let w := Concrete.world1_in (Concrete.with_cca 0 Concrete.environment) in
  let w' := snd (SetAutoChannelSelectionEnabled Concrete.constants Concrete.choose true w) in
  mAutoSelectEnabled (cm w') = true
  /\ mTimer (cm w') = mkTimer true 3600000.
Proof.
  intros w w'.
  destruct (SetAutoChannelSelectionEnabled_transition
              Concrete.constants Concrete.choose true w) as (_ & Hchange).
  destruct Hchange as (_ & _ & Hflag & _ & Hstart & _).
  - discriminate.
  - split; [exact Hflag|]. apply Hstart; reflexivity.
Defined.

(** *** The delay of the dataset updates *)

Lemma quiet_refl (w : World) : quiet w w.
Proof.
  split; [reflexivity|]. exists []. split; [symmetry; apply app_nil_r | constructor].
Qed.

Lemma quiet_trans (w1 w2 w3 : World) : quiet w1 w2 -> quiet w2 w3 -> quiet w1 w3.
Proof.
  intros (Hd1 & ev1 & Ht1 & Hf1) (Hd2 & ev2 & Ht2 & Hf2).
  split; [congruence|].
  exists (ev1 ++ ev2). split.
  - rewrite Ht2, Ht1. symmetry. apply app_assoc.
  - apply Forall_app. split; assumption.
Qed.

Lemma frame_quiet (w w' : World) : frame w w' -> quiet w w'.
Proof.
  intros (Hconfig & _ & _ & Hevents). split; [|exact Hevents].
  unfold config in Hconfig. inversion Hconfig. reflexivity.
Qed.

Lemma quiet_carries (w w' : World) : quiet w w' -> carries w w'.
Proof.
  intros (_ & events & Htrace & Hnone). exists events. split; [exact Htrace|].
  intros aChannel aDelayMs aWait Hin.
  rewrite Forall_forall in Hnone. apply Hnone in Hin. discriminate.
Qed.

Ltac solve_quiet :=
  unfold quiet; cbn; split; [reflexivity|];
  rewrite <- ?app_assoc;
  first [ exists []; split; [symmetry; apply app_nil_r | constructor]
        | eexists; split; [reflexivity | repeat constructor] ].

Lemma update_cm_quiet (f : ChannelManager -> ChannelManager) (w : World) :
  (forall c, mDelay (f c) = mDelay c) -> quiet w (snd (update_cm f w)).
Proof.
  intros Hf. split; [apply Hf|].
  exists []. split; [symmetry; apply app_nil_r | constructor].
Qed.

Lemma SetAutoChannelSelectionEnabled_quiet
      (K : Constants) (pick : Z -> Z -> Z) (aEnabled : bool) (w : World) :
  quiet w (snd (SetAutoChannelSelectionEnabled K pick aEnabled w)).
Proof.
  rewrite SetAutoChannelSelectionEnabled_eq.
  destruct (Bool.eqb aEnabled (mAutoSelectEnabled (cm w))).
  - apply quiet_refl.
  - eapply quiet_trans; [|apply frame_quiet, StartAutoSelectTimer_frame].
    eapply quiet_trans; [|apply frame_quiet, RequestChannelSelect_frame].
    apply update_cm_quiet. reflexivity.
Qed.

Lemma SetAutoChannelSelectionInterval_quiet (K : Constants) (aInterval : Z) (w : World) :
  quiet w (snd (SetAutoChannelSelectionInterval K aInterval w)).
Proof.
  destruct w as [c e draws requests tr].
  destruct c as [sup fav delay channel st tm interval enabled].
  unfold SetAutoChannelSelectionInterval. unfold_monad. cbn.
  destruct (negb (aInterval =? 0) && (aInterval <=? MsecToSec (kMaxDelay K)));
    cbn; [|apply quiet_refl].
  destruct (enabled && State_eqb st kStateIdle && timerIsRunning tm
            && negb (interval =? aInterval)); cbn; solve_quiet.
Qed.

Lemma HandleDatasetUpdateDone_quiet (aError : otError) (w : World) :
  quiet w (snd (HandleDatasetUpdateDone aError w)).
Proof.
  unfold HandleDatasetUpdateDone, bind at 1.
  destruct (update_cm (set_mState kStateIdle) w) as [u w0] eqn:Hw0.
  assert (Hq : quiet w w0).
  { replace w0 with (snd (update_cm (set_mState kStateIdle) w)) by (rewrite Hw0; reflexivity).
    apply update_cm_quiet. reflexivity. }
  eapply quiet_trans; [exact Hq | apply frame_quiet, StartAutoSelectTimer_frame].
Qed.

Lemma StartDatasetUpdate_carries (K : Constants) (w : World) :
  mDelay (cm (snd (StartDatasetUpdate K w))) = mDelay (cm w)
  /\ carries w (snd (StartDatasetUpdate K w)).
Proof.
  destruct w as [c e draws requests tr].
  destruct c as [sup fav delay channel st tm interval enabled].
  unfold StartDatasetUpdate, StartAutoSelectTimer, carries. unfold_monad. cbn.
  destruct (updaterResult e requests); cbn;
    try (destruct enabled; cbn);
    (split; [reflexivity|]);
    rewrite <- ?app_assoc;
    (eexists; split; [reflexivity|]);
    intros aChannel aDelayMs aWait Hin; cbn in Hin;
    repeat (destruct Hin as [Hin|Hin];
            [first [discriminate Hin | inversion Hin; split; reflexivity]|]);
    destruct Hin.
Qed.

Lemma HandleTimer_eq (K : Constants) (pick : Z -> Z -> Z) (w : World) :
  HandleTimer K pick w =
    match mState (cm w) with
    | kStateIdle => (_ <- RequestChannelSelect K pick false ;; StartAutoSelectTimer) w
    | kStateChangeRequested => StartDatasetUpdate K w
    | kStateChangeInProgress => (tt, w)
    end.
Proof. unfold HandleTimer, bind at 1, ask at 1. destruct (mState (cm w)); reflexivity. Qed.

Lemma TimerFired_eq (K : Constants) (pick : Z -> Z -> Z) (w : World) :
  TimerFired K pick w =
    if timerIsRunning (mTimer (cm w)) then HandleTimer K pick (expired w) else (tt, w).
Proof.
  unfold TimerFired, bind at 1, ask at 1.
  destruct (timerIsRunning (mTimer (cm w))); reflexivity.
Qed.

Lemma expired_quiet (w : World) : quiet w (expired w).
Proof. apply update_cm_quiet. reflexivity. Qed.

Lemma TimerFired_carries (K : Constants) (pick : Z -> Z -> Z) (w : World) :
  mDelay (cm (snd (TimerFired K pick w))) = mDelay (cm w)
  /\ carries w (snd (TimerFired K pick w)).
Proof.
  rewrite TimerFired_eq.
  destruct (timerIsRunning (mTimer (cm w)));
    [|split; [reflexivity | apply quiet_carries, quiet_refl]].
  rewrite HandleTimer_eq.
  change (mState (cm (expired w))) with (mState (cm w)).
  destruct (mState (cm w)).
  - (* idle: a selection, then the auto-select timer *)
    assert (Hq : quiet w (snd ((_ <- RequestChannelSelect K pick false ;; StartAutoSelectTimer)
                                 (expired w)))).
    { unfold bind.
      destruct (RequestChannelSelect K pick false (expired w)) as [error w1] eqn:Hsel.
      eapply quiet_trans; [apply expired_quiet|].
      eapply quiet_trans;
        [apply frame_quiet, (RequestChannelSelect_frame K pick false (expired w))|].
      rewrite Hsel. apply frame_quiet, StartAutoSelectTimer_frame. }
    split; [apply Hq | apply quiet_carries, Hq].
  - (* change requested: the dataset update *)
    apply (StartDatasetUpdate_carries K (expired w)).
  - split; [reflexivity | apply quiet_carries, expired_quiet].
Qed.

Lemma SetSupportedChannels_quiet (aChannelMask : Z) (w : World) :
  quiet w (snd (SetSupportedChannels aChannelMask w)).
Proof.
  apply (update_cm_quiet
           (set_mSupportedChannelMask (Z.land aChannelMask (macSupportedChannelMask (env w)))) w).
  reflexivity.
Qed.

Lemma SetFavoredChannels_quiet (aChannelMask : Z) (w : World) :
  quiet w (snd (SetFavoredChannels aChannelMask w)).
Proof.
  apply (update_cm_quiet
           (set_mFavoredChannelMask (Z.land aChannelMask (macSupportedChannelMask (env w)))) w).
  reflexivity.
Qed.

Lemma set_env_quiet (e : Environment) (w : World) : quiet w (snd (set_env e w)).
Proof.
  split; [reflexivity|]. exists []. split; [symmetry; apply app_nil_r | constructor].
Qed.

Lemma step_delay (K : Constants) (pick : Z -> Z -> Z) (i : Input) (w : World) :
  accepts_delay K i = false ->
  mDelay (cm (step K pick i w)) = mDelay (cm w).
Proof.
  destruct i; cbn [step accepts_delay]; intros Haccept.
  - apply frame_quiet, RequestChannelChange_frame.
  - unfold SetDelay. rewrite Haccept. reflexivity.
  - apply frame_quiet, RequestChannelSelect_frame.
  - apply SetAutoChannelSelectionEnabled_quiet.
  - apply SetAutoChannelSelectionInterval_quiet.
  - reflexivity.
  - reflexivity.
  - apply TimerFired_carries.
  - apply HandleDatasetUpdateDone_quiet.
  - reflexivity.
Qed.

Lemma step_carries (K : Constants) (pick : Z -> Z -> Z) (i : Input) (w : World) :
  carries w (step K pick i w).
Proof.
  destruct i; cbn [step].
  - apply quiet_carries, frame_quiet, RequestChannelChange_frame.
  - exists []. split; [|intros ? ? ? []].
    unfold SetDelay. destruct (kMinimumDelay K <=? aDelay);
      symmetry; apply app_nil_r.
  - apply quiet_carries, frame_quiet, RequestChannelSelect_frame.
  - apply quiet_carries, SetAutoChannelSelectionEnabled_quiet.
  - apply quiet_carries, SetAutoChannelSelectionInterval_quiet.
  - apply quiet_carries, SetSupportedChannels_quiet.
  - apply quiet_carries, SetFavoredChannels_quiet.
  - apply TimerFired_carries.
  - apply quiet_carries, HandleDatasetUpdateDone_quiet.
  - apply quiet_carries, set_env_quiet.
Qed.

Lemma run_delay (K : Constants) (pick : Z -> Z -> Z) (inputs : list Input) :
  Forall (fun i => accepts_delay K i = false) inputs ->
  forall w, mDelay (cm (run K pick inputs w)) = mDelay (cm w).
Proof.
  induction 1 as [|i inputs Hi _ IH]; intros w; [reflexivity|].
  cbn [run fold_left]. fold (run K pick inputs (step K pick i w)).
  rewrite IH. apply step_delay. exact Hi.
Qed.

Lemma events_since_app (w w' : World) (events : list Event) :
  trace w' = trace w ++ events -> events_since w w' = events.
Proof.
  intros Htrace. unfold events_since.
  rewrite Htrace, skipn_app, skipn_all, Nat.sub_diag. reflexivity.
Qed.

(** C9: [SetDelay] with a delay below [kMinimumDelay] returns
    [OT_ERROR_INVALID_ARGS] and leaves the world, the stored delay with it,
    unchanged.  Otherwise it stores the delay and returns success; and
    whatever happens to the manager afterwards, as long as no other delay is
    accepted, every dataset update it requests carries that delay in
    milliseconds and the target channel stored when the request is made. *)
Theorem SetDelay_next_updates (K : Constants) (pick : Z -> Z -> Z) (aDelay : Z) (w : World) :
  (aDelay < kMinimumDelay K -> SetDelay K aDelay w = (OT_ERROR_INVALID_ARGS, w))
  /\ (kMinimumDelay K <= aDelay ->
      SetDelay K aDelay w = (OT_ERROR_NONE, snd (update_cm (set_mDelay aDelay) w))
      /\ mDelay (cm (snd (SetDelay K aDelay w))) = aDelay
      /\ forall inputs i,
           Forall (fun j => accepts_delay K j = false) inputs ->
           let w1 := run K pick inputs (snd (SetDelay K aDelay w)) in
           forall aChannel aDelayMs aWait,
             In (EvRequestUpdate aChannel aDelayMs aWait)
                (events_since w1 (step K pick i w1)) ->
             aDelayMs = SecToMsec aDelay /\ aChannel = mChannel (cm w1))
  /\ (0 <= aDelay < 2 ^ 16 -> SecToMsec aDelay = aDelay * 1000).
Proof.
  split; [|split].
  - intros Hlow. unfold SetDelay.
    destruct (Z.leb_spec (kMinimumDelay K) aDelay); [lia | reflexivity].
  - intros Hok.
    assert (Hset : SetDelay K aDelay w
                   = (OT_ERROR_NONE, snd (update_cm (set_mDelay aDelay) w))).
    { unfold SetDelay.
      destruct (Z.leb_spec (kMinimumDelay K) aDelay); [reflexivity | lia]. }
    rewrite Hset. split; [reflexivity|]. split; [reflexivity|].
    intros inputs i Hinputs w1 aChannel aDelayMs aWait Hin.
    assert (Hdelay : mDelay (cm w1) = aDelay).
    { unfold w1. rewrite (run_delay K pick inputs Hinputs). reflexivity. }
    destruct (step_carries K pick i w1) as (events & Htrace & Hcarry).
    rewrite (events_since_app _ _ _ Htrace) in Hin.
    destruct (Hcarry _ _ _ Hin) as [Hc Hd].
    rewrite Hdelay in Hd. split; assumption.
  - intros Hrange. unfold SecToMsec, to_uint32. apply Z.mod_small. lia.
Qed.

(** After [SetDelay 300] and a request for channel 20, the expiry of the
    timer requests the dataset update with channel 20 and 300000 ms. *)
Lemma SetDelay_next_updates_witness :
  let w1 :=
    run Concrete.constants Concrete.choose [InRequestChannelChange 20]
      (snd (SetDelay Concrete.constants 300 Concrete.world1)) in
  events_since w1 (step Concrete.constants Concrete.choose InTimerFired w1)
  = [EvRequestUpdate 20 300000 30000]
  /\ 300000 = SecToMsec 300 /\ 20 = mChannel (cm w1).
Proof.
  intros w1. split; [reflexivity|].
  destruct (SetDelay_next_updates Concrete.constants Concrete.choose 300 Concrete.world1)
    as (_ & Haccepted & _).
  destruct Haccepted as (_ & _ & Hupdates).
  - vm_compute. discriminate.
  - apply (Hupdates [InRequestChannelChange 20] InTimerFired) with (aWait := 30000).
    + repeat constructor.
    + left. reflexivity.
Defined.

(** *** The timer of an idle manager

    The start time that [SetAutoChannelSelectionInterval] recovers from the
    fire time is the one the timer was started with: in every world the
    manager can reach, a timer running in the idle state was last started
    for the stored interval. *)

Lemma last_timer_call_app (events : list Event) (e : Event) :
  last_timer_call (events ++ [e])
  = if is_timer_call e then Some e else last_timer_call events.
Proof.
  unfold last_timer_call. rewrite filter_app, rev_app_distr. cbn [filter].
  destruct (is_timer_call e); reflexivity.
Qed.

Lemma same_timer_refl (w : World) : same_timer w w.
Proof. repeat split. Qed.

Lemma auto_timer_armed_same (w w' : World) :
  same_timer w w' -> auto_timer_armed w -> auto_timer_armed w'.
Proof.
  intros (Hst & Htm & Hint & Hen & Hlast) Harmed.
  unfold auto_timer_armed. rewrite Hst, Htm, Hint, Hen, Hlast. exact Harmed.
Qed.

Lemma auto_timer_armed_busy (w : World) :
  mState (cm w) <> kStateIdle -> auto_timer_armed w.
Proof. intros Hbusy Hidle. contradiction. Qed.

Lemma StartAutoSelectTimer_armed (w : World) :
  auto_timer_armed (snd (StartAutoSelectTimer w)).
Proof.
  destruct w as [c e draws requests tr].
  destruct c as [sup fav delay channel st tm interval enabled].
  unfold StartAutoSelectTimer. unfold_monad. cbn.
  destruct st; cbn; try (apply auto_timer_armed_busy; cbn; discriminate).
  destruct enabled; cbn; intros _ Hrun; cbn in *; [|discriminate].
  split; [reflexivity|]. exists (timeNow e).
  rewrite last_timer_call_app. split; reflexivity.
Qed.

Lemma RequestChannelChange_cases (K : Constants) (aChannel : Z) (w : World) :
  snd (RequestChannelChange K aChannel w) = w
  \/ mState (cm (snd (RequestChannelChange K aChannel w))) <> kStateIdle.
Proof.
  destruct w as [c e draws requests tr].
  destruct c as [sup fav delay channel st tm interval enabled].
  unfold RequestChannelChange. unfold_monad. cbn.
  destruct (aChannel =? macPanChannel e); [left; reflexivity|].
  destruct st; cbn; try (right; discriminate).
  destruct (channel =? aChannel); [left; reflexivity | right; discriminate].
Qed.

Lemma RequestChannelChange_armed (K : Constants) (aChannel : Z) (w : World) :
  auto_timer_armed w -> auto_timer_armed (snd (RequestChannelChange K aChannel w)).
Proof.
  intros Harmed.
  destruct (RequestChannelChange_cases K aChannel w) as [Hsame|Hbusy].
  - rewrite Hsame. exact Harmed.
  - apply auto_timer_armed_busy. exact Hbusy.
Qed.

Lemma RequestChannelSelect_armed
      (K : Constants) (pick : Z -> Z -> Z) (aSkipQualityCheck : bool) (w : World) :
  auto_timer_armed w ->
  auto_timer_armed (snd (RequestChannelSelect K pick aSkipQualityCheck w)).
Proof.
  intros Harmed.
  assert (Hdraw : auto_timer_armed (after_draw w))
    by (apply (auto_timer_armed_same w); [repeat split | exact Harmed]).
  destruct (RequestChannelSelect_world K pick aSkipQualityCheck w)
    as [Hw|[Hw|[newChannel Hw]]]; rewrite Hw.
  - exact Harmed.
  - exact Hdraw.
  - apply RequestChannelChange_armed. exact Hdraw.
Qed.

Lemma SetAutoChannelSelectionInterval_armed (K : Constants) (aInterval : Z) (w : World) :
  auto_timer_armed w ->
  auto_timer_armed (snd (SetAutoChannelSelectionInterval K aInterval w)).
Proof.
  destruct w as [c e draws requests tr].
  destruct c as [sup fav delay channel st tm interval enabled].
  unfold auto_timer_armed. cbn [cm trace mState mTimer mAutoSelectEnabled mAutoSelectInterval].
  intros Harmed.
  unfold SetAutoChannelSelectionInterval. unfold_monad. cbn.
  destruct (negb (aInterval =? 0) && (aInterval <=? MsecToSec (kMaxDelay K)));
    cbn; [|exact Harmed].
  destruct (enabled && State_eqb st kStateIdle && timerIsRunning tm
            && negb (interval =? aInterval)) eqn:Hcond; cbn.
  - (* restarted for the new interval *)
    intros _ _.
    apply andb_prop in Hcond. destruct Hcond as [Hcond _].
    apply andb_prop in Hcond. destruct Hcond as [Hcond _].
    apply andb_prop in Hcond. destruct Hcond as [Hen _].
    split; [exact Hen|].
    exists (to_uint32 (timerFireTime tm - SecToMsec interval)).
    rewrite last_timer_call_app. split; reflexivity.
  - (* left alone: the interval is the stored one *)
    intros Hst Hrun. destruct (Harmed Hst Hrun) as (Hen & start & Hlast & Hfire).
    rewrite Hen, Hst, Hrun in Hcond. cbn in Hcond.
    apply negb_false_iff, Z.eqb_eq in Hcond. subst aInterval.
    split; [exact Hen|]. exists start. split; assumption.
Qed.

Lemma StartDatasetUpdate_armed (K : Constants) (w : World) :
  mState (cm w) = kStateChangeRequested ->
  auto_timer_armed (snd (StartDatasetUpdate K w)).
Proof.
  destruct w as [c e draws requests tr].
  destruct c as [sup fav delay channel st tm interval enabled].
  cbn [cm mState]. intros Hst. subst st.
  unfold StartDatasetUpdate, StartAutoSelectTimer. unfold_monad. cbn.
  destruct (updaterResult e requests); cbn;
    try (apply auto_timer_armed_busy; cbn; discriminate);
    (destruct enabled; cbn; intros _ Hrun; cbn in *; [|discriminate];
     split; [reflexivity|]; exists (timeNow e);
     rewrite last_timer_call_app; split; reflexivity).
Qed.

Lemma TimerFired_armed (K : Constants) (pick : Z -> Z -> Z) (w : World) :
  auto_timer_armed w -> auto_timer_armed (snd (TimerFired K pick w)).
Proof.
  intros Harmed. rewrite TimerFired_eq.
  destruct (timerIsRunning (mTimer (cm w))); [|exact Harmed].
  rewrite HandleTimer_eq.
  change (mState (cm (expired w))) with (mState (cm w)).
  destruct (mState (cm w)) eqn:Hst.
  - unfold bind. destruct (RequestChannelSelect K pick false (expired w)) as [error w1].
    apply StartAutoSelectTimer_armed.
  - apply StartDatasetUpdate_armed. exact Hst.
  - apply auto_timer_armed_busy. cbn. rewrite Hst. discriminate.
Qed.

Lemma step_armed (K : Constants) (pick : Z -> Z -> Z) (i : Input) (w : World) :
  auto_timer_armed w -> auto_timer_armed (step K pick i w).
Proof.
  intros Harmed. destruct i; cbn [step].
  - apply RequestChannelChange_armed. exact Harmed.
  - unfold SetDelay. destruct (kMinimumDelay K <=? aDelay); exact Harmed.
  - apply RequestChannelSelect_armed. exact Harmed.
  - rewrite SetAutoChannelSelectionEnabled_eq.
    destruct (Bool.eqb aEnabled (mAutoSelectEnabled (cm w))); [exact Harmed|].
    apply StartAutoSelectTimer_armed.
  - apply SetAutoChannelSelectionInterval_armed. exact Harmed.
  - exact Harmed.
  - exact Harmed.
  - apply TimerFired_armed. exact Harmed.
  - apply StartAutoSelectTimer_armed.
  - exact Harmed.
Qed.

Lemma run_armed (K : Constants) (pick : Z -> Z -> Z) (inputs : list Input) :
  forall w, auto_timer_armed w -> auto_timer_armed (run K pick inputs w).
Proof.
  induction inputs as [|i inputs IH]; intros w Harmed; [exact Harmed|].
  cbn [run fold_left]. fold (run K pick inputs (step K pick i w)).
  apply IH, step_armed, Harmed.
Qed.

Lemma initial_armed (K : Constants) (e : Environment) : auto_timer_armed (initial K e).
Proof. intros _ Hrun. discriminate Hrun. Qed.

(** X1: whatever has happened to a manager since its construction, a timer
    that runs while the manager is idle is the auto-select timer:
    auto-selection is enabled, and the latest call into the timer started
    it for the stored interval, the fire time being that call's start time
    plus the interval. *)
Theorem reachable_auto_timer_armed
        (K : Constants) (pick : Z -> Z -> Z) (inputs : list Input) (e : Environment) :
  auto_timer_armed (run K pick inputs (initial K e)).
Proof.
  apply run_armed, initial_armed.
Qed.

Lemma reachable_auto_timer_armed_witness :
  let w :=
    run Concrete.constants Concrete.choose
      [InSetSupportedChannels 134215680;
       InSetAutoChannelSelectionEnabled true;
       InRequestChannelChange 20; InTimerFired; InDatasetUpdateDone OT_ERROR_NONE;
       InSetAutoChannelSelectionInterval 60]
      (initial Concrete.constants (Concrete.with_cca 0 Concrete.environment)) in
  mAutoSelectEnabled (cm w) = true
  /\ last_timer_call (trace w) = Some (EvTimerStartAt 0 60000)
  /\ timerFireTime (mTimer (cm w)) = 60000.
Proof.
  intros w.
  destruct (reachable_auto_timer_armed Concrete.constants Concrete.choose
              [InSetSupportedChannels 134215680;
               InSetAutoChannelSelectionEnabled true;
               InRequestChannelChange 20; InTimerFired; InDatasetUpdateDone OT_ERROR_NONE;
               InSetAutoChannelSelectionInterval 60]
              (Concrete.with_cca 0 Concrete.environment) eq_refl eq_refl)
    as (Hen & start & Hlast & Hfire).
  split; [exact Hen|]. split; reflexivity.
Defined.

(** X2: in a world the manager can reach, a change of the interval made
    while the manager is idle with its timer running restarts the timer at
    the start time of the latest call that started it: the timer then fires
    at that start time plus the new interval. *)
Theorem reachable_interval_restart
        (K : Constants) (pick : Z -> Z -> Z) (inputs : list Input) (e : Environment)
        (aInterval : Z) :
  let w := run K pick inputs (initial K e) in
  let w' := snd (SetAutoChannelSelectionInterval K aInterval w) in
  1 <= aInterval <= MsecToSec (kMaxDelay K) ->
  mState (cm w) = kStateIdle ->
  timerIsRunning (mTimer (cm w)) = true ->
  aInterval <> mAutoSelectInterval (cm w) ->
  exists start,
    last_timer_call (trace w)
    = Some (EvTimerStartAt start (SecToMsec (mAutoSelectInterval (cm w))))
    /\ last_timer_call (trace w')
       = Some (EvTimerStartAt (to_uint32 start) (SecToMsec aInterval))
    /\ mTimer (cm w') = mkTimer true (to_uint32 (start + SecToMsec aInterval)).
Proof.
  intros w w' Hvalid Hst Hrun Hne.
  destruct (run_armed K pick inputs (initial K e) (initial_armed K e) Hst Hrun)
    as (Hen & start & Hlast & Hfire).
  fold w in Hlast, Hfire, Hen.
  destruct (SetAutoChannelSelectionInterval_restart
              K aInterval start w Hvalid Hen Hst Hrun Hne Hfire)
    as (Htimer & Htrace & _).
  exists start. split; [exact Hlast|]. split; [|exact Htimer].
  fold w' in Htrace. rewrite Htrace, last_timer_call_app. reflexivity.
Qed.

Lemma reachable_interval_restart_witness :
  let w :=
    run Concrete.constants Concrete.choose
      [InSetAutoChannelSelectionEnabled true;
       InEnvironment (Concrete.with_time 1000000 (Concrete.with_cca 0 Concrete.environment))]
      (initial Concrete.constants (Concrete.with_cca 0 Concrete.environment)) in
  exists start,
    last_timer_call (trace w) = Some (EvTimerStartAt start 3600000)
    /\ mTimer (cm (snd (SetAutoChannelSelectionInterval Concrete.constants 7200 w)))
       = mkTimer true (to_uint32 (start + 7200000)).
Proof.
  intros w.
  destruct (reachable_interval_restart Concrete.constants Concrete.choose
              [InSetAutoChannelSelectionEnabled true;
               InEnvironment (Concrete.with_time 1000000
                                (Concrete.with_cca 0 Concrete.environment))]
              (Concrete.with_cca 0 Concrete.environment) 7200)
    as (start & Hlast & _ & Htimer).
  - vm_compute. split; discriminate.
  - reflexivity.
  - reflexivity.
  - vm_compute. discriminate.
  - exists start. split; [exact Hlast | exact Htimer].
Defined.

(** * Further properties of the state machine *)

(** *** The timer by state *)

Lemma StartAutoSelectTimer_matches (w : World) :
  idle_or_matches w -> timer_matches_state (snd (StartAutoSelectTimer w)).
Proof.
  destruct w as [c e draws requests tr].
  destruct c as [sup fav delay channel st tm interval enabled].
  unfold idle_or_matches, timer_matches_state, timer_expected, StartAutoSelectTimer.
  unfold_monad. cbn.
  destruct st; cbn; intros [Hidle|Hmatch]; try discriminate; try exact Hmatch;
    destruct enabled; reflexivity.
Qed.

(** An accepted request leaves the manager with a requested change and a
    running timer; a request that is not accepted leaves the world. *)
Lemma RequestChannelChange_requested (K : Constants) (aChannel : Z) (w : World) :
  snd (RequestChannelChange K aChannel w) = w
  \/ (mState (cm (snd (RequestChannelChange K aChannel w))) = kStateChangeRequested
      /\ timerIsRunning (mTimer (cm (snd (RequestChannelChange K aChannel w)))) = true).
Proof.
  destruct w as [c e draws requests tr].
  destruct c as [sup fav delay channel st tm interval enabled].
  unfold RequestChannelChange. unfold_monad. cbn.
  destruct (aChannel =? macPanChannel e); [left; reflexivity|].
  destruct st; cbn; try (right; split; reflexivity).
  destruct (channel =? aChannel); [left; reflexivity | right; split; reflexivity].
Qed.

Lemma requested_matches (w : World) :
  mState (cm w) = kStateChangeRequested ->
  timerIsRunning (mTimer (cm w)) = true ->
  timer_matches_state w.
Proof.
  intros Hst Hrun. unfold timer_matches_state, timer_expected.
  rewrite Hst, Hrun. reflexivity.
Qed.

Lemma RequestChannelChange_idle_or_matches (K : Constants) (aChannel : Z) (w : World) :
  idle_or_matches w -> idle_or_matches (snd (RequestChannelChange K aChannel w)).
Proof.
  intros Hw.
  destruct (RequestChannelChange_requested K aChannel w) as [Hsame|[Hst Hrun]].
  - rewrite Hsame. exact Hw.
  - right. apply requested_matches; assumption.
Qed.

Lemma RequestChannelSelect_idle_or_matches
      (K : Constants) (pick : Z -> Z -> Z) (aSkipQualityCheck : bool) (w : World) :
  idle_or_matches w ->
  idle_or_matches (snd (RequestChannelSelect K pick aSkipQualityCheck w)).
Proof.
  intros Hw.
  assert (Hdraw : idle_or_matches (after_draw w)) by exact Hw.
  destruct (RequestChannelSelect_world K pick aSkipQualityCheck w)
    as [Hw'|[Hw'|[newChannel Hw']]]; rewrite Hw'.
  - exact Hw.
  - exact Hdraw.
  - apply RequestChannelChange_idle_or_matches. exact Hdraw.
Qed.

Lemma RequestChannelChange_matches (K : Constants) (aChannel : Z) (w : World) :
  timer_matches_state w -> timer_matches_state (snd (RequestChannelChange K aChannel w)).
Proof.
  intros Hw.
  destruct (RequestChannelChange_requested K aChannel w) as [Hsame|[Hst Hrun]].
  - rewrite Hsame. exact Hw.
  - apply requested_matches; assumption.
Qed.

Lemma RequestChannelSelect_matches
      (K : Constants) (pick : Z -> Z -> Z) (aSkipQualityCheck : bool) (w : World) :
  timer_matches_state w ->
  timer_matches_state (snd (RequestChannelSelect K pick aSkipQualityCheck w)).
Proof.
  intros Hw.
  assert (Hdraw : timer_matches_state (after_draw w)) by exact Hw.
  destruct (RequestChannelSelect_world K pick aSkipQualityCheck w)
    as [Hw'|[Hw'|[newChannel Hw']]]; rewrite Hw'.
  - exact Hw.
  - exact Hdraw.
  - apply RequestChannelChange_matches. exact Hdraw.
Qed.

Lemma select_then_timer_matches (K : Constants) (pick : Z -> Z -> Z) (w : World) :
  idle_or_matches w ->
  timer_matches_state
    (snd ((_ <- RequestChannelSelect K pick false ;; StartAutoSelectTimer) w)).
Proof.
  intros Hw. unfold bind.
  pose proof (RequestChannelSelect_idle_or_matches K pick false w Hw) as Hsel.
  destruct (RequestChannelSelect K pick false w) as [error w1].
  apply StartAutoSelectTimer_matches. exact Hsel.
Qed.

Lemma SetAutoChannelSelectionEnabled_matches
      (K : Constants) (pick : Z -> Z -> Z) (aEnabled : bool) (w : World) :
  timer_matches_state w ->
  timer_matches_state (snd (SetAutoChannelSelectionEnabled K pick aEnabled w)).
Proof.
  intros Hw. rewrite SetAutoChannelSelectionEnabled_eq.
  destruct (Bool.eqb aEnabled (mAutoSelectEnabled (cm w))); [exact Hw|].
  apply StartAutoSelectTimer_matches, RequestChannelSelect_idle_or_matches.
  destruct w as [c e draws requests tr].
  destruct c as [sup fav delay channel st tm interval enabled].
  unfold idle_or_matches, timer_matches_state, timer_expected in *. cbn in *.
  destruct st; [left; reflexivity | right; exact Hw | right; exact Hw].
Qed.

Lemma SetAutoChannelSelectionInterval_matches (K : Constants) (aInterval : Z) (w : World) :
  timer_matches_state w ->
  timer_matches_state (snd (SetAutoChannelSelectionInterval K aInterval w)).
Proof.
  destruct w as [c e draws requests tr].
  destruct c as [sup fav delay channel st tm interval enabled].
  unfold timer_matches_state, timer_expected.
  cbn [cm mState mTimer mAutoSelectEnabled]. intros Hw.
  unfold SetAutoChannelSelectionInterval. unfold_monad. cbn.
  destruct (negb (aInterval =? 0) && (aInterval <=? MsecToSec (kMaxDelay K)));
    cbn; [|exact Hw].
  destruct (enabled && State_eqb st kStateIdle && timerIsRunning tm
            && negb (interval =? aInterval)) eqn:Hcond; cbn; [|exact Hw].
  destruct enabled, st; cbn in Hcond; try discriminate. reflexivity.
Qed.

Lemma StartDatasetUpdate_matches (K : Constants) (w : World) :
  mState (cm w) = kStateChangeRequested ->
  timerIsRunning (mTimer (cm w)) = false ->
  timer_matches_state (snd (StartDatasetUpdate K w)).
Proof.
  destruct w as [c e draws requests tr].
  destruct c as [sup fav delay channel st tm interval enabled].
  destruct tm as [running fire].
  cbn [cm mState mTimer timerIsRunning]. intros Hst Hrun. subst st running.
  unfold StartDatasetUpdate, StartAutoSelectTimer, timer_matches_state, timer_expected.
  unfold_monad. cbn.
  destruct (updaterResult e requests); cbn; try reflexivity; destruct enabled; reflexivity.
Qed.

Lemma TimerFired_matches (K : Constants) (pick : Z -> Z -> Z) (w : World) :
  timer_matches_state w -> timer_matches_state (snd (TimerFired K pick w)).
Proof.
  intros Hw. rewrite TimerFired_eq.
  destruct (timerIsRunning (mTimer (cm w))); [|exact Hw].
  rewrite HandleTimer_eq.
  change (mState (cm (expired w))) with (mState (cm w)).
  destruct (mState (cm w)) eqn:Hst.
  - apply select_then_timer_matches. left. exact Hst.
  - apply StartDatasetUpdate_matches; [exact Hst | reflexivity].
  - unfold timer_matches_state, timer_expected. cbn. rewrite Hst. reflexivity.
Qed.

Lemma HandleDatasetUpdateDone_matches (aError : otError) (w : World) :
  timer_matches_state (snd (HandleDatasetUpdateDone aError w)).
Proof.
  unfold HandleDatasetUpdateDone, bind at 1.
  destruct (update_cm (set_mState kStateIdle) w) as [u w0] eqn:Hw0.
  apply StartAutoSelectTimer_matches. left.
  replace w0 with (snd (update_cm (set_mState kStateIdle) w)) by (rewrite Hw0; reflexivity).
  reflexivity.
Qed.

Lemma step_matches (K : Constants) (pick : Z -> Z -> Z) (i : Input) (w : World) :
  timer_matches_state w -> timer_matches_state (step K pick i w).
Proof.
  intros Hw. destruct i; cbn [step].
  - apply RequestChannelChange_matches. exact Hw.
  - unfold SetDelay. destruct (kMinimumDelay K <=? aDelay); exact Hw.
  - apply RequestChannelSelect_matches. exact Hw.
  - apply SetAutoChannelSelectionEnabled_matches. exact Hw.
  - apply SetAutoChannelSelectionInterval_matches. exact Hw.
  - exact Hw.
  - exact Hw.
  - apply TimerFired_matches. exact Hw.
  - apply HandleDatasetUpdateDone_matches.
  - exact Hw.
Qed.

Lemma run_matches (K : Constants) (pick : Z -> Z -> Z) (inputs : list Input) :
  forall w, timer_matches_state w -> timer_matches_state (run K pick inputs w).
Proof.
  induction inputs as [|i inputs IH]; intros w Hw; [exact Hw|].
  cbn [run fold_left]. fold (run K pick inputs (step K pick i w)).
  apply IH, step_matches, Hw.
Qed.

(** X3: whatever has happened to a manager since its construction, its one
    timer is in the role its state gives it: in the idle state it runs
    exactly when auto-selection is enabled, it runs whenever a channel change
    is requested (jitter or retry delay), and it does not run while a change
    is in progress. *)
Theorem reachable_timer_matches_state
        (K : Constants) (pick : Z -> Z -> Z) (inputs : list Input) (e : Environment) :
  let w := run K pick inputs (initial K e) in
  (mState (cm w) = kStateIdle ->
   timerIsRunning (mTimer (cm w)) = mAutoSelectEnabled (cm w))
  /\ (mState (cm w) = kStateChangeRequested -> timerIsRunning (mTimer (cm w)) = true)
  /\ (mState (cm w) = kStateChangeInProgress -> timerIsRunning (mTimer (cm w)) = false).
Proof.
  intros w.
  assert (Hw : timer_matches_state w) by (apply run_matches; reflexivity).
  unfold timer_matches_state, timer_expected in Hw.
  repeat split; intros Hst; rewrite Hst in Hw; exact Hw.
Qed.

Lemma reachable_timer_matches_state_witness :
  let w :=
    run Concrete.constants Concrete.choose
      [InSetSupportedChannels 134215680; InRequestChannelChange 20; InTimerFired]
      (initial Concrete.constants Concrete.environment) in
  mState (cm w) = kStateChangeInProgress /\ timerIsRunning (mTimer (cm w)) = false.
Proof.
  intros w. split; [reflexivity|].
  destruct (reachable_timer_matches_state Concrete.constants Concrete.choose
              [InSetSupportedChannels 134215680; InRequestChannelChange 20; InTimerFired]
              Concrete.environment) as (_ & _ & Hprogress).
  apply Hprogress. reflexivity.
Defined.

(** *** The calls into the dataset updater *)

Lemma neutral_refl (w : World) : neutral w w.
Proof.
  repeat split. exists []. split; [symmetry; apply app_nil_r | constructor].
Qed.

Lemma neutral_trans (w1 w2 w3 : World) : neutral w1 w2 -> neutral w2 w3 -> neutral w1 w3.
Proof.
  intros (Hs1 & Hc1 & ev1 & Ht1 & Hf1) (Hs2 & Hc2 & ev2 & Ht2 & Hf2).
  repeat split; try congruence.
  exists (ev1 ++ ev2). split.
  - rewrite Ht2, Ht1. symmetry. apply app_assoc.
  - apply Forall_app. split; assumption.
Qed.

Ltac solve_neutral :=
  unfold neutral; cbn; repeat split;
  rewrite <- ?app_assoc;
  first [ exists []; split; [symmetry; apply app_nil_r | constructor]
        | eexists; split; [reflexivity | repeat constructor] ].

Lemma update_cm_neutral (f : ChannelManager -> ChannelManager) (w : World) :
  (forall c, mState (f c) = mState c) ->
  (forall c, mChannel (f c) = mChannel c) ->
  neutral w (snd (update_cm f w)).
Proof.
  intros Hs Hc. split; [apply Hs|]. split; [apply Hc|].
  exists []. split; [symmetry; apply app_nil_r | constructor].
Qed.

Lemma after_draw_neutral (w : World) : neutral w (after_draw w).
Proof.
  repeat split. exists []. split; [symmetry; apply app_nil_r | constructor].
Qed.

Lemma expired_neutral (w : World) : neutral w (expired w).
Proof. apply update_cm_neutral; reflexivity. Qed.

Lemma StartAutoSelectTimer_neutral (w : World) : neutral w (snd (StartAutoSelectTimer w)).
Proof.
  destruct w as [c e draws requests tr].
  destruct c as [sup fav delay channel st tm interval enabled].
  unfold StartAutoSelectTimer. unfold_monad. cbn.
  destruct st; cbn; try apply neutral_refl.
  destruct enabled; cbn; solve_neutral.
Qed.

Lemma SetAutoChannelSelectionInterval_neutral (K : Constants) (aInterval : Z) (w : World) :
  neutral w (snd (SetAutoChannelSelectionInterval K aInterval w)).
Proof.
  destruct w as [c e draws requests tr].
  destruct c as [sup fav delay channel st tm interval enabled].
  unfold SetAutoChannelSelectionInterval. unfold_monad. cbn.
  destruct (negb (aInterval =? 0) && (aInterval <=? MsecToSec (kMaxDelay K)));
    cbn; [|apply neutral_refl].
  destruct (enabled && State_eqb st kStateIdle && timerIsRunning tm
            && negb (interval =? aInterval)); cbn; solve_neutral.
Qed.

Lemma last_updater_call_neutral (w w' : World) :
  neutral w w' -> last_updater_call (trace w') = last_updater_call (trace w).
Proof.
  intros (_ & _ & events & Htrace & Hnone). rewrite Htrace. clear Htrace.
  unfold last_updater_call. rewrite filter_app.
  replace (filter is_updater_call events) with (@nil Event);
    [rewrite app_nil_r; reflexivity|].
  induction Hnone as [|e events He _ IH]; [reflexivity|].
  cbn [filter]. rewrite He. exact IH.
Qed.

Lemma update_in_flight_neutral (w w' : World) :
  neutral w w' -> update_in_flight w -> update_in_flight w'.
Proof.
  intros Hn Hw. pose proof (last_updater_call_neutral w w' Hn) as Hlast.
  destruct Hn as (Hst & Hch & _).
  unfold update_in_flight. rewrite Hst, Hch, Hlast. exact Hw.
Qed.

Lemma update_in_flight_other (w : World) :
  mState (cm w) <> kStateChangeInProgress -> update_in_flight w.
Proof. intros Hother Hst. contradiction. Qed.

Lemma RequestChannelChange_in_flight (K : Constants) (aChannel : Z) (w : World) :
  update_in_flight w -> update_in_flight (snd (RequestChannelChange K aChannel w)).
Proof.
  intros Hw.
  destruct (RequestChannelChange_requested K aChannel w) as [Hsame|[Hst _]].
  - rewrite Hsame. exact Hw.
  - apply update_in_flight_other. rewrite Hst. discriminate.
Qed.

Lemma RequestChannelSelect_in_flight
      (K : Constants) (pick : Z -> Z -> Z) (aSkipQualityCheck : bool) (w : World) :
  update_in_flight w ->
  update_in_flight (snd (RequestChannelSelect K pick aSkipQualityCheck w)).
Proof.
  intros Hw.
  assert (Hdraw : update_in_flight (after_draw w)) by exact Hw.
  destruct (RequestChannelSelect_world K pick aSkipQualityCheck w)
    as [Hw'|[Hw'|[newChannel Hw']]]; rewrite Hw'.
  - exact Hw.
  - exact Hdraw.
  - apply RequestChannelChange_in_flight. exact Hdraw.
Qed.

Lemma select_then_timer_in_flight (K : Constants) (pick : Z -> Z -> Z) (w : World) :
  update_in_flight w ->
  update_in_flight
    (snd ((_ <- RequestChannelSelect K pick false ;; StartAutoSelectTimer) w)).
Proof.
  intros Hw. unfold bind.
  pose proof (RequestChannelSelect_in_flight K pick false w Hw) as Hsel.
  destruct (RequestChannelSelect K pick false w) as [error w1].
  eapply update_in_flight_neutral; [apply StartAutoSelectTimer_neutral | exact Hsel].
Qed.

Lemma last_updater_call_app (events : list Event) (e : Event) :
  last_updater_call (events ++ [e])
  = if is_updater_call e then Some e else last_updater_call events.
Proof.
  unfold last_updater_call. rewrite filter_app, rev_app_distr. cbn [filter].
  destruct (is_updater_call e); reflexivity.
Qed.

Lemma StartDatasetUpdate_in_flight (K : Constants) (w : World) :
  mState (cm w) = kStateChangeRequested ->
  update_in_flight (snd (StartDatasetUpdate K w)).
Proof.
  destruct w as [c e draws requests tr].
  destruct c as [sup fav delay channel st tm interval enabled].
  cbn [cm mState]. intros Hst. subst st.
  unfold StartDatasetUpdate, StartAutoSelectTimer. unfold_monad. cbn.
  destruct (updaterResult e requests) eqn:Hres; cbn;
    try (apply update_in_flight_other; cbn; discriminate);
    try (destruct enabled; cbn; apply update_in_flight_other; cbn; discriminate).
  intros _. cbn. exists (SecToMsec delay), (kChangeCheckWaitInterval K).
  apply last_updater_call_app.
Qed.

Lemma TimerFired_in_flight (K : Constants) (pick : Z -> Z -> Z) (w : World) :
  update_in_flight w -> update_in_flight (snd (TimerFired K pick w)).
Proof.
  intros Hw. rewrite TimerFired_eq.
  destruct (timerIsRunning (mTimer (cm w))); [|exact Hw].
  assert (Hexp : update_in_flight (expired w))
    by (eapply update_in_flight_neutral; [apply expired_neutral | exact Hw]).
  rewrite HandleTimer_eq.
  destruct (mState (cm (expired w))) eqn:Hst.
  - apply select_then_timer_in_flight. exact Hexp.
  - apply StartDatasetUpdate_in_flight. exact Hst.
  - exact Hexp.
Qed.

Lemma HandleDatasetUpdateDone_idle (aError : otError) (w : World) :
  mState (cm (snd (HandleDatasetUpdateDone aError w))) = kStateIdle.
Proof.
  destruct w as [c e draws requests tr].
  destruct c as [sup fav delay channel st tm interval enabled].
  unfold HandleDatasetUpdateDone, StartAutoSelectTimer. unfold_monad. cbn.
  destruct enabled; reflexivity.
Qed.

Lemma step_in_flight (K : Constants) (pick : Z -> Z -> Z) (i : Input) (w : World) :
  update_in_flight w -> update_in_flight (step K pick i w).
Proof.
  intros Hw. destruct i; cbn [step].
  - apply RequestChannelChange_in_flight. exact Hw.
  - unfold SetDelay. destruct (kMinimumDelay K <=? aDelay); exact Hw.
  - apply RequestChannelSelect_in_flight. exact Hw.
  - rewrite SetAutoChannelSelectionEnabled_eq.
    destruct (Bool.eqb aEnabled (mAutoSelectEnabled (cm w))); [exact Hw|].
    eapply update_in_flight_neutral; [apply StartAutoSelectTimer_neutral|].
    apply RequestChannelSelect_in_flight.
    eapply update_in_flight_neutral; [|exact Hw].
    apply update_cm_neutral; reflexivity.
  - eapply update_in_flight_neutral;
      [apply SetAutoChannelSelectionInterval_neutral | exact Hw].
  - exact Hw.
  - exact Hw.
  - apply TimerFired_in_flight. exact Hw.
  - apply update_in_flight_other. rewrite HandleDatasetUpdateDone_idle. discriminate.
  - exact Hw.
Qed.

Lemma run_in_flight (K : Constants) (pick : Z -> Z -> Z) (inputs : list Input) :
  forall w, update_in_flight w -> update_in_flight (run K pick inputs w).
Proof.
  induction inputs as [|i inputs IH]; intros w Hw; [exact Hw|].
  cbn [run fold_left]. fold (run K pick inputs (step K pick i w)).
  apply IH, step_in_flight, Hw.
Qed.

(** X4: whatever has happened to a manager since its construction, while a
    channel change is in progress the latest call it made into the dataset
    updater is the request of an update, and that update is to the stored
    target channel: the update in flight is never stale with respect to
    the target, and it has not been cancelled. *)
Theorem reachable_update_in_flight
        (K : Constants) (pick : Z -> Z -> Z) (inputs : list Input) (e : Environment) :
  let w := run K pick inputs (initial K e) in
  mState (cm w) = kStateChangeInProgress ->
  exists aDelayMs aWait,
    last_updater_call (trace w) = Some (EvRequestUpdate (mChannel (cm w)) aDelayMs aWait).
Proof.
  intros w. apply run_in_flight. intros Hst. discriminate Hst.
Qed.

Lemma reachable_update_in_flight_witness :
  let w :=
    run Concrete.constants Concrete.choose
      [InRequestChannelChange 20; InTimerFired; InRequestChannelChange 25; InTimerFired]
      (initial Concrete.constants Concrete.environment) in
  exists aDelayMs aWait,
    last_updater_call (trace w) = Some (EvRequestUpdate 25 aDelayMs aWait).
Proof.
  intros w.
  apply (reachable_update_in_flight Concrete.constants Concrete.choose
           [InRequestChannelChange 20; InTimerFired; InRequestChannelChange 25; InTimerFired]
           Concrete.environment).
  reflexivity.
Defined.

Lemma quiet_silent (w w' : World) : quiet w w' -> silent w w'.
Proof. intros [_ Hevents]. exact Hevents. Qed.

Lemma silent_refl (w : World) : silent w w.
Proof. exists []. split; [symmetry; apply app_nil_r | constructor]. Qed.

Lemma silent_events (w w' : World) :
  silent w w' -> Forall (fun e => is_update e = false) (events_since w w').
Proof.
  intros (events & Htrace & Hnone). rewrite (events_since_app _ _ _ Htrace). exact Hnone.
Qed.

(** The dataset update that [StartDatasetUpdate] requests: one, first of
    all, for the stored channel and delay. *)
Lemma StartDatasetUpdate_one_update (K : Constants) (w : World) :
  exists rest,
    trace (snd (StartDatasetUpdate K w))
    = trace w ++ EvRequestUpdate (mChannel (cm w)) (SecToMsec (mDelay (cm w)))
                   (kChangeCheckWaitInterval K) :: rest
    /\ Forall (fun e => is_update e = false) rest.
Proof.
  destruct w as [c e draws requests tr].
  destruct c as [sup fav delay channel st tm interval enabled].
  unfold StartDatasetUpdate, StartAutoSelectTimer. unfold_monad. cbn.
  destruct (updaterResult e requests); cbn;
    try (destruct st; cbn); try (destruct enabled; cbn);
    rewrite <- ?app_assoc; cbn [app];
    eexists; (split; [reflexivity | repeat constructor]).
Qed.

Lemma step_silent (K : Constants) (pick : Z -> Z -> Z) (i : Input) (w : World) :
  i <> InTimerFired \/ timerIsRunning (mTimer (cm w)) = false
  \/ mState (cm w) <> kStateChangeRequested ->
  silent w (step K pick i w).
Proof.
  intros Hnot. destruct i; cbn [step].
  - apply quiet_silent, frame_quiet, RequestChannelChange_frame.
  - unfold SetDelay. destruct (kMinimumDelay K <=? aDelay);
      (exists []; split; [symmetry; apply app_nil_r | constructor]).
  - apply quiet_silent, frame_quiet, RequestChannelSelect_frame.
  - apply quiet_silent, SetAutoChannelSelectionEnabled_quiet.
  - apply quiet_silent, SetAutoChannelSelectionInterval_quiet.
  - apply quiet_silent, SetSupportedChannels_quiet.
  - apply quiet_silent, SetFavoredChannels_quiet.
  - rewrite TimerFired_eq.
    destruct (timerIsRunning (mTimer (cm w))) eqn:Hrun; [|apply silent_refl].
    rewrite HandleTimer_eq.
    change (mState (cm (expired w))) with (mState (cm w)).
    destruct (mState (cm w)) eqn:Hst.
    + apply quiet_silent. unfold bind.
      destruct (RequestChannelSelect K pick false (expired w)) as [error w1] eqn:Hsel.
      eapply quiet_trans; [apply expired_quiet|].
      eapply quiet_trans;
        [apply frame_quiet, (RequestChannelSelect_frame K pick false (expired w))|].
      rewrite Hsel. apply frame_quiet, StartAutoSelectTimer_frame.
    + destruct Hnot as [Hi|[Hr|Hs]]; [congruence | discriminate | congruence].
    + apply quiet_silent, expired_quiet.
  - apply quiet_silent, HandleDatasetUpdateDone_quiet.
  - apply quiet_silent, set_env_quiet.
Qed.

(** X5: the manager requests a dataset update on one occasion only, the
    expiry of its timer while a change is requested; it then requests
    exactly one, with the stored target channel and delay.  No method call,
    no other expiry of the timer, no completion callback and no change in
    the collaborators makes it request an update. *)
Theorem updates_only_on_timer (K : Constants) (pick : Z -> Z -> Z) (i : Input) (w : World) :
  let events := events_since w (step K pick i w) in
  (i = InTimerFired ->
   timerIsRunning (mTimer (cm w)) = true ->
   mState (cm w) = kStateChangeRequested ->
   exists rest,
     events = EvRequestUpdate (mChannel (cm w)) (SecToMsec (mDelay (cm w)))
                (kChangeCheckWaitInterval K) :: rest
     /\ Forall (fun e => is_update e = false) rest)
  /\ (i <> InTimerFired \/ timerIsRunning (mTimer (cm w)) = false
      \/ mState (cm w) <> kStateChangeRequested ->
      Forall (fun e => is_update e = false) events).
Proof.
  cbn zeta. split.
  - intros Hi Hrun Hst. subst i. cbn [step].
    rewrite TimerFired_eq, Hrun, HandleTimer_eq.
    change (mState (cm (expired w))) with (mState (cm w)). rewrite Hst.
    destruct (StartDatasetUpdate_one_update K (expired w)) as (rest & Htrace & Hrest).
    exists rest. split; [|exact Hrest].
    apply events_since_app. exact Htrace.
  - intros Hnot. apply silent_events, step_silent, Hnot.
Qed.

Lemma updates_only_on_timer_witness :
  let w :=
    run Concrete.constants Concrete.choose [InRequestChannelChange 20]
      (initial Concrete.constants Concrete.environment) in
  (exists rest,
      events_since w (step Concrete.constants Concrete.choose InTimerFired w)
      = EvRequestUpdate 20 120000 30000 :: rest)
  /\ Forall (fun e => is_update e = false)
       (events_since w
          (step Concrete.constants Concrete.choose (InDatasetUpdateDone OT_ERROR_NONE) w)).
Proof.
  intros w. split.
  - destruct (updates_only_on_timer Concrete.constants Concrete.choose InTimerFired w)
      as (Hfire & _).
    destruct (Hfire eq_refl eq_refl eq_refl) as (rest & Hevents & _).
    exists rest. exact Hevents.
  - destruct (updates_only_on_timer Concrete.constants Concrete.choose
                (InDatasetUpdateDone OT_ERROR_NONE) w) as (_ & Hother).
    apply Hother. left. discriminate.
Defined.

Lemma neutral_cancel_ok (w w' : World) : neutral w w' -> cancel_ok w w'.
Proof.
  intros (_ & _ & events & Htrace & Hnone). exists events. split; [exact Htrace|].
  intros Hin. rewrite Forall_forall in Hnone. apply Hnone in Hin. discriminate.
Qed.

Lemma cancel_ok_after_neutral (w w1 w2 : World) :
  neutral w w1 -> cancel_ok w1 w2 -> cancel_ok w w2.
Proof.
  intros (Hst & Hch & ev1 & Ht1 & Hnone) (ev2 & Ht2 & Hcancel).
  exists (ev1 ++ ev2). split; [rewrite Ht2, Ht1; symmetry; apply app_assoc|].
  intros Hin. apply in_app_or in Hin. destruct Hin as [Hin|Hin].
  - rewrite Forall_forall in Hnone. apply Hnone in Hin. discriminate.
  - rewrite <- Hst, <- Hch. apply Hcancel. exact Hin.
Qed.

Lemma cancel_ok_then_neutral (w w1 w2 : World) :
  cancel_ok w w1 -> neutral w1 w2 -> cancel_ok w w2.
Proof.
  intros (ev1 & Ht1 & Hcancel) (Hst & Hch & ev2 & Ht2 & Hnone).
  exists (ev1 ++ ev2). split; [rewrite Ht2, Ht1; symmetry; apply app_assoc|].
  intros Hin. apply in_app_or in Hin. destruct Hin as [Hin|Hin].
  - rewrite Hst, Hch. apply Hcancel. exact Hin.
  - rewrite Forall_forall in Hnone. apply Hnone in Hin. discriminate.
Qed.

Ltac no_cancel_in H :=
  cbn in H;
  repeat (destruct H as [H|H]; [discriminate H|]);
  destruct H.

Lemma RequestChannelChange_cancel_ok (K : Constants) (aChannel : Z) (w : World) :
  cancel_ok w (snd (RequestChannelChange K aChannel w)).
Proof.
  destruct w as [c e draws requests tr].
  destruct c as [sup fav delay channel st tm interval enabled].
  unfold RequestChannelChange, cancel_ok. unfold_monad. cbn.
  destruct (aChannel =? macPanChannel e);
    [exists []; split; [symmetry; apply app_nil_r | intros []]|].
  destruct st; cbn.
  - rewrite <- ?app_assoc. eexists. split; [reflexivity|]. intros Hin. no_cancel_in Hin.
  - rewrite <- ?app_assoc. eexists. split; [reflexivity|]. intros Hin. no_cancel_in Hin.
  - destruct (Z.eqb_spec channel aChannel) as [Heq|Hne]; cbn.
    + exists []. split; [symmetry; apply app_nil_r | intros []].
    + rewrite <- ?app_assoc. eexists. split; [reflexivity|].
      intros _. repeat split. congruence.
Qed.

Lemma RequestChannelSelect_cancel_ok
      (K : Constants) (pick : Z -> Z -> Z) (aSkipQualityCheck : bool) (w : World) :
  cancel_ok w (snd (RequestChannelSelect K pick aSkipQualityCheck w)).
Proof.
  destruct (RequestChannelSelect_world K pick aSkipQualityCheck w)
    as [Hw'|[Hw'|[newChannel Hw']]]; rewrite Hw'.
  - apply neutral_cancel_ok, neutral_refl.
  - apply neutral_cancel_ok, after_draw_neutral.
  - eapply cancel_ok_after_neutral;
      [apply after_draw_neutral | apply RequestChannelChange_cancel_ok].
Qed.

Lemma select_then_timer_cancel_ok (K : Constants) (pick : Z -> Z -> Z) (w : World) :
  cancel_ok w (snd ((_ <- RequestChannelSelect K pick false ;; StartAutoSelectTimer) w)).
Proof.
  unfold bind.
  pose proof (RequestChannelSelect_cancel_ok K pick false w) as Hsel.
  destruct (RequestChannelSelect K pick false w) as [error w1].
  eapply cancel_ok_then_neutral; [exact Hsel | apply StartAutoSelectTimer_neutral].
Qed.

Lemma StartDatasetUpdate_cancel_ok (K : Constants) (w : World) :
  cancel_ok w (snd (StartDatasetUpdate K w)).
Proof.
  destruct w as [c e draws requests tr].
  destruct c as [sup fav delay channel st tm interval enabled].
  unfold StartDatasetUpdate, StartAutoSelectTimer, cancel_ok. unfold_monad. cbn.
  destruct (updaterResult e requests); cbn;
    try (destruct st; cbn); try (destruct enabled; cbn);
    rewrite <- ?app_assoc; cbn [app];
    (eexists; split; [reflexivity|]; intros Hin; no_cancel_in Hin).
Qed.

Lemma HandleDatasetUpdateDone_cancel_ok (aError : otError) (w : World) :
  cancel_ok w (snd (HandleDatasetUpdateDone aError w)).
Proof.
  destruct w as [c e draws requests tr].
  destruct c as [sup fav delay channel st tm interval enabled].
  unfold HandleDatasetUpdateDone, StartAutoSelectTimer, cancel_ok. unfold_monad. cbn.
  destruct enabled; cbn;
    (eexists; split; [reflexivity|]; intros Hin; no_cancel_in Hin).
Qed.

Lemma step_cancel_ok (K : Constants) (pick : Z -> Z -> Z) (i : Input) (w : World) :
  cancel_ok w (step K pick i w).
Proof.
  destruct i; cbn [step].
  - apply RequestChannelChange_cancel_ok.
  - unfold SetDelay. destruct (kMinimumDelay K <=? aDelay);
      apply neutral_cancel_ok; [apply update_cm_neutral; reflexivity | apply neutral_refl].
  - apply RequestChannelSelect_cancel_ok.
  - rewrite SetAutoChannelSelectionEnabled_eq.
    destruct (Bool.eqb aEnabled (mAutoSelectEnabled (cm w)));
      [apply neutral_cancel_ok, neutral_refl|].
    eapply cancel_ok_then_neutral; [|apply StartAutoSelectTimer_neutral].
    eapply cancel_ok_after_neutral; [|apply RequestChannelSelect_cancel_ok].
    apply update_cm_neutral; reflexivity.
  - apply neutral_cancel_ok, SetAutoChannelSelectionInterval_neutral.
  - apply neutral_cancel_ok.
    apply (update_cm_neutral
             (set_mSupportedChannelMask (Z.land aChannelMask (macSupportedChannelMask (env w)))));
      reflexivity.
  - apply neutral_cancel_ok.
    apply (update_cm_neutral
             (set_mFavoredChannelMask (Z.land aChannelMask (macSupportedChannelMask (env w)))));
      reflexivity.
  - rewrite TimerFired_eq.
    destruct (timerIsRunning (mTimer (cm w))); [|apply neutral_cancel_ok, neutral_refl].
    rewrite HandleTimer_eq.
    destruct (mState (cm (expired w))).
    + eapply cancel_ok_after_neutral;
        [apply expired_neutral | apply select_then_timer_cancel_ok].
    + eapply cancel_ok_after_neutral;
        [apply expired_neutral | apply StartDatasetUpdate_cancel_ok].
    + apply neutral_cancel_ok, expired_neutral.
  - apply HandleDatasetUpdateDone_cancel_ok.
  - apply neutral_cancel_ok. repeat split.
    exists []. split; [symmetry; apply app_nil_r | constructor].
Qed.

(** X6: the manager cancels a dataset update on one occasion only: a change
    is in progress and a change to another channel is requested.  Whatever
    the input, if [CancelUpdate] is called then the state was
    [kStateChangeInProgress] before, it is [kStateChangeRequested] after,
    and the target channel has changed. *)
Theorem cancel_only_in_progress (K : Constants) (pick : Z -> Z -> Z) (i : Input) (w : World) :
  In EvCancelUpdate (events_since w (step K pick i w)) ->
  mState (cm w) = kStateChangeInProgress
  /\ mState (cm (step K pick i w)) = kStateChangeRequested
  /\ mChannel (cm (step K pick i w)) <> mChannel (cm w).
Proof.
  destruct (step_cancel_ok K pick i w) as (events & Htrace & Hcancel).
  rewrite (events_since_app _ _ _ Htrace). exact Hcancel.
Qed.

Lemma cancel_only_in_progress_witness :
  let w :=
    run Concrete.constants Concrete.choose [InRequestChannelChange 20; InTimerFired]
      (initial Concrete.constants Concrete.environment) in
  mState (cm w) = kStateChangeInProgress
  /\ mChannel (cm (step Concrete.constants Concrete.choose (InRequestChannelChange 25) w))
     <> mChannel (cm w).
Proof.
  intros w.
  destruct (cancel_only_in_progress Concrete.constants Concrete.choose
              (InRequestChannelChange 25) w) as (Hst & _ & Hch).
  - left. reflexivity.
  - split; assumption.
Defined.

(** *** Requests for a channel change *)

Lemma app_not_self {A : Type} (l events : list A) :
  events <> [] -> l ++ events <> l.
Proof.
  intros Hne Heq. apply Hne.
  apply (app_inv_head l). rewrite app_nil_r. exact Heq.
Qed.

(** A world whose log has grown is not the world before. *)
Ltac trace_changed H :=
  apply (f_equal trace) in H; cbn in H; rewrite <- ?app_assoc in H;
  apply app_not_self in H; [exact H | discriminate].

(** X7: [RequestChannelChange] ignores a request in exactly two cases: the
    channel is the MAC's current pan channel, or a change to that very
    channel is in progress.  In every other case the world changes; in
    particular a request repeated while the change is still only requested
    is not ignored. *)
Theorem RequestChannelChange_ignored_iff (K : Constants) (aChannel : Z) (w : World) :
  snd (RequestChannelChange K aChannel w) = w
  <-> aChannel = macPanChannel (env w)
      \/ (mState (cm w) = kStateChangeInProgress /\ mChannel (cm w) = aChannel).
Proof.
  destruct w as [c e draws requests tr].
  destruct c as [sup fav delay channel st tm interval enabled].
  cbn [cm env mState mChannel].
  unfold RequestChannelChange. unfold_monad. cbn.
  destruct (Z.eqb_spec aChannel (macPanChannel e)) as [Hpan|Hpan].
  { split; [intros _; left; exact Hpan | reflexivity]. }
  destruct st; cbn.
  - split.
    + intros Heq. exfalso. trace_changed Heq.
    + intros [Hp|[Hst _]]; [contradiction | discriminate].
  - split.
    + intros Heq. exfalso. trace_changed Heq.
    + intros [Hp|[Hst _]]; [contradiction | discriminate].
  - destruct (Z.eqb_spec channel aChannel) as [Hch|Hch]; cbn.
    + split; [intros _; right; split; [reflexivity | exact Hch] | reflexivity].
    + split.
      * intros Heq. exfalso. trace_changed Heq.
      * intros [Hp|[_ Hc]]; contradiction.
Qed.

Lemma RequestChannelChange_ignored_iff_witness :
  let w :=
    run Concrete.constants Concrete.choose [InRequestChannelChange 20; InTimerFired]
      (initial Concrete.constants Concrete.environment) in
  snd (RequestChannelChange Concrete.constants 20 w) = w.
Proof.
  intros w.
  apply (RequestChannelChange_ignored_iff Concrete.constants 20 w).
  right. split; reflexivity.
Defined.

(** X8: an accepted request (another channel than the current one, and not
    the target of a change in progress) sets the target, moves to
    [kStateChangeRequested], starts the timer for a delay between 1 ms and
    [kRequestStartJitterInterval] from now, and signals the notifier once;
    it cancels the update first if, and only if, a change was in progress.
    The configuration is untouched.  The state before does not matter
    otherwise: a requested change is superseded in the same way. *)
Theorem RequestChannelChange_accepted (K : Constants) (aChannel : Z) (w : World) :
  0 < kRequestStartJitterInterval K < 2 ^ 32 ->
  aChannel <> macPanChannel (env w) ->
  mState (cm w) <> kStateChangeInProgress \/ mChannel (cm w) <> aChannel ->
  let w' := snd (RequestChannelChange K aChannel w) in
  exists jitter,
    1 <= jitter <= kRequestStartJitterInterval K
    /\ mState (cm w') = kStateChangeRequested
    /\ mChannel (cm w') = aChannel
    /\ mTimer (cm w') = mkTimer true (to_uint32 (timeNow (env w) + jitter))
    /\ events_since w w'
       = (if State_eqb (mState (cm w)) kStateChangeInProgress then [EvCancelUpdate] else [])
         ++ [EvTimerStartAt (timeNow (env w)) jitter; EvSignalNewChannelChanged]
    /\ config (cm w') = config (cm w).
Proof.
  destruct w as [c e draws requests tr].
  destruct c as [sup fav delay channel st tm interval enabled].
  cbn [cm env mState mChannel]. intros Hk Hpan Hother. cbn zeta.
  set (r := to_uint32 (randomUint32 e draws)).
  assert (Hr : 0 <= r mod kRequestStartJitterInterval K < kRequestStartJitterInterval K)
    by (apply Z.mod_pos_bound; lia).
  exists (1 + r mod kRequestStartJitterInterval K).
  split; [lia|].
  assert (Hsmall : to_uint32 (1 + (0 + r mod (kRequestStartJitterInterval K - 0)))
                   = 1 + r mod kRequestStartJitterInterval K).
  { rewrite Z.sub_0_r, Z.add_0_l. unfold to_uint32. apply Z.mod_small. lia. }
  unfold RequestChannelChange, events_since. unfold_monad.
  cbn -[Z.add Z.sub Z.modulo]. fold r.
  destruct (Z.eqb_spec aChannel (macPanChannel e)); [contradiction|].
  destruct st; cbn -[Z.add Z.sub Z.modulo]; fold r.
  - rewrite Hsmall, <- app_assoc, skipn_app, skipn_all, Nat.sub_diag. repeat split.
  - rewrite Hsmall, <- app_assoc, skipn_app, skipn_all, Nat.sub_diag. repeat split.
  - destruct (Z.eqb_spec channel aChannel) as [Heq|_]; cbn -[Z.add Z.sub Z.modulo]; fold r.
    + destruct Hother as [Hst|Hch]; [congruence | contradiction].
    + rewrite Hsmall, <- !app_assoc, skipn_app, skipn_all, Nat.sub_diag. repeat split.
Qed.

Lemma RequestChannelChange_accepted_witness :
  let w' := snd (RequestChannelChange Concrete.constants 20 Concrete.world1) in
  exists jitter,
    1 <= jitter <= 10000
    /\ mChannel (cm w') = 20
    /\ mTimer (cm w') = mkTimer true (to_uint32 (0 + jitter)).
Proof.
  intros w'.
  destruct (RequestChannelChange_accepted Concrete.constants 20 Concrete.world1)
    as (jitter & Hjitter & _ & Hchannel & Htimer & _).
  - vm_compute. split; reflexivity.
  - vm_compute. discriminate.
  - left. discriminate.
  - exists jitter. split; [exact Hjitter|]. split; [exact Hchannel | exact Htimer].
Defined.

(** *** The completion callback *)

(** X9: the completion callback of the updater resets the manager to the
    idle state whatever the state and whatever the error, and hands the
    timer to the auto-select role: started for the auto-select interval if
    auto-selection is enabled, stopped otherwise.  The target channel and
    the configuration stay.  Hence a callback that arrives while a change is
    (again) requested abandons that request: the next expiry of the timer
    requests no dataset update. *)
Theorem HandleDatasetUpdateDone_resets
        (K : Constants) (pick : Z -> Z -> Z) (aError : otError) (w : World) :
  let w' := snd (HandleDatasetUpdateDone aError w) in
  let now := timeNow (env w) in
  mState (cm w') = kStateIdle
  /\ mChannel (cm w') = mChannel (cm w)
  /\ config (cm w') = config (cm w)
  /\ HandleDatasetUpdateDone aError w = HandleDatasetUpdateDone OT_ERROR_NONE w
  /\ (mAutoSelectEnabled (cm w) = true ->
      mTimer (cm w') = mkTimer true (to_uint32 (now + SecToMsec (mAutoSelectInterval (cm w))))
      /\ events_since w w' = [EvTimerStartAt now (SecToMsec (mAutoSelectInterval (cm w)))])
  /\ (mAutoSelectEnabled (cm w) = false ->
      timerIsRunning (mTimer (cm w')) = false
      /\ events_since w w' = [EvTimerStop])
  /\ Forall (fun e => is_update e = false)
       (events_since w' (step K pick InTimerFired w')).
Proof.
  cbn zeta.
  split; [apply HandleDatasetUpdateDone_idle|].
  split; [|split; [|split; [reflexivity|split; [|split]]]].
  - destruct w as [c e draws requests tr].
    destruct c as [sup fav delay channel st tm interval enabled].
    unfold HandleDatasetUpdateDone, StartAutoSelectTimer. unfold_monad. cbn.
    destruct enabled; reflexivity.
  - destruct w as [c e draws requests tr].
    destruct c as [sup fav delay channel st tm interval enabled].
    unfold HandleDatasetUpdateDone, StartAutoSelectTimer. unfold_monad. cbn.
    destruct enabled; reflexivity.
  - destruct w as [c e draws requests tr].
    destruct c as [sup fav delay channel st tm interval enabled].
    cbn [cm mAutoSelectEnabled]. intros Hen. subst enabled.
    unfold HandleDatasetUpdateDone, StartAutoSelectTimer, events_since. unfold_monad. cbn.
    rewrite skipn_app, skipn_all, Nat.sub_diag. split; reflexivity.
  - destruct w as [c e draws requests tr].
    destruct c as [sup fav delay channel st tm interval enabled].
    cbn [cm mAutoSelectEnabled]. intros Hen. subst enabled.
    unfold HandleDatasetUpdateDone, StartAutoSelectTimer, events_since. unfold_monad. cbn.
    rewrite skipn_app, skipn_all, Nat.sub_diag. split; reflexivity.
  - apply silent_events, step_silent. right. right.
    rewrite HandleDatasetUpdateDone_idle. discriminate.
Qed.

(** A change to channel 20 is in progress when a change to channel 25 is
    requested; the callback of the cancelled update then arrives. *)
Lemma HandleDatasetUpdateDone_resets_witness :
  let w :=
    run Concrete.constants Concrete.choose
      [InRequestChannelChange 20; InTimerFired; InRequestChannelChange 25]
      (initial Concrete.constants Concrete.environment) in
  let w' := snd (HandleDatasetUpdateDone OT_ERROR_NONE w) in
  mState (cm w) = kStateChangeRequested
  /\ mChannel (cm w) = 25
  /\ mState (cm w') = kStateIdle
  /\ timerIsRunning (mTimer (cm w')) = false
  /\ events_since w w' = [EvTimerStop].
Proof.
  intros w w'.
  split; [reflexivity|]. split; [reflexivity|].
  destruct (HandleDatasetUpdateDone_resets Concrete.constants Concrete.choose
              OT_ERROR_NONE w) as (Hidle & _ & _ & _ & _ & Hstop & _).
  split; [exact Hidle|]. apply Hstop. reflexivity.
Defined.

(** *** From a request to the migration *)

(** What the expiry of the timer does while a change is requested, by the
    result of the updater. *)
Lemma TimerFired_requested (K : Constants) (pick : Z -> Z -> Z) (w : World) :
  mState (cm w) = kStateChangeRequested ->
  timerIsRunning (mTimer (cm w)) = true ->
  let w' := snd (TimerFired K pick w) in
  let request :=
    EvRequestUpdate (mChannel (cm w)) (SecToMsec (mDelay (cm w)))
      (kChangeCheckWaitInterval K) in
  env w' = env w
  /\ mChannel (cm w') = mChannel (cm w)
  /\ mDelay (cm w') = mDelay (cm w)
  /\ updateRequests w' = S (updateRequests w)
  /\ (updaterResult (env w) (updateRequests w) = OT_ERROR_NONE ->
      mState (cm w') = kStateChangeInProgress
      /\ trace w' = trace w ++ [request])
  /\ (updaterResult (env w) (updateRequests w) = OT_ERROR_BUSY
      \/ updaterResult (env w) (updateRequests w) = OT_ERROR_NO_BUFS ->
      mState (cm w') = kStateChangeRequested
      /\ timerIsRunning (mTimer (cm w')) = true
      /\ trace w'
         = trace w ++ [request;
                       EvTimerStartAt (timeNow (env w)) (kPendingDatasetTxRetryInterval K)]).
Proof.
  destruct w as [c e draws requests tr].
  destruct c as [sup fav delay channel st tm interval enabled].
  cbn [cm env trace updateRequests mState mTimer mChannel mDelay].
  intros Hst Hrun. subst st. cbn zeta.
  unfold TimerFired, HandleTimer, StartDatasetUpdate, StartAutoSelectTimer.
  unfold_monad. cbn. rewrite Hrun. cbn.
  destruct (updaterResult e requests); cbn; try (destruct enabled; cbn);
    rewrite <- ?app_assoc; cbn [app];
    (split; [reflexivity|]); (split; [reflexivity|]); (split; [reflexivity|]);
    (split; [reflexivity|]);
    (split; [intros Hres; try discriminate Hres; split; reflexivity|]);
    (intros [Hres|Hres]; try discriminate Hres; repeat split).
Qed.

Lemma RequestChannelChange_accepts_timer (K : Constants) (aChannel : Z) (w : World) :
  aChannel <> macPanChannel (env w) ->
  mState (cm w) <> kStateChangeInProgress \/ mChannel (cm w) <> aChannel ->
  timerIsRunning (mTimer (cm (snd (RequestChannelChange K aChannel w)))) = true.
Proof.
  destruct w as [c e draws requests tr].
  destruct c as [sup fav delay channel st tm interval enabled].
  cbn [cm env mState mChannel]. intros Hpan Hother.
  unfold RequestChannelChange. unfold_monad. cbn.
  destruct (Z.eqb_spec aChannel (macPanChannel e)); [contradiction|].
  destruct st; cbn; try reflexivity.
  destruct (Z.eqb_spec channel aChannel) as [Heq|_]; [|reflexivity].
  destruct Hother as [Hst|Hch]; [congruence | contradiction].
Qed.

Lemma StartDatasetUpdate_config (K : Constants) (w : World) :
  config (cm (snd (StartDatasetUpdate K w))) = config (cm w).
Proof.
  destruct w as [c e draws requests tr].
  destruct c as [sup fav delay channel st tm interval enabled].
  unfold StartDatasetUpdate, StartAutoSelectTimer. unfold_monad. cbn.
  destruct (updaterResult e requests); cbn; try reflexivity;
    destruct enabled; reflexivity.
Qed.

Lemma HandleDatasetUpdateDone_config (aError : otError) (w : World) :
  config (cm (snd (HandleDatasetUpdateDone aError w))) = config (cm w)
  /\ mChannel (cm (snd (HandleDatasetUpdateDone aError w))) = mChannel (cm w).
Proof.
  destruct w as [c e draws requests tr].
  destruct c as [sup fav delay channel st tm interval enabled].
  unfold HandleDatasetUpdateDone, StartAutoSelectTimer. unfold_monad. cbn.
  destruct enabled; split; reflexivity.
Qed.

Lemma TimerFired_config (K : Constants) (pick : Z -> Z -> Z) (w : World) :
  config (cm (snd (TimerFired K pick w))) = config (cm w).
Proof.
  rewrite TimerFired_eq.
  destruct (timerIsRunning (mTimer (cm w))); [|reflexivity].
  rewrite HandleTimer_eq.
  destruct (mState (cm (expired w))).
  - unfold bind.
    destruct (RequestChannelSelect_frame K pick false (expired w)) as (Hsel & _).
    destruct (RequestChannelSelect K pick false (expired w)) as [error w1].
    destruct (StartAutoSelectTimer_frame w1) as (Hauto & _).
    cbn [snd] in Hsel. rewrite Hauto, Hsel. reflexivity.
  - apply (StartDatasetUpdate_config K (expired w)).
  - reflexivity.
Qed.

(** X10: a change of channel from request to completion.  A request for
    another channel than the current one is accepted; when the timer then
    expires and the updater accepts the update, exactly one update is
    requested, for the requested channel and the stored delay, and the
    change is in progress; the completion callback, whatever its error,
    returns the manager to the idle state with the requested channel as
    target and the timer in its auto-select role. *)
Theorem change_from_request_to_completion
        (K : Constants) (pick : Z -> Z -> Z) (aChannel : Z) (aError : otError) (w : World) :
  aChannel <> macPanChannel (env w) ->
  mState (cm w) <> kStateChangeInProgress \/ mChannel (cm w) <> aChannel ->
  updaterResult (env w) (updateRequests w) = OT_ERROR_NONE ->
  let w1 := step K pick (InRequestChannelChange aChannel) w in
  let w2 := step K pick InTimerFired w1 in
  let w3 := step K pick (InDatasetUpdateDone aError) w2 in
  mState (cm w1) = kStateChangeRequested
  /\ mState (cm w2) = kStateChangeInProgress
  /\ events_since w1 w2
     = [EvRequestUpdate aChannel (SecToMsec (mDelay (cm w))) (kChangeCheckWaitInterval K)]
  /\ mState (cm w3) = kStateIdle
  /\ mChannel (cm w3) = aChannel
  /\ timerIsRunning (mTimer (cm w3)) = mAutoSelectEnabled (cm w).
Proof.
  intros Hpan Hother Hres. cbn zeta. cbn [step].
  set (w1 := snd (RequestChannelChange K aChannel w)).
  destruct (RequestChannelChange_accepts K aChannel w Hpan Hother) as [Hch1 Hst1].
  pose proof (RequestChannelChange_accepts_timer K aChannel w Hpan Hother) as Hrun1.
  destruct (RequestChannelChange_frame K aChannel w) as (Hconfig1 & Henv & Hreq & _).
  fold w1 in Hch1, Hst1, Hrun1, Hconfig1, Henv, Hreq.
  destruct (TimerFired_requested K pick w1 Hst1 Hrun1)
    as (_ & Hch2 & _ & _ & Hok & _).
  rewrite Henv, Hreq in Hok. destruct (Hok Hres) as [Hst2 Htrace2].
  pose proof (TimerFired_config K pick w1) as Hconfig2.
  set (w2 := snd (TimerFired K pick w1)) in *.
  destruct (HandleDatasetUpdateDone_config aError w2) as (Hconfig3 & Hch3).
  pose proof (HandleDatasetUpdateDone_matches aError w2) as Hmatch.
  pose proof (HandleDatasetUpdateDone_idle aError w2) as Hst3.
  set (w3 := snd (HandleDatasetUpdateDone aError w2)) in *.
  assert (Hdelay1 : mDelay (cm w1) = mDelay (cm w))
    by (unfold config in Hconfig1; inversion Hconfig1; reflexivity).
  assert (Hen : mAutoSelectEnabled (cm w3) = mAutoSelectEnabled (cm w)).
  { unfold config in *. inversion Hconfig1. inversion Hconfig2. inversion Hconfig3.
    congruence. }
  split; [exact Hst1|]. split; [exact Hst2|].
  split; [rewrite (events_since_app _ _ _ Htrace2), Hch1, Hdelay1; reflexivity|].
  split; [exact Hst3|].
  split; [rewrite Hch3, Hch2; exact Hch1|].
  unfold timer_matches_state, timer_expected in Hmatch.
  rewrite Hst3 in Hmatch. rewrite Hmatch. exact Hen.
Qed.

Lemma change_from_request_to_completion_witness :
  let w3 :=
    run Concrete.constants Concrete.choose
      [InRequestChannelChange 20; InTimerFired; InDatasetUpdateDone OT_ERROR_ALREADY]
      Concrete.world1 in
  mState (cm w3) = kStateIdle /\ mChannel (cm w3) = 20.
Proof.
  intros w3.
  destruct (change_from_request_to_completion Concrete.constants Concrete.choose
              20 OT_ERROR_ALREADY Concrete.world1)
    as (_ & _ & _ & Hidle & Hchannel & _).
  - vm_compute. discriminate.
  - left. discriminate.
  - reflexivity.
  - split; [exact Hidle | exact Hchannel].
Defined.

Lemma run_extends (K : Constants) (pick : Z -> Z -> Z) (inputs : list Input) :
  forall w, exists events, trace (run K pick inputs w) = trace w ++ events.
Proof.
  induction inputs as [|i inputs IH]; intros w.
  - exists []. symmetry. apply app_nil_r.
  - cbn [run fold_left]. fold (run K pick inputs (step K pick i w)).
    destruct (IH (step K pick i w)) as (ev2 & Ht2).
    destruct (step_carries K pick i w) as (ev1 & Ht1 & _).
    exists (ev1 ++ ev2). rewrite Ht2, Ht1. symmetry. apply app_assoc.
Qed.

Lemma events_since_trans (w w1 w2 : World) (events : list Event) :
  trace w1 = trace w ++ events ->
  (exists more, trace w2 = trace w1 ++ more) ->
  events_since w w2 = events ++ events_since w1 w2.
Proof.
  intros Ht1 (more & Ht2).
  rewrite (events_since_app w1 w2 more Ht2).
  apply events_since_app. rewrite Ht2, Ht1. symmetry. apply app_assoc.
Qed.

(** X11: retry until the updater accepts.  While a change is requested, if
    the updater answers the next [n] requests with busy or no buffers and
    the one after with success, then [n + 1] expiries of the timer take the
    manager to [kStateChangeInProgress]; it has requested the same update,
    for the stored target channel and delay, [n + 1] times and no other, and
    its timer is at rest. *)
Theorem retry_until_accepted (K : Constants) (pick : Z -> Z -> Z) (n : nat) :
  forall w,
    mState (cm w) = kStateChangeRequested ->
    timerIsRunning (mTimer (cm w)) = true ->
    (forall k, (k < n)%nat ->
               updaterResult (env w) (updateRequests w + k) = OT_ERROR_BUSY
               \/ updaterResult (env w) (updateRequests w + k) = OT_ERROR_NO_BUFS) ->
    updaterResult (env w) (updateRequests w + n) = OT_ERROR_NONE ->
    let w' := run K pick (repeat InTimerFired (S n)) w in
    mState (cm w') = kStateChangeInProgress
    /\ mChannel (cm w') = mChannel (cm w)
    /\ timerIsRunning (mTimer (cm w')) = false
    /\ filter is_update (events_since w w')
       = repeat (EvRequestUpdate (mChannel (cm w)) (SecToMsec (mDelay (cm w)))
                   (kChangeCheckWaitInterval K)) (S n).
Proof.
  induction n as [|n IH]; intros w Hst Hrun Hbusy Hok; cbn zeta.
  - rewrite Nat.add_0_r in Hok.
    cbn [repeat run fold_left step].
    destruct (TimerFired_requested K pick w Hst Hrun) as (_ & Hch & _ & _ & Hnone & _).
    destruct (Hnone Hok) as [Hst' Htrace].
    pose proof (TimerFired_matches K pick w (requested_matches w Hst Hrun)) as Hmatch.
    unfold timer_matches_state, timer_expected in Hmatch. rewrite Hst' in Hmatch.
    repeat split; try assumption.
    rewrite (events_since_app _ _ _ Htrace). reflexivity.
  - change (repeat InTimerFired (S (S n))) with (InTimerFired :: repeat InTimerFired (S n)).
    cbn [run fold_left]. fold (run K pick (repeat InTimerFired (S n))
                                 (step K pick InTimerFired w)).
    cbn [step].
    destruct (TimerFired_requested K pick w Hst Hrun)
      as (Henv & Hch & Hdelay & Hreq & _ & Hretry).
    assert (H0 : updaterResult (env w) (updateRequests w) = OT_ERROR_BUSY
                 \/ updaterResult (env w) (updateRequests w) = OT_ERROR_NO_BUFS).
    { rewrite <- (Nat.add_0_r (updateRequests w)). apply Hbusy. apply Nat.lt_0_succ. }
    destruct (Hretry H0) as (Hst1 & Hrun1 & Htrace1).
    set (w1 := snd (TimerFired K pick w)) in *.
    destruct (IH w1 Hst1 Hrun1) as (Hst' & Hch' & Hrun' & Hevents).
    + intros k Hk. rewrite Henv, Hreq.
      replace (S (updateRequests w) + k)%nat with (updateRequests w + S k)%nat
        by lia.
      apply Hbusy. lia.
    + rewrite Henv, Hreq.
      replace (S (updateRequests w) + n)%nat with (updateRequests w + S n)%nat
        by lia.
      exact Hok.
    + split; [exact Hst'|]. split; [rewrite Hch'; exact Hch|]. split; [exact Hrun'|].
      rewrite (events_since_trans w w1 _ _ Htrace1 (run_extends K pick _ w1)).
      rewrite filter_app, Hevents, Hch, Hdelay. reflexivity.
Qed.

Lemma retry_until_accepted_witness :
  let busy_twice (k : nat) :=
    match k with
    | O => OT_ERROR_BUSY
    | S O => OT_ERROR_NO_BUFS
    | _ => OT_ERROR_NONE
    end in
  let w :=
    run Concrete.constants Concrete.choose [InRequestChannelChange 20]
      (Concrete.world1_in (Concrete.with_updater busy_twice Concrete.environment)) in
  let w' := run Concrete.constants Concrete.choose (repeat InTimerFired 3) w in
  mState (cm w') = kStateChangeInProgress
  /\ filter is_update (events_since w w') = repeat (EvRequestUpdate 20 120000 30000) 3.
Proof.
  intros busy_twice w w'.
  destruct (retry_until_accepted Concrete.constants Concrete.choose 2 w)
    as (Hst & _ & _ & Hevents).
  - reflexivity.
  - reflexivity.
  - intros k Hk. destruct k as [|[|k]].
    + left. reflexivity.
    + right. reflexivity.
    + exfalso. lia.
  - reflexivity.
  - split; [exact Hst | exact Hevents].
Defined.

(** *** The configuration *)

Lemma SetAutoChannelSelectionEnabled_config
      (K : Constants) (pick : Z -> Z -> Z) (aEnabled : bool) (w : World) :
  config (cm (snd (SetAutoChannelSelectionEnabled K pick aEnabled w)))
  = (mSupportedChannelMask (cm w), mFavoredChannelMask (cm w), mDelay (cm w),
     mAutoSelectInterval (cm w), aEnabled).
Proof.
  rewrite SetAutoChannelSelectionEnabled_eq.
  destruct (eqb_spec aEnabled (mAutoSelectEnabled (cm w))) as [Hsame|_].
  - subst aEnabled. reflexivity.
  - set (w0 := snd (update_cm (set_mAutoSelectEnabled aEnabled) w)).
    destruct (RequestChannelSelect_frame K pick false w0) as (Hsel & _).
    destruct (StartAutoSelectTimer_frame (snd (RequestChannelSelect K pick false w0)))
      as (Hauto & _).
    rewrite Hauto, Hsel. reflexivity.
Qed.

Lemma SetAutoChannelSelectionInterval_config (K : Constants) (aInterval : Z) (w : World) :
  config (cm (snd (SetAutoChannelSelectionInterval K aInterval w)))
  = config_after K (InSetAutoChannelSelectionInterval aInterval) w.
Proof.
  destruct w as [c e draws requests tr].
  destruct c as [sup fav delay channel st tm interval enabled].
  unfold SetAutoChannelSelectionInterval, config_after. unfold_monad. cbn.
  destruct (negb (aInterval =? 0) && (aInterval <=? MsecToSec (kMaxDelay K)));
    cbn; [|reflexivity].
  destruct (enabled && State_eqb st kStateIdle && timerIsRunning tm
            && negb (interval =? aInterval)); reflexivity.
Qed.

Lemma step_config (K : Constants) (pick : Z -> Z -> Z) (i : Input) (w : World) :
  config (cm (step K pick i w)) = config_after K i w.
Proof.
  destruct i; cbn [step config_after].
  - apply RequestChannelChange_frame.
  - unfold SetDelay. destruct (kMinimumDelay K <=? aDelay); reflexivity.
  - apply RequestChannelSelect_frame.
  - apply SetAutoChannelSelectionEnabled_config.
  - apply SetAutoChannelSelectionInterval_config.
  - reflexivity.
  - reflexivity.
  - apply TimerFired_config.
  - apply HandleDatasetUpdateDone_config.
  - reflexivity.
Qed.

(** X12: the configuration (the two masks, the delay, the auto-select
    interval and flag) changes through its setters only, each of which
    writes its own field and no other.  A request, a selection, an expiry of
    the timer, a completion callback or a change in the collaborators never
    changes it. *)
Theorem configuration_changes_by_setters_only
        (K : Constants) (pick : Z -> Z -> Z) (i : Input) (w : World) :
  config (cm (step K pick i w)) = config_after K i w
  /\ (match i with
      | InRequestChannelChange _ | InRequestChannelSelect _
      | InTimerFired | InDatasetUpdateDone _ | InEnvironment _ =>
          config (cm (step K pick i w)) = config (cm w)
      | _ => True
      end).
Proof.
  split; [apply step_config|].
  destruct i; try exact I; rewrite step_config; reflexivity.
Qed.

Lemma step_settings_valid (K : Constants) (pick : Z -> Z -> Z) (i : Input) (w : World) :
  input_typed i -> settings_valid K w -> settings_valid K (step K pick i w).
Proof.
  intros Htyped [Hdelay Hinterval].
  pose proof (step_config K pick i w) as Hconfig.
  remember (step K pick i w) as w' eqn:Hw'. clear Hw'.
  unfold settings_valid.
  assert (Hkeep : config (cm w') = config (cm w) ->
                  kMinimumDelay K <= mDelay (cm w')
                  /\ 1 <= mAutoSelectInterval (cm w') <= MsecToSec (kMaxDelay K)).
  { unfold config. intros Heq. inversion Heq as [[Hs Hf Hd Hi He]].
    rewrite Hd, Hi. split; assumption. }
  destruct i; cbn [config_after input_typed] in *; try (apply Hkeep; exact Hconfig);
    unfold config in Hconfig; inversion Hconfig as [[Hs Hf Hd Hi He]];
    rewrite Hd, Hi; clear Hconfig Hkeep.
  - split; [|assumption].
    destruct (Z.leb_spec (kMinimumDelay K) aDelay); assumption.
  - split; assumption.
  - split; [assumption|].
    destruct (Z.eqb_spec aInterval 0); cbn [negb andb]; [assumption|].
    destruct (Z.leb_spec aInterval (MsecToSec (kMaxDelay K))); [lia | assumption].
  - split; assumption.
  - split; assumption.
Qed.

Lemma run_settings_valid (K : Constants) (pick : Z -> Z -> Z) (inputs : list Input) :
  Forall input_typed inputs ->
  forall w, settings_valid K w -> settings_valid K (run K pick inputs w).
Proof.
  induction 1 as [|i inputs Hi _ IH]; intros w Hw; [exact Hw|].
  cbn [run fold_left]. fold (run K pick inputs (step K pick i w)).
  apply IH, step_settings_valid; assumption.
Qed.

(** X13: with a default interval within the timer's range, whatever has
    happened to a manager since its construction, its stored delay is at
    least [kMinimumDelay] and its stored interval is between one second and
    the timer's largest delay in seconds; so the interval in milliseconds
    does not wrap around in 32 bits and does not exceed the timer's largest
    delay. *)
Theorem reachable_settings_valid
        (K : Constants) (pick : Z -> Z -> Z) (inputs : list Input) (e : Environment) :
  1 <= kDefaultAutoSelectInterval K <= MsecToSec (kMaxDelay K) ->
  0 <= kMaxDelay K < 2 ^ 32 ->
  Forall input_typed inputs ->
  let w := run K pick inputs (initial K e) in
  kMinimumDelay K <= mDelay (cm w)
  /\ 1 <= mAutoSelectInterval (cm w) <= MsecToSec (kMaxDelay K)
  /\ SecToMsec (mAutoSelectInterval (cm w)) = mAutoSelectInterval (cm w) * 1000
  /\ SecToMsec (mAutoSelectInterval (cm w)) <= kMaxDelay K.
Proof.
  intros Hdefault Hmax Htyped w.
  assert (Hvalid : settings_valid K w).
  { apply run_settings_valid; [exact Htyped|].
    split; [apply Z.le_refl | exact Hdefault]. }
  destruct Hvalid as [Hdelay Hinterval].
  split; [exact Hdelay|]. split; [exact Hinterval|].
  assert (Hms : mAutoSelectInterval (cm w) * 1000 <= kMaxDelay K).
  { unfold MsecToSec in Hinterval.
    pose proof (Z.mul_div_le (kMaxDelay K) 1000 ltac:(lia)). lia. }
  assert (Hsmall : SecToMsec (mAutoSelectInterval (cm w))
                   = mAutoSelectInterval (cm w) * 1000).
  { unfold SecToMsec, to_uint32. apply Z.mod_small. lia. }
  split; [exact Hsmall | rewrite Hsmall; exact Hms].
Qed.

Lemma reachable_settings_valid_witness :
  let w :=
    run Concrete.constants Concrete.choose
      [InSetDelay 10; InSetDelay 300; InSetAutoChannelSelectionInterval 0;
       InSetAutoChannelSelectionInterval 4000000; InSetAutoChannelSelectionInterval 60]
      (initial Concrete.constants Concrete.environment) in
  120 <= mDelay (cm w) /\ SecToMsec (mAutoSelectInterval (cm w)) <= 2147483647.
Proof.
  intros w.
  destruct (reachable_settings_valid Concrete.constants Concrete.choose
              [InSetDelay 10; InSetDelay 300; InSetAutoChannelSelectionInterval 0;
               InSetAutoChannelSelectionInterval 4000000;
               InSetAutoChannelSelectionInterval 60]
              Concrete.environment) as (Hdelay & _ & _ & Hms).
  - vm_compute. split; discriminate.
  - vm_compute. split; [discriminate | reflexivity].
  - repeat constructor; vm_compute; discriminate.
  - split; [exact Hdelay | exact Hms].
Defined.

(** *** The masks and the selection *)

Lemma land_within (x a b : Z) :
  Z.land x (Z.land a b) = x -> Z.land x a = x /\ Z.land x b = x.
Proof.
  intros H.
  assert (Hbits : forall n, Z.testbit x n && (Z.testbit a n && Z.testbit b n)
                            = Z.testbit x n).
  { intros n. rewrite <- !Z.land_spec, H. reflexivity. }
  split; apply Z.bits_inj; intros n; rewrite Z.land_spec; specialize (Hbits n);
    destruct (Z.testbit x n), (Z.testbit a n), (Z.testbit b n);
    cbn in *; congruence.
Qed.

(** The tie set chosen by the policy lies within the supported mask, and
    within the favored mask too when it is the favored tie set. *)
Lemma chosen_within_masks (K : Constants) (w : World) :
  (forall m, ChannelMask.Intersect (fst (monFindBestChannels (env w) m)) m
             = fst (monFindBestChannels (env w) m)) ->
  Z.land (fst (Policy.chosen K w)) (mSupportedChannelMask (cm w)) = fst (Policy.chosen K w)
  /\ (Policy.skip_favoredb K w = false ->
      Z.land (fst (Policy.chosen K w)) (mFavoredChannelMask (cm w))
      = fst (Policy.chosen K w)).
Proof.
  unfold ChannelMask.Intersect. intros Hbest.
  destruct (land_within _ _ _
              (Hbest (Z.land (mFavoredChannelMask (cm w)) (mSupportedChannelMask (cm w)))))
    as [Hfav Hsup].
  unfold Policy.chosen, Policy.favored_best, Policy.overall_best. split.
  - destruct (Policy.skip_favoredb K w); [apply Hbest | exact Hsup].
  - intros Hskip. rewrite Hskip. exact Hfav.
Qed.

Lemma FindBetterChannel_member (K : Constants) (pick : Z -> Z -> Z) (w : World) :
  (forall m r, 0 < m < 2 ^ 32 -> ChannelMask.ContainsChannel m (pick m r) = true) ->
  (forall m, ChannelMask.Intersect (fst (monFindBestChannels (env w) m)) m
             = fst (monFindBestChannels (env w) m)) ->
  0 <= mSupportedChannelMask (cm w) < 2 ^ 32 ->
  forall newChannel newOccupancy w',
    FindBetterChannel K pick w = (inr (newChannel, newOccupancy), w') ->
    Z.testbit (fst (Policy.chosen K w)) newChannel = true.
Proof.
  unfold ChannelMask.ContainsChannel.
  intros Hpick Hbest Hsup newChannel newOccupancy w' Hfind.
  destruct (Z.le_gt_cases (monSampleCount (env w)) (kMinChannelMonitorSampleCount K))
    as [Hfew|Henough].
  { rewrite (FindBetterChannel_few_samples K pick w Hfew) in Hfind. discriminate. }
  rewrite (FindBetterChannel_chosen K pick w Henough) in Hfind.
  unfold ChannelMask.IsEmpty in Hfind.
  destruct (Z.eqb_spec (fst (Policy.chosen K w)) 0) as [|Hne]; [discriminate|].
  inversion Hfind; subst; clear Hfind.
  apply Hpick.
  destruct (chosen_within_masks K w Hbest) as [Hsub _].
  pose proof (land_uint32 (fst (Policy.chosen K w)) _ Hsup) as Hrange.
  rewrite Hsub in Hrange. lia.
Qed.

(** X14: [SetSupportedChannels] stores the channels that are both in its
    argument and in the MAC's supported mask, a 32-bit mask again; and a
    channel that the selection policy returns afterwards is one of the
    argument's and one the MAC supports (given a monitor that answers with
    a subset of the mask it is asked about and a pick that is a member of
    the mask it picks from). *)
Theorem SetSupportedChannels_bounds_selection
        (K : Constants) (pick : Z -> Z -> Z) (aChannelMask : Z) (w : World) :
  (forall m r, 0 < m < 2 ^ 32 -> ChannelMask.ContainsChannel m (pick m r) = true) ->
  (forall m, ChannelMask.Intersect (fst (monFindBestChannels (env w) m)) m
             = fst (monFindBestChannels (env w) m)) ->
  0 <= aChannelMask < 2 ^ 32 ->
  let w' := snd (SetSupportedChannels aChannelMask w) in
  let macMask := macSupportedChannelMask (env w) in
  (forall aChannel,
      ChannelMask.ContainsChannel (mSupportedChannelMask (cm w')) aChannel
      = ChannelMask.ContainsChannel aChannelMask aChannel
        && ChannelMask.ContainsChannel macMask aChannel)
  /\ 0 <= mSupportedChannelMask (cm w') < 2 ^ 32
  /\ (forall newChannel newOccupancy w'',
         FindBetterChannel K pick w' = (inr (newChannel, newOccupancy), w'') ->
         ChannelMask.ContainsChannel aChannelMask newChannel = true
         /\ ChannelMask.ContainsChannel macMask newChannel = true).
Proof.
  intros Hpick Hbest Hmask w' macMask.
  assert (Hrange : 0 <= mSupportedChannelMask (cm w') < 2 ^ 32).
  { change (mSupportedChannelMask (cm w')) with (Z.land aChannelMask macMask).
    rewrite Z.land_comm. apply land_uint32. exact Hmask. }
  split; [|split; [exact Hrange|]].
  - intros aChannel. apply Z.land_spec.
  - intros newChannel newOccupancy w'' Hfind.
    pose proof (FindBetterChannel_member K pick w' Hpick Hbest Hrange _ _ _ Hfind) as Hin.
    destruct (chosen_within_masks K w' Hbest) as [Hsub _].
    pose proof (land_member _ _ _ Hsub Hin) as Hsup.
    change (mSupportedChannelMask (cm w')) with (Z.land aChannelMask macMask) in Hsup.
    rewrite Z.land_spec in Hsup. apply andb_true_iff in Hsup. exact Hsup.
Qed.

Lemma SetSupportedChannels_bounds_selection_witness :
  let w' := snd (SetSupportedChannels 3145728 Concrete.world1) in
  mSupportedChannelMask (cm w') = 3145728
  /\ ChannelMask.ContainsChannel 3145728 20 = true.
Proof.
  intros w'. split; [reflexivity|].
  destruct (SetSupportedChannels_bounds_selection
              Concrete.constants Concrete.choose 3145728 Concrete.world1)
    as (_ & _ & Hselect).
  - intros m r Hm. apply choose_member. exact Hm.
  - intros m. apply find_best_subset.
  - vm_compute. split; [discriminate | reflexivity].
  - apply (Hselect 20 256 (after_draw w')). reflexivity.
Defined.

(** X15: when the selection policy keeps to the favored channels (the
    favored tie set is not empty and not skipped), the channel it returns is
    both favored and supported, under the same two assumptions. *)
Theorem FindBetterChannel_favored_member
        (K : Constants) (pick : Z -> Z -> Z) (w : World) :
  (forall m r, 0 < m < 2 ^ 32 -> ChannelMask.ContainsChannel m (pick m r) = true) ->
  (forall m, ChannelMask.Intersect (fst (monFindBestChannels (env w) m)) m
             = fst (monFindBestChannels (env w) m)) ->
  0 <= mSupportedChannelMask (cm w) < 2 ^ 32 ->
  ~ Policy.skip_favored K w ->
  forall newChannel newOccupancy w',
    FindBetterChannel K pick w = (inr (newChannel, newOccupancy), w') ->
    ChannelMask.ContainsChannel (mFavoredChannelMask (cm w)) newChannel = true
    /\ ChannelMask.ContainsChannel (mSupportedChannelMask (cm w)) newChannel = true.
Proof.
  intros Hpick Hbest Hsup Hkeep newChannel newOccupancy w' Hfind.
  pose proof (FindBetterChannel_member K pick w Hpick Hbest Hsup _ _ _ Hfind) as Hin.
  destruct (chosen_within_masks K w Hbest) as [Hsub Hfav].
  apply skip_favoredb_false in Hkeep.
  split.
  - exact (land_member _ _ _ (Hfav Hkeep) Hin).
  - exact (land_member _ _ _ Hsub Hin).
Qed.

Lemma FindBetterChannel_favored_member_witness :
  ChannelMask.ContainsChannel (mFavoredChannelMask (cm Concrete.world1)) 20 = true.
Proof.
  destruct (FindBetterChannel_favored_member
              Concrete.constants Concrete.choose Concrete.world1) with
    (newChannel := 20) (newOccupancy := 256) (w' := after_draw Concrete.world1)
    as (Hfav & _).
  - intros m r Hm. apply choose_member. exact Hm.
  - intros m. apply find_best_subset.
  - vm_compute. split; [discriminate | reflexivity].
  - intros Hskip. apply skip_favoredb_spec in Hskip. vm_compute in Hskip. discriminate.
  - reflexivity.
  - exact Hfav.
Defined.

(** *** Selections that change nothing *)

(** X16: without supported channels there is nothing to select.  With an
    empty supported mask (that of a freshly constructed manager), and a
    monitor that answers with a subset of the mask it is asked about, a
    selection whose policy runs on enough samples returns
    [OT_ERROR_NOT_FOUND] and leaves the world as it is, whatever the
    favored mask and the occupancies. *)
Theorem RequestChannelSelect_nothing_supported
        (K : Constants) (pick : Z -> Z -> Z) (aSkipQualityCheck : bool) (w : World) :
  (forall m, ChannelMask.Intersect (fst (monFindBestChannels (env w) m)) m
             = fst (monFindBestChannels (env w) m)) ->
  mSupportedChannelMask (cm w) = 0 ->
  policy_invoked K aSkipQualityCheck w ->
  kMinChannelMonitorSampleCount K < monSampleCount (env w) ->
  RequestChannelSelect K pick aSkipQualityCheck w = (OT_ERROR_NOT_FOUND, w).
Proof.
  intros Hbest Hsup Hinv Hsamples.
  rewrite (RequestChannelSelect_invoked K pick _ w Hinv).
  rewrite (FindBetterChannel_chosen K pick w Hsamples).
  destruct (chosen_within_masks K w Hbest) as [Hsub _].
  rewrite Hsup, Z.land_0_r in Hsub. rewrite <- Hsub. reflexivity.
Qed.

Lemma RequestChannelSelect_nothing_supported_witness :
  RequestChannelSelect Concrete.constants Concrete.choose true
    (initial Concrete.constants Concrete.environment)
  = (OT_ERROR_NOT_FOUND, initial Concrete.constants Concrete.environment).
Proof.
  apply RequestChannelSelect_nothing_supported.
  - intros m. apply find_best_subset.
  - reflexivity.
  - split; [reflexivity | left; reflexivity].
  - vm_compute. reflexivity.
Defined.

(** X17: favored channels that are not supported do not count.  When no
    favored channel is supported, the policy selects from the best supported
    channels, as it does without favored channels: it returns the pick from
    the overall tie set with its occupancy, or [OT_ERROR_NOT_FOUND] if that
    set is empty. *)
Theorem FindBetterChannel_no_favored_supported
        (K : Constants) (pick : Z -> Z -> Z) (w : World) :
  (forall m, ChannelMask.Intersect (fst (monFindBestChannels (env w) m)) m
             = fst (monFindBestChannels (env w) m)) ->
  ChannelMask.Intersect (mFavoredChannelMask (cm w)) (mSupportedChannelMask (cm w)) = 0 ->
  kMinChannelMonitorSampleCount K < monSampleCount (env w) ->
  FindBetterChannel K pick w =
    if ChannelMask.IsEmpty (fst (Policy.overall_best w))
    then (inl OT_ERROR_NOT_FOUND, w)
    else (inr (pick (fst (Policy.overall_best w)) (next_random w),
               snd (Policy.overall_best w)),
          after_draw w).
Proof.
  unfold ChannelMask.Intersect. intros Hbest Hdisjoint Hsamples.
  rewrite (FindBetterChannel_chosen K pick w Hsamples).
  assert (Hempty : fst (Policy.favored_best w) = 0).
  { unfold Policy.favored_best. rewrite Hdisjoint.
    rewrite <- (Hbest 0). apply Z.land_0_r. }
  assert (Hchosen : Policy.chosen K w = Policy.overall_best w).
  { unfold Policy.chosen, Policy.skip_favoredb. rewrite Hempty. reflexivity. }
  rewrite Hchosen. reflexivity.
Qed.

Lemma FindBetterChannel_no_favored_supported_witness :
  let w := snd (SetFavoredChannels 0 Concrete.world1) in
  FindBetterChannel Concrete.constants Concrete.choose w = (inr (20, 256), after_draw w).
Proof.
  intros w.
  rewrite (FindBetterChannel_no_favored_supported Concrete.constants Concrete.choose w).
  - reflexivity.
  - intros m. apply find_best_subset.
  - reflexivity.
  - vm_compute. reflexivity.
Defined.

(** X18: a selection that fails changes nothing.  If [RequestChannelSelect]
    returns an error, the error is [OT_ERROR_INVALID_STATE] or
    [OT_ERROR_NOT_FOUND] and the world is as before: no state change, no
    timer, no notification, and no draw from the random source. *)
Theorem RequestChannelSelect_error_untouched
        (K : Constants) (pick : Z -> Z -> Z) (aSkipQualityCheck : bool) (w : World) :
  fst (RequestChannelSelect K pick aSkipQualityCheck w) <> OT_ERROR_NONE ->
  snd (RequestChannelSelect K pick aSkipQualityCheck w) = w
  /\ (fst (RequestChannelSelect K pick aSkipQualityCheck w) = OT_ERROR_INVALID_STATE
      \/ fst (RequestChannelSelect K pick aSkipQualityCheck w) = OT_ERROR_NOT_FOUND).
Proof.
  destruct (mleIsDisabled (env w)) eqn:Hmle.
  { rewrite (RequestChannelSelect_disabled K pick _ w Hmle).
    intros _. split; [reflexivity | left; reflexivity]. }
  assert (Hcases : policy_invoked K aSkipQualityCheck w
                   \/ (aSkipQualityCheck = false
                       /\ macCcaFailureRate (env w) < kCcaFailureRateThreshold K)).
  { destruct aSkipQualityCheck; [left; split; [exact Hmle | left; reflexivity]|].
    destruct (Z.le_gt_cases (kCcaFailureRateThreshold K) (macCcaFailureRate (env w)));
      [left; split; [exact Hmle | right; assumption] | right; split; [reflexivity | lia]]. }
  destruct Hcases as [Hinv|[Hskip Hrate]].
  - rewrite (RequestChannelSelect_invoked K pick _ w Hinv).
    destruct (Z.le_gt_cases (monSampleCount (env w)) (kMinChannelMonitorSampleCount K))
      as [Hfew|Henough].
    + rewrite (FindBetterChannel_few_samples K pick w Hfew).
      intros _. split; [reflexivity | left; reflexivity].
    + rewrite (FindBetterChannel_chosen K pick w Henough).
      destruct (ChannelMask.IsEmpty (fst (Policy.chosen K w))).
      * intros _. split; [reflexivity | right; reflexivity].
      * cbn zeta.
        destruct (_ =? _); [intros Herr; exfalso; apply Herr; reflexivity|].
        destruct (_ || _); intros Herr; exfalso; apply Herr; reflexivity.
  - subst aSkipQualityCheck.
    rewrite (RequestChannelSelect_gated K pick w Hmle Hrate).
    intros Herr. exfalso. apply Herr. reflexivity.
Qed.

Lemma RequestChannelSelect_error_untouched_witness :
  let w := Concrete.world1_in (Concrete.with_samples 10 Concrete.environment) in
  snd (RequestChannelSelect Concrete.constants Concrete.choose true w) = w.
Proof.
  intros w.
  apply (RequestChannelSelect_error_untouched Concrete.constants Concrete.choose true w).
  vm_compute. discriminate.
Defined.

(** X19: the periodic expiry on a quiet link.  When the timer expires in
    the idle state and the selection does not run (the mesh layer is
    disabled, or the CCA failure rate is below the threshold), the error is
    ignored and only the timer is touched: it is started again for the
    auto-select interval if auto-selection is enabled, and stopped
    otherwise.  State, target channel and random source are as before. *)
Theorem TimerFired_idle_without_selection (K : Constants) (pick : Z -> Z -> Z) (w : World) :
  mState (cm w) = kStateIdle ->
  timerIsRunning (mTimer (cm w)) = true ->
  mleIsDisabled (env w) = true
  \/ macCcaFailureRate (env w) < kCcaFailureRateThreshold K ->
  let w' := snd (TimerFired K pick w) in
  let now := timeNow (env w) in
  mState (cm w') = kStateIdle
  /\ mChannel (cm w') = mChannel (cm w)
  /\ randomDraws w' = randomDraws w
  /\ (mAutoSelectEnabled (cm w) = true ->
      mTimer (cm w') = mkTimer true (to_uint32 (now + SecToMsec (mAutoSelectInterval (cm w))))
      /\ events_since w w' = [EvTimerStartAt now (SecToMsec (mAutoSelectInterval (cm w)))])
  /\ (mAutoSelectEnabled (cm w) = false ->
      timerIsRunning (mTimer (cm w')) = false
      /\ events_since w w' = [EvTimerStop]).
Proof.
  intros Hst Hrun Hquiet. cbn zeta.
  assert (Hsel : RequestChannelSelect K pick false (expired w)
                 = (fst (RequestChannelSelect K pick false (expired w)), expired w)).
  { destruct (mleIsDisabled (env w)) eqn:Hmle.
    - rewrite (RequestChannelSelect_disabled K pick false (expired w) Hmle). reflexivity.
    - destruct Hquiet as [Hdis|Hrate]; [discriminate|].
      rewrite (RequestChannelSelect_gated K pick (expired w) Hmle Hrate). reflexivity. }
  assert (Hfire : snd (TimerFired K pick w) = snd (StartAutoSelectTimer (expired w))).
  { rewrite TimerFired_eq, Hrun, HandleTimer_eq.
    change (mState (cm (expired w))) with (mState (cm w)). rewrite Hst.
    unfold bind. rewrite Hsel. reflexivity. }
  rewrite Hfire. clear Hfire Hsel.
  destruct w as [c e draws requests tr].
  destruct c as [sup fav delay channel st tm interval enabled].
  cbn [cm mState] in Hst. subst st.
  unfold StartAutoSelectTimer, expired, events_since. unfold_monad. cbn.
  destruct enabled; cbn; rewrite skipn_app, skipn_all, Nat.sub_diag;
    (split; [reflexivity|]); (split; [reflexivity|]); (split; [reflexivity|]);
    (split; intros Hen; try discriminate Hen; split; reflexivity).
Qed.

Lemma TimerFired_idle_without_selection_witness :
  let w :=
    run Concrete.constants Concrete.choose [InSetAutoChannelSelectionEnabled true]
      (Concrete.world1_in
         (Concrete.with_time 3600000 (Concrete.with_cca 0 Concrete.environment))) in
  let w' := snd (TimerFired Concrete.constants Concrete.choose w) in
  mState (cm w') = kStateIdle /\ mTimer (cm w') = mkTimer true 7200000.
Proof.
  intros w w'.
  destruct (TimerFired_idle_without_selection Concrete.constants Concrete.choose w)
    as (Hst & _ & _ & Hstart & _).
  - reflexivity.
  - reflexivity.
  - right. vm_compute. reflexivity.
  - split; [exact Hst|]. apply Hstart. reflexivity.
Defined.

(** X20: enabling (or disabling) auto-selection twice is enabling (or
    disabling) it once: after a call of [SetAutoChannelSelectionEnabled]
    the flag has the value of the argument, so a second call with that
    value does nothing, no second selection in particular. *)
Theorem SetAutoChannelSelectionEnabled_twice
        (K : Constants) (pick : Z -> Z -> Z) (aEnabled : bool) (w : World) :
  let w' := snd (SetAutoChannelSelectionEnabled K pick aEnabled w) in
  mAutoSelectEnabled (cm w') = aEnabled
  /\ SetAutoChannelSelectionEnabled K pick aEnabled w' = (tt, w').
Proof.
  cbn zeta.
  assert (Hflag : mAutoSelectEnabled
                    (cm (snd (SetAutoChannelSelectionEnabled K pick aEnabled w)))
                  = aEnabled).
  { exact (f_equal snd (SetAutoChannelSelectionEnabled_config K pick aEnabled w)). }
  split; [exact Hflag|].
  rewrite (SetAutoChannelSelectionEnabled_eq K pick aEnabled
             (snd (SetAutoChannelSelectionEnabled K pick aEnabled w))).
  rewrite Hflag, eqb_reflx. reflexivity.
Qed.

(** *** How a change comes to be in progress *)

Lemma RequestChannelSelect_state
      (K : Constants) (pick : Z -> Z -> Z) (aSkipQualityCheck : bool) (w : World) :
  mState (cm (snd (RequestChannelSelect K pick aSkipQualityCheck w))) = mState (cm w)
  \/ mState (cm (snd (RequestChannelSelect K pick aSkipQualityCheck w)))
     = kStateChangeRequested.
Proof.
  destruct (RequestChannelSelect_world K pick aSkipQualityCheck w)
    as [Hw'|[Hw'|[newChannel Hw']]]; rewrite Hw'.
  - left. reflexivity.
  - left. reflexivity.
  - destruct (RequestChannelChange_requested K newChannel (after_draw w)) as [Hsame|[Hst _]].
    + left. rewrite Hsame. reflexivity.
    + right. exact Hst.
Qed.

Lemma StartDatasetUpdate_in_progress (K : Constants) (w : World) :
  mState (cm w) = kStateChangeRequested ->
  mState (cm (snd (StartDatasetUpdate K w))) = kStateChangeInProgress ->
  updaterResult (env w) (updateRequests w) = OT_ERROR_NONE.
Proof.
  destruct w as [c e draws requests tr].
  destruct c as [sup fav delay channel st tm interval enabled].
  cbn [cm env updateRequests mState]. intros Hst. subst st.
  unfold StartDatasetUpdate, StartAutoSelectTimer. unfold_monad. cbn.
  destruct (updaterResult e requests); cbn; try reflexivity;
    try (destruct enabled; cbn); intros Hin; discriminate Hin.
Qed.

(** X21: a change comes to be in progress in one way only.  Whatever the
    input, if the manager is in [kStateChangeInProgress] after it, then
    either it was so before, or the input is the expiry of the running
    timer while the change was requested and the updater has accepted the
    update.  No request, selection or callback puts a change in progress,
    and none starts from the idle state. *)
Theorem in_progress_only_by_accepted_update
        (K : Constants) (pick : Z -> Z -> Z) (i : Input) (w : World) :
  mState (cm (step K pick i w)) = kStateChangeInProgress ->
  mState (cm w) = kStateChangeInProgress
  \/ (i = InTimerFired
      /\ mState (cm w) = kStateChangeRequested
      /\ timerIsRunning (mTimer (cm w)) = true
      /\ updaterResult (env w) (updateRequests w) = OT_ERROR_NONE).
Proof.
  destruct i; cbn [step].
  - destruct (RequestChannelChange_requested K aChannel w) as [Hsame|[Hst _]].
    + rewrite Hsame. intros Hin. left. exact Hin.
    + rewrite Hst. discriminate.
  - unfold SetDelay. destruct (kMinimumDelay K <=? aDelay); intros Hin; left; exact Hin.
  - destruct (RequestChannelSelect_state K pick aSkipQualityCheck w) as [Hst|Hst];
      rewrite Hst; [intros Hin; left; exact Hin | discriminate].
  - rewrite SetAutoChannelSelectionEnabled_eq.
    destruct (Bool.eqb aEnabled (mAutoSelectEnabled (cm w))); [intros Hin; left; exact Hin|].
    set (w0 := snd (update_cm (set_mAutoSelectEnabled aEnabled) w)).
    destruct (StartAutoSelectTimer_neutral (snd (RequestChannelSelect K pick false w0)))
      as (Hauto & _).
    rewrite Hauto.
    destruct (RequestChannelSelect_state K pick false w0) as [Hst|Hst];
      rewrite Hst; [intros Hin; left; exact Hin | discriminate].
  - destruct (SetAutoChannelSelectionInterval_neutral K aInterval w) as (Hst & _).
    rewrite Hst. intros Hin. left. exact Hin.
  - intros Hin. left. exact Hin.
  - intros Hin. left. exact Hin.
  - rewrite TimerFired_eq.
    destruct (timerIsRunning (mTimer (cm w))) eqn:Hrun; [|intros Hin; left; exact Hin].
    rewrite HandleTimer_eq.
    change (mState (cm (expired w))) with (mState (cm w)).
    destruct (mState (cm w)) eqn:Hstw.
    + unfold bind.
      destruct (RequestChannelSelect_state K pick false (expired w)) as [Hst|Hst];
        destruct (RequestChannelSelect K pick false (expired w)) as [error w1];
        cbn [snd] in Hst;
        destruct (StartAutoSelectTimer_neutral w1) as (Hauto & _);
        rewrite Hauto, Hst; [|discriminate].
      change (mState (cm (expired w))) with (mState (cm w)). rewrite Hstw. discriminate.
    + intros Hin. right.
      split; [reflexivity|]. split; [reflexivity|]. split; [reflexivity|].
      apply (StartDatasetUpdate_in_progress K (expired w)); [exact Hstw | exact Hin].
    + intros _. left. reflexivity.
  - rewrite HandleDatasetUpdateDone_idle. discriminate.
  - intros Hin. left. exact Hin.
Qed.

Lemma in_progress_only_by_accepted_update_witness :
  let w :=
    run Concrete.constants Concrete.choose [InRequestChannelChange 20]
      (initial Concrete.constants Concrete.environment) in
  mState (cm w) = kStateChangeRequested
  /\ updaterResult (env w) (updateRequests w) = OT_ERROR_NONE.
Proof.
  intros w.
  destruct (in_progress_only_by_accepted_update Concrete.constants Concrete.choose
              InTimerFired w) as [Hin|(_ & Hst & _ & Hres)].
  - reflexivity.
  - discriminate Hin.
  - split; [exact Hst | exact Hres].
Defined.
